(** * SDRT client scripts: a shallow embedding and its properties

  The SDRT app attaches handlers to the forms of a Frappe/ERPNext
  site.  The handlers read and write the document objects the host
  keeps in [locals[doctype][name]] and call a few host functions
  ([frappe.model.set_value], [frappe.show_alert], [flt], ...).

  The embedding follows that shape: JavaScript values, document
  objects as finite maps from field names to values, the host's store
  of documents, and a small state-and-exception monad in which every
  handler is written statement by statement.  What the host provides
  and the repository only calls is gathered in the class [Host]. *)

From Stdlib Require Import ZArith Floats String Ascii List Bool Lia.
From stdpp Require Import gmap strings stringmap list.

Local Open Scope string_scope.
Local Open Scope Z_scope.

(** ** JavaScript values *)

Module JS.

(** A row of a child table is known to the host by its doctype and its
    name; an array of rows ([frm.doc.items]) holds such references, so
    that a row reached through the array and the row in [locals] are
    one object. *)
Definition ref : Type := string * string.

Inductive value :=
| VUndefined
| VNull
| VBool (b : bool)
| VNum (x : float)
| VStr (s : string)
| VRows (rows : list ref).

(** ToBoolean. *)
Definition truthy_num (x : float) : bool :=
  negb (PrimFloat.is_nan x || PrimFloat.eqb x 0%float).

Definition truthy (v : value) : bool :=
  match v with
  | VUndefined | VNull => false
  | VBool b => b
  | VNum x => truthy_num x
  | VStr s => negb (String.eqb s "")
  | VRows _ => true
  end.

(** [a || b] and [a && b] on values. *)
Definition js_or (a b : value) : value := if truthy a then a else b.
Definition js_and (a b : value) : value := if truthy a then b else a.

(** [x || d] where [x] is known to be a number. *)
Definition num_or (x d : float) : float := if truthy_num x then x else d.

(** [v === x] for a number [x]: [v] must be a number, compared as IEEE
    754 does (NaN differs from itself, the two zeros are equal). *)
Definition strict_eq_num (v : value) (x : float) : bool :=
  match v with
  | VNum y => PrimFloat.eqb y x
  | _ => false
  end.

(** [a === b] for two strings. *)
Definition strict_eq_str (a b : string) : bool := String.eqb a b.

(** [/^\d+$/.test(s)]: one or more characters, all of them in 0..9. *)
Definition is_digit (c : ascii) : bool :=
  let n := N_of_ascii c in (48 <=? n)%N && (n <=? 57)%N.

Fixpoint all_digits (s : string) : bool :=
  match s with
  | EmptyString => true
  | String c rest => is_digit c && all_digits rest
  end.

Definition test_digits (s : string) : bool :=
  negb (String.eqb s "") && all_digits s.

(** [s.startsWith(p)]. *)
Fixpoint starts_with (p s : string) : bool :=
  match p, s with
  | EmptyString, _ => true
  | String a p', String b s' => Ascii.eqb a b && starts_with p' s'
  | String _ _, EmptyString => false
  end.

#[global] Arguments starts_with : simpl never.
#[global] Arguments test_digits : simpl never.

(** [s.trim()], on the white space of ASCII. *)
Definition is_space (c : ascii) : bool :=
  let n := N_of_ascii c in ((9 <=? n)%N && (n <=? 13)%N) || (n =? 32)%N.

Fixpoint trim_start (s : string) : string :=
  match s with
  | EmptyString => EmptyString
  | String c rest => if is_space c then trim_start rest else s
  end.

Fixpoint trim_end (s : string) : string :=
  match s with
  | EmptyString => EmptyString
  | String c rest =>
      match trim_end rest with
      | EmptyString => if is_space c then EmptyString else String c EmptyString
      | rest' => String c rest'
      end
  end.

Definition trim (s : string) : string := trim_end (trim_start s).

(** A plain object: field name to value; an absent field reads as
    [undefined]. *)
Definition get (o : gmap string value) (k : string) : value :=
  default VUndefined (o !! k).

Inductive error :=
| TypeError (what : string)
| ReferenceError (name : string).

(** The number of elements of an array, as a number. *)
Definition num_of_nat (n : nat) : float :=
  PrimFloat.of_uint63 (Uint63.of_Z (Z.of_nat n)).

End JS.

Export JS.

(** ** Statements: state and abrupt completion *)

Module Stmt.

Inductive completion (E A : Type) :=
| Normal (a : A)
| Abrupt (e : E).
Arguments Normal {E A} a.
Arguments Abrupt {E A} e.

(** A statement runs in a state and completes normally or abruptly (an
    exception of a script, the [exit] of a shell script); what it did
    before completing abruptly stays done. *)
Definition ST (S E A : Type) : Type := S -> completion E A * S.

#[global] Instance ST_ret {S E} : MRet (ST S E) := fun A a s => (Normal a, s).
#[global] Instance ST_bind {S E} : MBind (ST S E) := fun A B f m s =>
  match m s with
  | (Normal a, s') => f a s'
  | (Abrupt e, s') => (Abrupt e, s')
  end.

Definition abrupt {S E A} (e : E) : ST S E A := fun s => (Abrupt e, s).
Definition when {S E} (b : bool) (m : ST S E unit) : ST S E unit :=
  if b then m else mret tt.

(** The state a statement leaves behind, however it completes. *)
Definition exec {S E A} (m : ST S E A) (s : S) : S := snd (m s).

(** [l.forEach(body)]. *)
Fixpoint for_each {S E A} (l : list A) (body : A -> ST S E unit) : ST S E unit :=
  match l with
  | [] => mret tt
  | x :: rest => body x;; for_each rest body
  end.

End Stmt.

Export Stmt.

(** ** The host: documents, effects and the functions the scripts call *)

Module Frappe.

(** A document object. *)
Abbreviation obj := (gmap string value).

(** What a script asks of the host, in the order it asks. *)
Inductive event :=
| SetValue (cdt cdn field : string) (v : value)
| ShowAlert (message indicator : string)
| Call (method : string) (args : list (string * value))
| RefreshField (field : string)
| SetTimeout (ms : Z) (rows : list (value * value)).

(** [locals[doctype][name]] and the trace of host calls. *)
Record world := World {
  locals : gmap string (gmap string obj);
  trace : list event
}.

Abbreviation M := (ST world error).

Definition throw {A} (e : error) : M A := abrupt e.

(** The form: [frm.doc] is [locals[frm.doctype][frm.docname]]. *)
Record form := Form { doctype : string; docname : string }.

Definition doc_ref (frm : form) : ref := (doctype frm, docname frm).

Definition lookup_doc (r : ref) (w : world) : option obj :=
  locals w !! r.1 ≫= (.!! r.2).

Definition store_doc (r : ref) (o : obj) (w : world) : world :=
  World (<[r.1 := <[r.2 := o]> (default ∅ (locals w !! r.1))]> (locals w)) (trace w).

(** [locals[cdt][cdn]]: the row, or [undefined] when the doctype has no
    such row; a doctype unknown to [locals] makes the second lookup a
    TypeError. *)
Definition locals_at (cdt cdn : string) : M (option ref) := fun w =>
  match locals w !! cdt with
  | None => (Abrupt (TypeError "locals[cdt] is undefined"), w)
  | Some docs =>
      match docs !! cdn with
      | Some _ => (Normal (Some (cdt, cdn)), w)
      | None => (Normal None, w)
      end
  end.

(** [frappe.get_doc(cdt, cdn)]: the row, or nothing; it never throws. *)
Definition get_doc (cdt cdn : string) : M (option ref) := fun w =>
  match lookup_doc (cdt, cdn) w with
  | Some _ => (Normal (Some (cdt, cdn)), w)
  | None => (Normal None, w)
  end.

(** [d.k] for a row [d]. *)
Definition get_prop (d : option ref) (k : string) : M value := fun w =>
  match d ≫= (fun r => lookup_doc r w) with
  | Some o => (Normal (get o k), w)
  | None => (Abrupt (TypeError "cannot read properties of undefined"), w)
  end.

(** [d.k = v] for a row [d]. *)
Definition set_prop (d : option ref) (k : string) (v : value) : M unit := fun w =>
  match d ≫= (fun r => lookup_doc r w), d with
  | Some o, Some r => (Normal tt, store_doc r (<[k := v]> o) w)
  | _, _ => (Abrupt (TypeError "cannot set properties of undefined"), w)
  end.

(** [frm.doc.k]. *)
Definition doc_prop (frm : form) (k : string) : M value :=
  get_prop (Some (doc_ref frm)) k.

Definition log (e : event) : M unit := fun w =>
  (Normal tt, World (locals w) (trace w ++ [e])).

(** [frappe.model.set_value(cdt, cdn, field, v)]: the host assigns the
    field of the document when there is one.  It then notifies the
    form's handlers of that field from its own event loop, which is not
    part of a handler's run. *)
Definition set_value (cdt cdn field : string) (v : value) : M unit := fun w =>
  let w' := World (locals w) (trace w ++ [SetValue cdt cdn field v]) in
  match lookup_doc (cdt, cdn) w' with
  | Some o => (Normal tt, store_doc (cdt, cdn) (<[field := v]> o) w')
  | None => (Normal tt, w')
  end.

(** [frappe.show_alert({message, indicator})]. *)
Definition show_alert (message indicator : string) : M unit :=
  log (ShowAlert message indicator).

(** [frm.refresh_field(field)]. *)
Definition refresh_field (field : string) : M unit :=
  log (RefreshField field).

(** The functions of the host and of the language run time that the
    scripts call and this repository does not define. *)
Class Host := {
  (** [flt(v)], [frappe.utils.flt(v)]: the number a field value stands for. *)
  flt : value -> float;
  (** [String(x)] of a number. *)
  number_to_string : float -> string;
  (** [frappe.datetime.get_diff(a, b)]: days from [b] to [a]. *)
  get_diff : value -> value -> Z;
  (** [frappe.datetime.add_days(d, n)]. *)
  add_days : value -> Z -> value;
  (** [__(text, args)]: the translation of a message. *)
  translate : string -> list value -> string;
  (** The row [frm.add_child(field)] makes for a form: its reference
      and its first fields.  The row is new to [locals] and carries its
      own doctype and name. *)
  new_child : gmap string (gmap string obj) -> form -> string -> ref * obj;
  new_child_fresh : forall ls frm field,
    ls !! (new_child ls frm field).1.1 ≫= (.!! (new_child ls frm field).1.2) = None;
  new_child_named : forall ls frm field,
    get (new_child ls frm field).2 "doctype" = VStr (new_child ls frm field).1.1 /\
    get (new_child ls frm field).2 "name" = VStr (new_child ls frm field).1.2
}.

Section WithHost.
Context `{Host}.

(** [String(v)]. *)
Definition to_string (v : value) : string :=
  match v with
  | VUndefined => "undefined"
  | VNull => "null"
  | VBool true => "true"
  | VBool false => "false"
  | VNum x => number_to_string x
  | VStr s => s
  | VRows rows => String.concat "," (map (fun _ => "[object Object]") rows)
  end.

(** [v.toString()]. *)
Definition toString (v : value) : M string :=
  match v with
  | VUndefined | VNull => throw (TypeError "cannot read properties of undefined")
  | _ => mret (to_string v)
  end.

(** [v.startsWith(p)]: a method of strings only. *)
Definition startsWith (v : value) (p : string) : M bool :=
  match v with
  | VStr s => mret (starts_with p s)
  | VUndefined | VNull => throw (TypeError "cannot read properties of undefined")
  | _ => throw (TypeError "startsWith is not a function")
  end.

(** [v.trim()]: a method of strings only. *)
Definition trim_of (v : value) : M string :=
  match v with
  | VStr s => mret (trim s)
  | VUndefined | VNull => throw (TypeError "cannot read properties of undefined")
  | _ => throw (TypeError "trim is not a function")
  end.

(** [/^\d+$/.test(v)]. *)
Definition test_numeric (v : value) : bool := test_digits (to_string v).

(** The rows of an array value, for [forEach]. *)
Definition rows_of (v : value) : M (list ref) :=
  match v with
  | VRows rows => mret rows
  | VUndefined | VNull => throw (TypeError "cannot read properties of undefined")
  | _ => throw (TypeError "forEach is not a function")
  end.

(** The rows of the table [doc[field]]; a table that is not there yet
    has none. *)
Definition table_rows (doc : obj) (field : string) : list ref :=
  match get doc field with
  | VRows rows => rows
  | _ => []
  end.

(** [frm.add_child(field)]: the host makes a row, files it in [locals]
    and appends it to the table [frm.doc[field]] (an absent table starts
    empty). *)
Definition add_child (frm : form) (field : string) : M (option ref) := fun w =>
  match lookup_doc (doc_ref frm) w with
  | None => (Abrupt (TypeError "cannot read properties of undefined"), w)
  | Some doc =>
      let '(r, o) := new_child (locals w) frm field in
      let table := <[field := VRows (table_rows doc field ++ [r])]> doc in
      (Normal (Some r), store_doc r o (store_doc (doc_ref frm) table w))
  end.

End WithHost.

End Frappe.

Export Frappe.

(** ** sdrt/doctype/table_demande_dachat/table_demande_dachat.js *)

Module TableDemandeDachat.
Section Handlers.
Context `{Host}.

Definition compute (cdt cdn : string) : M unit :=
  row ← locals_at cdt cdn;
  match row with
  | None => mret tt
  | Some _ =>
      qte ← get_prop row "qte";
      let q := num_or (flt qte) 0 in
      pu_field ← get_prop row "pu";
      let pu := num_or (flt pu_field) 0 in
      let est := (q * pu)%float in
      (* Avoid unnecessary model writes *)
      if (0 <=? est)%float then
        estimation ← get_prop row "estimation";
        when (negb (strict_eq_num estimation est))
             (set_value cdt cdn "estimation" (VNum est))
      else mret tt
  end.

(** [frappe.ui.form.on(doctype, { qte, pu, form_render })]. *)
Definition qte (frm : form) (cdt cdn : string) : M unit := compute cdt cdn.
Definition pu (frm : form) (cdt cdn : string) : M unit := compute cdt cdn.
Definition form_render (frm : form) (cdt cdn : string) : M unit := compute cdt cdn.

End Handlers.
End TableDemandeDachat.

(** ** The Material Request script (handlers of 'table demande dachat') *)

Module MaterialRequest.
Section Handlers.
Context `{Host}.

(** The script calls [recalc_total], whose definition is commented out
    in the file: the name is unbound when a handler reaches the call. *)
Definition recalc_total (frm : form) : M unit :=
  throw (ReferenceError "recalc_total").

Definition recalc_row_and_total (cdt cdn : string) (frm : form) : M unit :=
  row ← get_doc cdt cdn;
  qte ← get_prop row "qte";
  let qty := num_or (flt qte) 0 in
  pu_field ← get_prop row "pu";
  let pu := num_or (flt pu_field) 0 in
  let new_estimation := (qty * pu)%float in
  estimation ← get_prop row "estimation";
  when (negb (strict_eq_num estimation new_estimation))
       (set_value cdt cdn "estimation" (VNum new_estimation));;
  recalc_total frm.

Definition qte (frm : form) (cdt cdn : string) : M unit :=
  recalc_row_and_total cdt cdn frm.
Definition pu (frm : form) (cdt cdn : string) : M unit :=
  recalc_row_and_total cdt cdn frm.

End Handlers.
End MaterialRequest.

(** ** sdrt/public/js/purchase_receipt.js *)

Module PurchaseReceiptPublic.
Section Handlers.
Context `{Host}.

Definition item_code (frm : form) (cdt cdn : string) : M unit :=
  d ← locals_at cdt cdn;
  code ← get_prop d "item_code";
  (* If numeric-only item code sneaks in (like "1"), try to replace
     with code_analytique *)
  if truthy code && test_numeric code then
    code_analytique ← get_prop d "code_analytique";
    let fallback := js_or code_analytique (VStr "") in
    when (truthy fallback) (set_value cdt cdn "item_code" fallback)
  else mret tt.

Definition code_analytique (frm : form) (cdt cdn : string) : M unit :=
  d ← locals_at cdt cdn;
  code ← get_prop d "code_analytique";
  if negb (truthy code) then mret tt else
  item_name ← get_prop d "item_name";
  description ← get_prop d "description";
  log (Call "sdrt.sdrt.custom.ensure_budget_item"
         [("code", code);
          ("description", js_or (js_or item_name description) code)]).

(** The callback of that call, run by the host with the answer
    [r.message] (an object, or nothing); [d] is the row the handler
    looked up. *)
Definition code_analytique_callback (cdt cdn : string) (message : option obj)
  : M unit :=
  let d := Some (cdt, cdn) in
  match message with
  | None => mret tt
  | Some info =>
      set_value cdt cdn "item_code" (get info "item_code");;
      item_name ← get_prop d "item_name";
      when (negb (truthy item_name))
           (set_value cdt cdn "item_name"
              (js_or (get info "item_name") (get info "item_code")));;
      uom ← get_prop d "uom";
      when (negb (truthy uom))
           (set_value cdt cdn "uom" (js_or (get info "stock_uom") (VStr "Nos")));;
      stock_uom ← get_prop d "stock_uom";
      when (negb (truthy stock_uom))
           (set_value cdt cdn "stock_uom" (js_or (get info "stock_uom") (VStr "Nos")));;
      conversion_factor ← get_prop d "conversion_factor";
      when (negb (truthy conversion_factor))
           (set_value cdt cdn "conversion_factor" (VNum 1))
  end.

End Handlers.
End PurchaseReceiptPublic.

(** ** sdrt/sdrt/custom/purchase_receipt.js *)

Module PurchaseReceiptCustom.
Section Handlers.
Context `{Host}.

Definition item_code (frm : form) (cdt cdn : string) : M unit :=
  item ← locals_at cdt cdn;
  code ← get_prop item "item_code";
  (* If user manually enters a numeric item_code (like "1"),
     replace with placeholder to avoid pricing errors *)
  numeric ← (if truthy code then s ← toString code; mret (test_digits s)
             else mret false : M bool);
  if (numeric : bool) then
    set_value cdt cdn "item_code" (VStr "BUDGET-LINE");;
    show_alert (translate "Invalid item code replaced with placeholder" []) "orange"
  else mret tt.

Definition validate (frm : form) (cdt cdn : string) : M unit :=
  item ← locals_at cdt cdn;
  code ← get_prop item "item_code";
  (* Ensure item_code is valid before processing *)
  invalid ← (if truthy code then
               placeholder ← startsWith code "BUDGET-LINE";
               if negb placeholder then s ← toString code; mret (test_digits s)
               else mret false
             else mret false : M bool);
  when (invalid : bool) (set_value cdt cdn "item_code" (VStr "BUDGET-LINE")).

End Handlers.
End PurchaseReceiptCustom.

(** ** The Purchase Receipt script with the fallback guard at three points *)

Module PurchaseReceiptGuard.
Section Handlers.
Context `{Host}.

Definition item_code (frm : form) (cdt cdn : string) : M unit :=
  item ← locals_at cdt cdn;
  code ← get_prop item "item_code";
  (* If user manually enters a numeric item_code (like "1"), replace
     with the budget item code when available, else keep as-is *)
  numeric ← (if truthy code then s ← toString code; mret (test_digits s)
             else mret false : M bool);
  if (numeric : bool) then
    code_analytique ← get_prop item "code_analytique";
    let fallback := js_or code_analytique VNull in
    when (truthy fallback) (set_value cdt cdn "item_code" fallback);;
    show_alert (translate "Invalid item code corrected" []) "orange"
  else mret tt.

Definition validate (frm : form) (cdt cdn : string) : M unit :=
  item ← locals_at cdt cdn;
  code ← get_prop item "item_code";
  (* Ensure item_code is not a pure number *)
  numeric ← (if truthy code then s ← toString code; mret (test_digits s)
             else mret false : M bool);
  if (numeric : bool) then
    code_analytique ← get_prop item "code_analytique";
    let fallback := js_or code_analytique VNull in
    when (truthy fallback) (set_value cdt cdn "item_code" fallback)
  else mret tt.

(** The body of the loop of [before_save], for one row of the table. *)
Definition before_save_item (item : ref) : M unit :=
  code ← get_prop (Some item) "item_code";
  numeric ← (if truthy code then s ← toString code; mret (test_digits s)
             else mret false : M bool);
  fix_it ← (if (numeric : bool) then
              code_analytique ← get_prop (Some item) "code_analytique";
              mret (truthy code_analytique)
            else mret false : M bool);
  if (fix_it : bool) then
    item_doctype ← get_prop (Some item) "doctype";
    item_name ← get_prop (Some item) "name";
    code_analytique ← get_prop (Some item) "code_analytique";
    set_value (to_string item_doctype) (to_string item_name)
              "item_code" code_analytique
  else mret tt.

Definition before_save (frm : form) : M unit :=
  (* Last-resort fix before saving *)
  items ← doc_prop frm "items";
  if truthy items then
    rows ← rows_of items;
    for_each rows before_save_item
  else mret tt.

End Handlers.
End PurchaseReceiptGuard.

(** ** The Purchase Order script: schedule dates and the budget-line import *)

Module PurchaseOrder.
Section Handlers.
Context `{Host}.

Definition validate_schedule_date (frm : form) (cdt cdn : string) : M unit :=
  item ← locals_at cdt cdn;
  schedule_date ← get_prop item "schedule_date";
  if negb (truthy schedule_date) then mret tt else
  transaction_date ← doc_prop frm "transaction_date";
  if negb (truthy transaction_date) then mret tt else
  (* Check if schedule_date is earlier than transaction_date *)
  if get_diff schedule_date transaction_date <? 0 then
    (* Set to 7 days from transaction_date *)
    transaction_date ← doc_prop frm "transaction_date";
    let new_date := add_days transaction_date 7 in
    set_value cdt cdn "schedule_date" new_date;;
    show_alert
      (translate "Required By date adjusted to be after transaction date" [])
      "orange"
  else mret tt.

Definition schedule_date (frm : form) (cdt cdn : string) : M unit :=
  validate_schedule_date frm cdt cdn.

(** One row of [normalize_item_descriptions]; the result is the new
    value of [changed]. *)
Definition normalize_item (changed : bool) (it : ref) : M bool :=
  item_name ← get_prop (Some it) "item_name";
  name_is_budget_code ←
    (if truthy item_name then
       code_analytique ← get_prop (Some it) "code_analytique";
       if truthy code_analytique then
         a ← trim_of item_name;
         b ← trim_of code_analytique;
         mret (strict_eq_str a b)
       else mret false
     else mret false : M bool);
  details ← get_prop (Some it) "details";
  let has_details_desc :=
    truthy details && (0 <? Z.of_nat (String.length (trim (to_string details)))) in
  if (name_is_budget_code : bool) && has_details_desc then
    (* Move details to short description and clear details *)
    details ← get_prop (Some it) "details";
    set_prop (Some it) "item_name" (VStr (trim (to_string details)));;
    set_prop (Some it) "details" (VStr "");;
    mret true
  else mret changed.

Fixpoint normalize_items (changed : bool) (rows : list ref) : M bool :=
  match rows with
  | [] => mret changed
  | it :: rest => changed' ← normalize_item changed it; normalize_items changed' rest
  end.

Definition normalize_item_descriptions (frm : form) : M unit :=
  items ← doc_prop frm "items";
  rows ← (if truthy items then rows_of items else mret []);
  changed ← normalize_items false rows;
  when changed (refresh_field "items").

(** One budget line of [add_budget_lines_to_po]: the body of the loop;
    the result is what the loop pushes on [added_rows]. *)
Definition add_budget_line (frm : form) (line : obj) : M (value * value) :=
  item ← add_child frm "items";
  (* Use the real Item code equal to the budget analytic code *)
  set_prop item "item_code" (js_or (get line "code_analytique") (VStr ""));;
  set_prop item "code_analytique" (get line "code_analytique");;
  described ← (if truthy (get line "description") then
                 s ← trim_of (get line "description"); mret (truthy (VStr s))
               else mret false : M bool);
  set_prop item "item_name"
    (if (described : bool) then get line "description"
     else js_or (get line "code_analytique") (VStr (translate "Budget Line" [])));;
  set_prop item "details" (VStr "");;
  (* Quantities and rates *)
  set_prop item "qty" (js_or (get line "qty") (VNum 1));;
  set_prop item "rate" (js_or (get line "rate") (VNum 0));;
  set_prop item "uom" (js_or (get line "uom") (VStr "Nos"));;
  set_prop item "stock_uom" (js_or (get line "uom") (VStr "Nos"));;
  set_prop item "conversion_factor" (VNum 1);;
  (* Ensure schedule_date is not earlier than transaction_date *)
  doc_schedule_date ← (if truthy (get line "schedule_date") then mret VUndefined
                       else doc_prop frm "schedule_date" : M value);
  let schedule_date := js_or (get line "schedule_date") doc_schedule_date in
  early ← (if negb (truthy schedule_date) then mret true else
             transaction_date ← doc_prop frm "transaction_date";
             mret (get_diff schedule_date transaction_date <? 0) : M bool);
  schedule_date ← (if (early : bool) then
                     transaction_date ← doc_prop frm "transaction_date";
                     mret (add_days transaction_date 7)
                   else mret schedule_date : M value);
  set_prop item "schedule_date" schedule_date;;
  (* Pre-calc amount for grid display; ERPNext will recompute *)
  qty ← get_prop item "qty";
  rate ← get_prop item "rate";
  set_prop item "amount"
    (VNum (num_or (flt qty) 0 * num_or (flt rate) 0)%float);;
  item_doctype ← get_prop item "doctype";
  item_name ← get_prop item "name";
  mret (item_doctype, item_name).

Fixpoint add_budget_lines (frm : form) (budget_lines : list obj)
    (added_rows : list (value * value)) : M (list (value * value)) :=
  match budget_lines with
  | [] => mret added_rows
  | line :: rest =>
      added ← add_budget_line frm line;
      add_budget_lines frm rest (added_rows ++ [added])
  end.

Definition add_budget_lines_to_po (frm : form) (budget_lines : list obj) : M unit :=
  (* Add lines to Purchase Order using the auto-created Item matching
     the budget code *)
  added_rows ← add_budget_lines frm budget_lines [];
  (* Refresh and trigger calculations *)
  refresh_field "items";;
  (* Normalize labels vs details for clean UI *)
  normalize_item_descriptions frm;;
  (* Trigger qty event for each added row to ensure totals recalc *)
  log (SetTimeout 100 added_rows);;
  show_alert
    (translate "Added {0} budget lines" [VNum (num_of_nat (length budget_lines))])
    "green".

End Handlers.
End PurchaseOrder.

(** ** install_on_target.sh *)

Module InstallOnTarget.

(** What the script does that can be seen from outside, in order. *)
Inductive action :=
| Echo (line : string)
| Ls (lines : list string)
| Mv (source target : string)
| Append (line file : string)
| Bench (args : list string).

(** The bench directory the script is started in. *)
Record machine := Machine {
  files : gset string;        (* regular files, by path from the directory *)
  dirs : gset string;         (* directories, by path from the directory *)
  apps_txt : list string;     (* the lines of sites/apps.txt *)
  sites : list string;        (* what [ls -1 sites/] prints *)
  pwd : string;
  did : list action
}.

(** The script under [set -e]: a statement ends the run with an exit
    status, or goes on. *)
Abbreviation Sh := (ST machine Z).

Definition exit {A} (status : Z) : Sh A := abrupt status.

Definition act (a : action) : Sh unit := fun m =>
  (Normal tt, Machine (files m) (dirs m) (apps_txt m) (sites m) (pwd m) (did m ++ [a])).

Definition echo (line : string) : Sh unit := act (Echo line).

(** [[ -f path ]] and [[ -d path ]]. *)
Definition test_f (path : string) : Sh bool := fun m =>
  (Normal (bool_decide (path ∈ files m)), m).
Definition test_d (path : string) : Sh bool := fun m =>
  (Normal (bool_decide (path ∈ dirs m)), m).

(** A pattern of [grep] made of plain characters and of dots, found
    somewhere in a line. *)
Fixpoint matches_here (pat line : string) : bool :=
  match pat, line with
  | EmptyString, _ => true
  | String p pat', String c line' =>
      (Ascii.eqb p "." || Ascii.eqb p c) && matches_here pat' line'
  | String _ _, EmptyString => false
  end.

Fixpoint grep (pat line : string) : bool :=
  matches_here pat line ||
  match line with
  | EmptyString => false
  | String _ line' => grep pat line'
  end.

(** The words an unquoted [$SITE_NAME] expands to (no globbing). *)
Definition is_blank (c : ascii) : bool :=
  Ascii.eqb c " " || Ascii.eqb c "009" || Ascii.eqb c "010".

Fixpoint words_from (word : string) (s : string) : list string :=
  match s with
  | EmptyString => if String.eqb word "" then [] else [word]
  | String c rest =>
      if is_blank c then
        (if String.eqb word "" then [] else [word]) ++ words_from "" rest
      else words_from (word +:+ String c "") rest
  end.

Definition words (s : string) : list string := words_from "" s.

Section Script.

(** The host's command line: the exit status and the output of a
    [bench] command. *)
Variable bench_result : list string -> machine -> Z * list string.

(** [bench args] as a simple command: under [set -e] a failure ends the
    script with the command's status. *)
Definition bench (args : list string) : Sh unit := fun m =>
  let m' := snd (act (Bench args) m) in
  let status := fst (bench_result args m) in
  if status =? 0 then (Normal tt, m') else (Abrupt status, m').

(** [bench args] where its status is only looked at. *)
Definition bench_status (args : list string) : Sh Z := fun m =>
  (Normal (fst (bench_result args m)), snd (act (Bench args) m)).

Definition bench_output (args : list string) : Sh (list string) := fun m =>
  (Normal (snd (bench_result args m)), snd (act (Bench args) m)).

(** [mv sdrt apps/]: it needs the directory [apps]. *)
Definition mv_sdrt_to_apps : Sh unit := fun m =>
  let m' := snd (act (Mv "sdrt" "apps/") m) in
  if bool_decide ("apps" ∈ dirs m) then
    (Normal tt,
     Machine (files m') ({["apps/sdrt"]} ∪ dirs m' ∖ {["sdrt"]})
             (apps_txt m') (sites m') (pwd m') (did m'))
  else (Abrupt 1, m').

(** [echo "sdrt" >> sites/apps.txt]. *)
Definition append_sdrt : Sh unit := fun m =>
  let m' := snd (act (Append "sdrt" "sites/apps.txt") m) in
  (Normal tt,
   Machine (files m') (dirs m') (apps_txt m' ++ ["sdrt"]) (sites m') (pwd m') (did m')).

(** [ls -1 sites/ | grep -v assets | grep -v apps.txt | grep -v
    common_site_config.json]; the status is that of the last [grep]. *)
Definition list_sites : Sh unit := fun m =>
  let shown :=
    filter (fun l => negb (grep "assets" l) && negb (grep "apps.txt" l)
                     && negb (grep "common_site_config.json" l)) (sites m) in
  let m' := snd (act (Ls shown) m) in
  match shown with
  | [] => (Abrupt 1, m')
  | _ => (Normal tt, m')
  end.

Definition install_on_target (script : string) (argv : list string) : Sh unit :=
  echo "=== SDRT App Installation Script ===";;
  echo "Installing SDRT app in Frappe environment...";;
  (* Check if we're in a frappe-bench directory *)
  apps_file ← test_f "sites/apps.txt";
  when (negb apps_file)
    (echo "❌ Error: This doesn't appear to be a frappe-bench directory";;
     echo "Please run this script from your frappe-bench folder";;
     exit 1);;
  (* Check if sdrt directory exists *)
  sdrt_dir ← test_d "sdrt";
  when (negb sdrt_dir)
    (echo "❌ Error: sdrt directory not found";;
     echo "Please ensure you've extracted the sdrt-app.tar.gz file in the current directory";;
     exit 1);;
  (* Get site name *)
  let arg1 := nth 0 argv "" in
  when (String.eqb arg1 "")
    (echo "Please provide the site name as an argument:";;
     echo ("Usage: " +:+ script +:+ " your-site-name");;
     exit 1);;
  let SITE_NAME := arg1 in
  (* Validate site exists *)
  site_dir ← test_d ("sites/" +:+ SITE_NAME);
  when (negb site_dir)
    (echo ("❌ Error: Site '" +:+ SITE_NAME +:+ "' not found");;
     echo "Available sites:";;
     list_sites;;
     exit 1);;
  echo ("Installing SDRT app for site: " +:+ SITE_NAME);;
  (* Step 1: Move app to apps directory if not already there *)
  in_apps ← test_d "apps/sdrt";
  (if negb in_apps then
     echo "📁 Moving sdrt to apps directory...";;
     mv_sdrt_to_apps
   else echo "📁 SDRT app already in apps directory");;
  (* Step 2: Add app to apps.txt if not already there *)
  echo "📋 Adding app to apps.txt...";;
  listed ← (fun m => (Normal (existsb (String.eqb "sdrt") (apps_txt m)), m));
  (if negb listed then
     append_sdrt;;
     echo "✓ Added sdrt to apps.txt"
   else echo "✓ sdrt already in apps.txt");;
  (* Step 3: Get the app (this registers it with bench) *)
  echo "📋 Registering app with bench...";;
  APP_PATH ← (fun m => (Normal (pwd m +:+ "/apps/sdrt"), m));
  registered ← bench_status ["get-app"; APP_PATH];
  when (negb (registered =? 0)) (echo "⚠️  App may already be registered");;
  (* Step 4: Install the app on the site *)
  echo ("🔧 Installing app on site " +:+ SITE_NAME +:+ "...");;
  bench (["--site"] ++ words SITE_NAME ++ ["install-app"; "sdrt"]);;
  (* Step 5: Clear cache and build the app *)
  echo "🧹 Clearing cache...";;
  bench (["--site"] ++ words SITE_NAME ++ ["clear-cache"]);;
  echo "🏗️  Building app assets...";;
  bench ["build"; "--app"; "sdrt"];;
  (* Step 6: Run migrations *)
  echo "🔄 Running migrations...";;
  bench (["--site"] ++ words SITE_NAME ++ ["migrate"]);;
  (* Step 7: Restart services *)
  echo "🔄 Restarting services...";;
  bench ["restart"];;
  (* Step 8: Verify installation *)
  echo "🔍 Verifying installation...";;
  apps ← bench_output (["--site"] ++ words SITE_NAME ++ ["list-apps"]);
  (if existsb (grep "sdrt") apps then
     echo "✅ SDRT App installation completed successfully!";;
     echo "🌐 You can now access your site at: http://your-domain:8000";;
     echo "";;
     echo "🎉 Installation Summary:";;
     echo "   ✓ App registered with bench";;
     echo ("   ✓ Installed on site: " +:+ SITE_NAME);;
     echo "   ✓ Assets built successfully";;
     echo "   ✓ Migrations completed";;
     echo "   ✓ Services restarted"
   else
     echo "⚠️  Installation may have issues. Please check manually:";;
     echo ("   bench --site " +:+ SITE_NAME +:+ " list-apps"));;
  echo "";;
  echo "🔧 If you encounter any issues, try:";;
  echo "   bench clear-cache";;
  echo "   bench build";;
  echo "   bench restart".

End Script.

End InstallOnTarget.

(** ** A host to run the scripts on

    The properties below hold for every host.  To run a handler on a
    given row one host is spelt out: a site without translations whose
    dates are the ISO strings of Frappe's Date fields. *)

Module Site.

(** Decimal digits of a natural number. *)
Fixpoint digits_of (fuel : nat) (n : Z) (acc : string) : string :=
  match fuel with
  | O => acc
  | S fuel' =>
      let acc' := String (ascii_of_N (48 + Z.to_N (n mod 10))) acc in
      if n <? 10 then acc' else digits_of fuel' (n / 10) acc'
  end.

Definition decimal (n : Z) : string := digits_of (S (Z.to_nat (Z.log2 n))) n "".

Definition pad2 (n : Z) : string :=
  if n <? 10 then "0" +:+ decimal n else decimal n.

Fixpoint number_of (s : string) (acc : Z) : option Z :=
  match s with
  | EmptyString => Some acc
  | String c rest =>
      if is_digit c then number_of rest (10 * acc + (Z.of_N (N_of_ascii c) - 48))
      else None
  end.

(** Days since 1970-01-01 of a date of the Gregorian calendar, and
    back. *)
Definition days_from_civil (y m d : Z) : Z :=
  let y' := if m <=? 2 then y - 1 else y in
  let era := y' / 400 in
  let yoe := y' - era * 400 in
  let mp := (m + 9) mod 12 in
  let doy := (153 * mp + 2) / 5 + d - 1 in
  let doe := yoe * 365 + yoe / 4 - yoe / 100 + doy in
  era * 146097 + doe - 719468.

Definition civil_from_days (z : Z) : Z * Z * Z :=
  let z' := z + 719468 in
  let era := z' / 146097 in
  let doe := z' - era * 146097 in
  let yoe := (doe - doe / 1460 + doe / 36524 - doe / 146096) / 365 in
  let doy := doe - (365 * yoe + yoe / 4 - yoe / 100) in
  let mp := (5 * doy + 2) / 153 in
  let d := doy - (153 * mp + 2) / 5 + 1 in
  let m := if mp <? 10 then mp + 3 else mp - 9 in
  (yoe + era * 400 + (if m <=? 2 then 1 else 0), m, d).

(** The day number of a value that starts with YYYY-MM-DD. *)
Definition day_of (v : value) : option Z :=
  match v with
  | VStr s =>
      match number_of (substring 0 4 s) 0, number_of (substring 5 2 s) 0,
            number_of (substring 8 2 s) 0 with
      | Some y, Some m, Some d =>
          if (10 <=? Z.of_nat (String.length s)) && (1 <=? m) && (m <=? 12)
             && (1 <=? d) && (d <=? 31)
          then Some (days_from_civil y m d) else None
      | _, _, _ => None
      end
  | _ => None
  end.

Definition iso_date (z : Z) : string :=
  let '(y, m, d) := civil_from_days z in
  decimal y +:+ "-" +:+ pad2 m +:+ "-" +:+ pad2 d.

(** [get_diff]: whole days between two dates; a date that cannot be
    read gives no negative difference. *)
Definition get_diff (a b : value) : Z :=
  match day_of a, day_of b with
  | Some x, Some y => x - y
  | _, _ => 0
  end.

Definition add_days (d : value) (n : Z) : value :=
  match day_of d with
  | Some x => VStr (iso_date (x + n))
  | None => VStr "Invalid date"
  end.

(** [flt] on the values of a Float field: a number is returned as it
    is, an empty field is 0.  (Frappe's [flt] also reads numbers out of
    strings; this site reads a string as 0.) *)
Definition flt (v : value) : float :=
  match v with
  | VNum x => x
  | _ => 0%float
  end.

(** [String(x)] for the integers below 2^53 in size, NaN and the
    infinities; another number is printed as [x], which no field of the
    rows below holds. *)
Definition integer_of (x : float) : option Z :=
  match Prim2SF x with
  | S754_zero _ => Some 0
  | S754_finite s m e =>
      let sign := if s then -1 else 1 in
      if 0 <=? e then Some (sign * (Z.pos m * 2 ^ e))
      else if Z.pos m mod 2 ^ (- e) =? 0 then Some (sign * (Z.pos m / 2 ^ (- e)))
      else None
  | _ => None
  end.

Definition number_to_string (x : float) : string :=
  match integer_of x with
  | Some z =>
      if Z.abs z <? 2 ^ 53
      then (if z <? 0 then "-" +:+ decimal (- z) else decimal z)
      else "x"
  | None =>
      if PrimFloat.is_nan x then "NaN"
      else if PrimFloat.is_infinity x
           then (if (x <? 0)%float then "-Infinity" else "Infinity")
           else "x"
  end.

(** [__]: no translation; the text with nothing filled in. *)
Definition translate (text : string) (args : list value) : string := text.

(** [add_child]: the table of a form holds rows of the doctype
    "<doctype> Item", named by the first free name. *)
Definition new_child (ls : gmap string (gmap string obj)) (frm : form)
    (field : string) : ref * obj :=
  let cdt := doctype frm +:+ " Item" in
  let cdn := fresh_string "new-row-" (default ∅ (ls !! cdt)) in
  ((cdt, cdn),
   {[ "doctype" := VStr cdt; "name" := VStr cdn;
      "parent" := VStr (docname frm); "parenttype" := VStr (doctype frm);
      "parentfield" := VStr field ]}).

#[local, refine] Instance site : Host := {|
  Frappe.flt := flt;
  Frappe.number_to_string := number_to_string;
  Frappe.get_diff := get_diff;
  Frappe.add_days := add_days;
  Frappe.translate := translate;
  Frappe.new_child := new_child
|}.
Proof.
  - intros ls frm field. simpl.
    destruct (ls !! (doctype frm +:+ " Item")) as [docs|] eqn:E; simpl.
    + apply fresh_string_fresh.
    + reflexivity.
  - intros ls frm field. split; reflexivity.
Defined.

End Site.

(** * Properties *)

(** ** Documents in the store *)

Section Store.

Lemma lookup_store_eq r o w : lookup_doc r (store_doc r o w) = Some o.
Proof.
  unfold lookup_doc, store_doc; simpl.
  rewrite lookup_insert_eq; simpl. apply lookup_insert_eq.
Qed.

Lemma lookup_store_ne r r' o w :
  r ≠ r' -> lookup_doc r' (store_doc r o w) = lookup_doc r' w.
Proof.
  intros Hne. unfold lookup_doc, store_doc; simpl.
  destruct r as [dt dn], r' as [dt' dn']; simpl.
  destruct (decide (dt = dt')) as [->|Hdt].
  - rewrite lookup_insert_eq; simpl.
    rewrite lookup_insert_ne by congruence.
    destruct (locals w !! dt'); reflexivity.
  - rewrite lookup_insert_ne by assumption. reflexivity.
Qed.

Lemma lookup_store r r' o w :
  lookup_doc r' (store_doc r o w) = if decide (r = r') then Some o else lookup_doc r' w.
Proof.
  destruct (decide (r = r')) as [->|Hne].
  - apply lookup_store_eq.
  - apply lookup_store_ne, Hne.
Qed.

(** The value of a field of a document, when there is one. *)
Definition field (r : ref) (k : string) (w : world) : option value :=
  lookup_doc r w ≫= (.!! k).

End Store.

(** ** Running statements *)

Section Run.

Lemma run_bind {S E A B} (m : ST S E A) (f : A -> ST S E B) s :
  (m ≫= f) s =
  match m s with
  | (Normal a, s') => f a s'
  | (Abrupt e, s') => (Abrupt e, s')
  end.
Proof. reflexivity. Qed.

Lemma run_ret {S E A} (a : A) (s : S) : (mret a : ST S E A) s = (Normal a, s).
Proof. reflexivity. Qed.

Lemma run_locals_at cdt cdn w o :
  lookup_doc (cdt, cdn) w = Some o ->
  locals_at cdt cdn w = (Normal (Some (cdt, cdn)), w).
Proof.
  unfold lookup_doc, locals_at; simpl. intros Hrow.
  destruct (locals w !! cdt) as [docs|]; simpl in Hrow; [|discriminate].
  rewrite Hrow. reflexivity.
Qed.

Lemma run_get_doc cdt cdn w o :
  lookup_doc (cdt, cdn) w = Some o ->
  get_doc cdt cdn w = (Normal (Some (cdt, cdn)), w).
Proof. unfold get_doc. intros ->. reflexivity. Qed.

Lemma run_get_prop r k w o :
  lookup_doc r w = Some o ->
  get_prop (Some r) k w = (Normal (get o k), w).
Proof. unfold get_prop; simpl. intros ->. reflexivity. Qed.

Lemma run_set_prop r k v w o :
  lookup_doc r w = Some o ->
  set_prop (Some r) k v w = (Normal tt, store_doc r (<[k := v]> o) w).
Proof. unfold set_prop; simpl. intros ->. reflexivity. Qed.

Lemma run_set_value cdt cdn k v w o :
  lookup_doc (cdt, cdn) w = Some o ->
  set_value cdt cdn k v w =
  (Normal tt,
   store_doc (cdt, cdn) (<[k := v]> o)
             (World (locals w) (trace w ++ [SetValue cdt cdn k v]))).
Proof. unfold set_value; simpl. unfold lookup_doc; simpl. intros ->. reflexivity. Qed.

End Run.

(** One step of a handler whose row is known. *)
Ltac step :=
  rewrite run_bind;
  first [ erewrite run_locals_at by eassumption
        | erewrite run_get_doc by eassumption
        | erewrite run_get_prop by eassumption
        | erewrite run_set_prop by eassumption
        | erewrite run_set_value by eassumption
        | rewrite run_ret ].

(** ** The estimation of a row of 'table demande dachat' *)

Section Estimation.
Context `{Host}.

(** [qte * pu], a field that [flt] reads as nothing counting for 0. *)
Definition product_of (row : obj) : float :=
  (num_or (flt (get row "qte")) 0 * num_or (flt (get row "pu")) 0)%float.

(** The field holds the number [x]: [x] was written to it, or the field
    was left alone because it is [===] to [x]. *)
Definition holds_number (v : value) (x : float) : Prop :=
  v = VNum x \/ strict_eq_num v x = true.

(** The stored estimation differs from the product ([!==]). *)
Definition differs (row : obj) : bool :=
  negb (strict_eq_num (get row "estimation") (product_of row)).

Definition write_of (cdt cdn : string) (row : obj) : event :=
  SetValue cdt cdn "estimation" (VNum (product_of row)).

Lemma run_recalc_row_and_total cdt cdn frm w row :
  lookup_doc (cdt, cdn) w = Some row ->
  exec (MaterialRequest.recalc_row_and_total cdt cdn frm) w =
  if differs row
  then store_doc (cdt, cdn) (<["estimation" := VNum (product_of row)]> row)
         (World (locals w) (trace w ++ [write_of cdt cdn row]))
  else w.
Proof.
  intros Hrow. unfold exec, MaterialRequest.recalc_row_and_total.
  do 4 step. rewrite run_bind. unfold differs, product_of, write_of.
  destruct (strict_eq_num _ _); simpl.
  - reflexivity.
  - erewrite run_set_value by eassumption. reflexivity.
Qed.

Lemma run_compute cdt cdn w row :
  lookup_doc (cdt, cdn) w = Some row ->
  exec (TableDemandeDachat.compute cdt cdn) w =
  if (0 <=? product_of row)%float && differs row
  then store_doc (cdt, cdn) (<["estimation" := VNum (product_of row)]> row)
         (World (locals w) (trace w ++ [write_of cdt cdn row]))
  else w.
Proof.
  intros Hrow. unfold exec, TableDemandeDachat.compute.
  do 3 step. unfold differs, product_of, write_of.
  destruct (0 <=? _)%float; simpl; [|reflexivity].
  step. destruct (strict_eq_num _ _); simpl.
  - reflexivity.
  - erewrite run_set_value by eassumption. reflexivity.
Qed.

End Estimation.

Section EstimationClaims.
Context `{Host}.

(** C1 (as amended).  For every row of the child table, after
    [recalc_row_and_total] the estimation holds the product [qte * pu]
    (a field that reads as nothing counting for 0).  After [compute] it
    holds the product whenever the product is at least 0; otherwise
    [compute] leaves the row as it is.  With quantity 3 and price 10
    the product is 30, with quantity 4 and price 10 it is 40. *)
Theorem estimation_is_product cdt cdn frm w row :
  lookup_doc (cdt, cdn) w = Some row ->
  (exists row',
     lookup_doc (cdt, cdn)
       (exec (MaterialRequest.recalc_row_and_total cdt cdn frm) w) = Some row' /\
     holds_number (get row' "estimation") (product_of row)) /\
  ((0 <=? product_of row)%float = true ->
   exists row',
     lookup_doc (cdt, cdn) (exec (TableDemandeDachat.compute cdt cdn) w) = Some row' /\
     holds_number (get row' "estimation") (product_of row)) /\
  ((0 <=? product_of row)%float = false ->
   exec (TableDemandeDachat.compute cdt cdn) w = w) /\
  (flt (get row "qte") = 3%float -> flt (get row "pu") = 10%float ->
   product_of row = 30%float) /\
  (flt (get row "qte") = 4%float -> flt (get row "pu") = 10%float ->
   product_of row = 40%float).
Proof.
  intros Hrow.
  assert (Hkept : differs row = false ->
                  holds_number (get row "estimation") (product_of row)).
  { unfold differs. intros Hd. right. now apply negb_false_iff in Hd. }
  assert (Hset : holds_number
                   (get (<["estimation" := VNum (product_of row)]> row) "estimation")
                   (product_of row)).
  { left. unfold get. now rewrite lookup_insert_eq. }
  repeat split.
  - rewrite (run_recalc_row_and_total _ _ _ _ _ Hrow).
    destruct (differs row) eqn:Hd.
    + eexists. rewrite lookup_store_eq. split; [reflexivity | exact Hset].
    + exists row. split; [exact Hrow | now apply Hkept].
  - intros Hpos. rewrite (run_compute _ _ _ _ Hrow), Hpos; simpl.
    destruct (differs row) eqn:Hd.
    + eexists. rewrite lookup_store_eq. split; [reflexivity | exact Hset].
    + exists row. split; [exact Hrow | now apply Hkept].
  - intros Hneg. now rewrite (run_compute _ _ _ _ Hrow), Hneg.
  - intros Hq Hp. unfold product_of. rewrite Hq, Hp. reflexivity.
  - intros Hq Hp. unfold product_of. rewrite Hq, Hp. reflexivity.
Qed.

(** C4 (as amended).  [recalc_row_and_total] writes the estimation
    exactly when the product differs from the stored value, and writes
    the product; [compute] writes it exactly when the product is at
    least 0 and differs from the stored value.  Nothing else is asked of
    the host. *)
Theorem estimation_written_iff_differs cdt cdn frm w row :
  lookup_doc (cdt, cdn) w = Some row ->
  trace (exec (MaterialRequest.recalc_row_and_total cdt cdn frm) w) =
    (trace w ++ (if differs row then [write_of cdt cdn row] else []))%list /\
  trace (exec (TableDemandeDachat.compute cdt cdn) w) =
    (trace w ++ (if (0 <=? product_of row)%float && differs row
                 then [write_of cdt cdn row] else []))%list.
Proof.
  intros Hrow. split.
  - rewrite (run_recalc_row_and_total _ _ _ _ _ Hrow).
    destruct (differs row); simpl; [reflexivity | now rewrite app_nil_r].
  - rewrite (run_compute _ _ _ _ Hrow).
    destruct (_ && _); simpl; [reflexivity | now rewrite app_nil_r].
Qed.

End EstimationClaims.

(** ** Rows to run the recompute on *)

Section EstimationOnSite.
#[local] Existing Instance Site.site.

Definition child_table : string := "table demande dachat".
Definition material_request : form := Form "Material Request" "MAT-MR-0001".

Definition row_3_10 : obj := {[ "qte" := VNum 3; "pu" := VNum 10 ]}.
Definition row_refund : obj :=
  {[ "qte" := VNum (-2); "pu" := VNum 5; "estimation" := VNum 0 ]}.

Definition one_row (row : obj) : world :=
  World {[ child_table := {[ "row-1" := row ]} ]} [].

Lemma lookup_one_row row : lookup_doc (child_table, "row-1") (one_row row) = Some row.
Proof.
  unfold lookup_doc, one_row; simpl.
  rewrite lookup_singleton_eq; simpl. apply lookup_singleton_eq.
Qed.

Lemma estimation_is_product_witness :
  lookup_doc (child_table, "row-1") (one_row row_3_10) = Some row_3_10 /\
  product_of row_3_10 = 30%float.
Proof.
  split; [apply lookup_one_row|].
  apply (estimation_is_product child_table "row-1" material_request
           (one_row row_3_10) row_3_10 (lookup_one_row row_3_10));
    reflexivity.
Defined.

Lemma estimation_written_iff_differs_witness :
  trace (exec (TableDemandeDachat.compute child_table "row-1") (one_row row_3_10)) =
  [SetValue child_table "row-1" "estimation" (VNum 30)].
Proof.
  exact (proj2 (estimation_written_iff_differs child_table "row-1" material_request
                  (one_row row_3_10) row_3_10 (lookup_one_row row_3_10))).
Defined.

(** C1 as stated fails for [compute]: a quantity of -2 at price 5 has
    the product -10, and [compute] leaves the estimation at 0. *)
Lemma compute_keeps_estimation_of_negative_product :
  lookup_doc (child_table, "row-1") (one_row row_refund) = Some row_refund /\
  product_of row_refund = (-10)%float /\
  ~ (exists row',
       lookup_doc (child_table, "row-1")
         (exec (TableDemandeDachat.compute child_table "row-1") (one_row row_refund))
       = Some row' /\
       holds_number (get row' "estimation") (product_of row_refund)).
Proof.
  split; [apply lookup_one_row|]. split; [reflexivity|].
  rewrite (run_compute _ _ _ _ (lookup_one_row row_refund)).
  change ((0 <=? product_of row_refund)%float && differs row_refund) with false.
  cbv iota. rewrite lookup_one_row. intros (row' & Hrow' & Hholds).
  injection Hrow' as <-.
  change (get row_refund "estimation") with (VNum 0) in Hholds.
  change (product_of row_refund) with (-10)%float in Hholds.
  destruct Hholds as [Heq | Heq].
  - apply (f_equal (fun v => strict_eq_num v 0)) in Heq. discriminate Heq.
  - discriminate Heq.
Qed.

(** C4 as stated fails for [compute]: on the same row the product -10
    differs from the stored 0 and nothing is written. *)
Lemma compute_skips_write_of_negative_product :
  differs row_refund = true /\
  trace (exec (TableDemandeDachat.compute child_table "row-1") (one_row row_refund)) = [].
Proof. split; reflexivity. Qed.

End EstimationOnSite.

(** ** What the recompute leaves alone *)

Section EstimationFrame.
Context `{Host}.

(** From [w] to [w'] nothing changed but, at most, the field [k0] of the
    document [r0]: every other document is the same, and so is every
    other field of [r0]. *)
Definition only_field_changed (r0 : ref) (k0 : string) (w w' : world) : Prop :=
  (forall r, r ≠ r0 -> lookup_doc r w' = lookup_doc r w) /\
  (forall k, k ≠ k0 -> field r0 k w' = field r0 k w).

Lemma only_field_changed_refl r0 k0 w : only_field_changed r0 k0 w w.
Proof. split; reflexivity. Qed.

Lemma only_field_changed_store r0 k0 v o tr w :
  lookup_doc r0 w = Some o ->
  only_field_changed r0 k0 w
    (store_doc r0 (<[k0 := v]> o) (World (locals w) tr)).
Proof.
  intros Hdoc. split.
  - intros r Hne. rewrite lookup_store_ne by congruence. reflexivity.
  - intros k Hne. unfold field. rewrite lookup_store_eq, Hdoc; simpl.
    apply lookup_insert_ne. congruence.
Qed.

Lemma run_compute_no_row cdt cdn w :
  lookup_doc (cdt, cdn) w = None ->
  exec (TableDemandeDachat.compute cdt cdn) w = w.
Proof.
  unfold lookup_doc, exec, TableDemandeDachat.compute; simpl. intros Hnone.
  rewrite run_bind. unfold locals_at.
  destruct (locals w !! cdt) as [docs|]; simpl in *; [|reflexivity].
  rewrite Hnone. reflexivity.
Qed.

Lemma run_recalc_row_and_total_no_row cdt cdn frm w :
  lookup_doc (cdt, cdn) w = None ->
  exec (MaterialRequest.recalc_row_and_total cdt cdn frm) w = w.
Proof.
  intros Hnone. unfold exec, MaterialRequest.recalc_row_and_total.
  rewrite run_bind. unfold get_doc. rewrite Hnone.
  rewrite run_bind. unfold get_prop; simpl. reflexivity.
Qed.

(** C10.  Whatever the row and the store, [compute] and
    [recalc_row_and_total] change at most the field estimation of the
    row they are called for: its qte, its pu and its other fields are
    as before, and so is every other document. *)
Theorem recompute_changes_only_estimation cdt cdn frm w :
  only_field_changed (cdt, cdn) "estimation" w
    (exec (TableDemandeDachat.compute cdt cdn) w) /\
  only_field_changed (cdt, cdn) "estimation" w
    (exec (MaterialRequest.recalc_row_and_total cdt cdn frm) w).
Proof.
  destruct (lookup_doc (cdt, cdn) w) as [row|] eqn:Hrow.
  - rewrite (run_compute _ _ _ _ Hrow), (run_recalc_row_and_total _ _ _ _ _ Hrow).
    split.
    + destruct (_ && _);
        [now apply only_field_changed_store | apply only_field_changed_refl].
    + destruct (differs row);
        [now apply only_field_changed_store | apply only_field_changed_refl].
  - rewrite (run_compute_no_row _ _ _ Hrow),
            (run_recalc_row_and_total_no_row _ _ _ _ Hrow).
    split; apply only_field_changed_refl.
Qed.

End EstimationFrame.

(** ** The guards on numeric item codes *)

Section Guards.
Context `{Host}.

(** [item_code && /^\d+$/.test(String(item_code))]. *)
Definition numeric_code (v : value) : bool := truthy v && test_numeric v.

(** A numeric code with a fallback to replace it. *)
Definition fixable (row : obj) : bool :=
  numeric_code (get row "item_code") && truthy (get row "code_analytique").

(** The row the fallback guard is meant to leave, and the row the
    placeholder guard is meant to leave. *)
Definition guard_fallback (row : obj) : obj :=
  if fixable row then <["item_code" := get row "code_analytique"]> row else row.

Definition guard_placeholder (row : obj) : obj :=
  if numeric_code (get row "item_code")
  then <["item_code" := VStr "BUDGET-LINE"]> row else row.

(** The world after [set_value] of the item code of a row, and after an
    orange alert. *)
Definition write_item_code (r : ref) (v : value) (row : obj) (w : world) : world :=
  store_doc r (<["item_code" := v]> row)
    (World (locals w) (trace w ++ [SetValue r.1 r.2 "item_code" v])).

Definition alerted (message : string) (w : world) : world :=
  World (locals w) (trace w ++ [ShowAlert message "orange"]).

Lemma numeric_code_string s : numeric_code (VStr s) = test_digits s.
Proof.
  unfold numeric_code, test_numeric, test_digits; simpl.
  destruct (negb (s =? "")%string); reflexivity.
Qed.

Lemma run_toString v w :
  truthy v = true -> toString v w = (Normal (to_string v), w).
Proof. destruct v; simpl; intros Ht; try discriminate; reflexivity. Qed.

(** The test both scripts spell [code && /^\d+$/.test(code.toString())]. *)
Lemma run_numeric_test v w :
  (if truthy v then s ← toString v; mret (test_digits s) else mret false : M bool) w
  = (Normal (numeric_code v), w).
Proof.
  unfold numeric_code, test_numeric. destruct (truthy v) eqn:Ht; simpl.
  - rewrite run_bind, run_toString by assumption. reflexivity.
  - reflexivity.
Qed.

Lemma js_or_truthy a b : truthy a = true -> js_or a b = a.
Proof. unfold js_or. now intros ->. Qed.

Lemma js_or_falsy a b : truthy a = false -> js_or a b = b.
Proof. unfold js_or. now intros ->. Qed.

Lemma run_public_item_code frm cdt cdn w row :
  lookup_doc (cdt, cdn) w = Some row ->
  PurchaseReceiptPublic.item_code frm cdt cdn w =
  (Normal tt,
   if fixable row
   then write_item_code (cdt, cdn) (get row "code_analytique") row w else w).
Proof.
  intros Hrow. unfold PurchaseReceiptPublic.item_code, fixable.
  do 2 step. fold (numeric_code (get row "item_code")).
  destruct (numeric_code _); simpl; [|reflexivity].
  step. destruct (truthy (get row "code_analytique")) eqn:Hca.
  - rewrite js_or_truthy, Hca by assumption. simpl.
    erewrite run_set_value by eassumption. reflexivity.
  - rewrite js_or_falsy by assumption. reflexivity.
Qed.

Lemma run_guard_validate frm cdt cdn w row :
  lookup_doc (cdt, cdn) w = Some row ->
  PurchaseReceiptGuard.validate frm cdt cdn w =
  (Normal tt,
   if fixable row
   then write_item_code (cdt, cdn) (get row "code_analytique") row w else w).
Proof.
  intros Hrow. unfold PurchaseReceiptGuard.validate, fixable.
  do 2 step. rewrite run_bind, run_numeric_test.
  destruct (numeric_code _); simpl; [|reflexivity].
  step. destruct (truthy (get row "code_analytique")) eqn:Hca.
  - rewrite js_or_truthy, Hca by assumption. simpl.
    erewrite run_set_value by eassumption. reflexivity.
  - rewrite js_or_falsy by assumption. reflexivity.
Qed.

Lemma run_guard_item_code frm cdt cdn w row :
  lookup_doc (cdt, cdn) w = Some row ->
  PurchaseReceiptGuard.item_code frm cdt cdn w =
  (Normal tt,
   if numeric_code (get row "item_code")
   then alerted (translate "Invalid item code corrected" [])
          (if truthy (get row "code_analytique")
           then write_item_code (cdt, cdn) (get row "code_analytique") row w
           else w)
   else w).
Proof.
  intros Hrow. unfold PurchaseReceiptGuard.item_code.
  do 2 step. rewrite run_bind, run_numeric_test.
  destruct (numeric_code _); simpl; [|reflexivity].
  step. rewrite run_bind.
  destruct (truthy (get row "code_analytique")) eqn:Hca.
  - rewrite js_or_truthy, Hca by assumption. simpl.
    erewrite run_set_value by eassumption. reflexivity.
  - rewrite js_or_falsy by assumption. reflexivity.
Qed.

Lemma run_custom_item_code frm cdt cdn w row :
  lookup_doc (cdt, cdn) w = Some row ->
  PurchaseReceiptCustom.item_code frm cdt cdn w =
  (Normal tt,
   if numeric_code (get row "item_code")
   then alerted (translate "Invalid item code replaced with placeholder" [])
          (write_item_code (cdt, cdn) (VStr "BUDGET-LINE") row w)
   else w).
Proof.
  intros Hrow. unfold PurchaseReceiptCustom.item_code.
  do 2 step. rewrite run_bind, run_numeric_test.
  destruct (numeric_code _); simpl; [|reflexivity].
  rewrite run_bind. erewrite run_set_value by eassumption. reflexivity.
Qed.

(** A string of digits does not start with the placeholder. *)
Lemma digits_not_placeholder s :
  test_digits s = true -> starts_with "BUDGET-LINE" s = false.
Proof.
  unfold test_digits. destruct s as [|c s]; [discriminate|]. intros Hd.
  change (starts_with "BUDGET-LINE" (String c s))
    with (Ascii.eqb "B" c && starts_with "UDGET-LINE" s).
  destruct (Ascii.eqb_spec "B" c) as [<-|]; [|reflexivity].
  apply andb_true_iff in Hd as [_ Hd]. apply andb_true_iff in Hd as [Hd _].
  discriminate Hd.
Qed.

Lemma run_custom_validate frm cdt cdn w row :
  lookup_doc (cdt, cdn) w = Some row ->
  (truthy (get row "item_code") = true -> exists s, get row "item_code" = VStr s) ->
  PurchaseReceiptCustom.validate frm cdt cdn w =
  (Normal tt,
   if numeric_code (get row "item_code")
   then write_item_code (cdt, cdn) (VStr "BUDGET-LINE") row w else w).
Proof.
  intros Hrow Hstr. unfold PurchaseReceiptCustom.validate.
  do 2 step. rewrite run_bind.
  destruct (truthy (get row "item_code")) eqn:Ht.
  - destruct (Hstr eq_refl) as [s Hs]. rewrite Hs in *.
    rewrite numeric_code_string. simpl.
    destruct (test_digits s) eqn:Hd.
    + rewrite (digits_not_placeholder _ Hd). simpl. rewrite Hd. simpl.
      erewrite run_set_value by eassumption. reflexivity.
    + destruct (starts_with _ s); simpl; rewrite ?Hd; reflexivity.
  - unfold numeric_code. rewrite Ht. reflexivity.
Qed.

End Guards.

(** ** The fallback guard as a function of the store *)

Section Sanitize.
Context `{Host}.

(** A row carries its own doctype and name, as every document of the
    host does. *)
Definition well_named (r : ref) (o : obj) : Prop :=
  get o "doctype" = VStr r.1 /\ get o "name" = VStr r.2.

(** The fallback guard applied to the row [r] of the store. *)
Definition sanitize_at (r : ref) (w : world) : world :=
  match lookup_doc r w with
  | Some row =>
      if fixable row
      then write_item_code r (get row "code_analytique") row w else w
  | None => w
  end.

Lemma get_insert_eq (o : obj) k v : get (<[k := v]> o) k = v.
Proof. unfold get. now rewrite lookup_insert_eq. Qed.

Lemma get_insert_ne (o : obj) k k' v : k ≠ k' -> get (<[k := v]> o) k' = get o k'.
Proof. intros Hne. unfold get. now rewrite lookup_insert_ne. Qed.

Lemma guard_fallback_idem row : guard_fallback (guard_fallback row) = guard_fallback row.
Proof.
  unfold guard_fallback at 2 3. destruct (fixable row) eqn:Hfix.
  - unfold guard_fallback, fixable.
    rewrite get_insert_eq, get_insert_ne by discriminate.
    destruct (_ && _); [apply insert_insert_eq | reflexivity].
  - unfold guard_fallback. now rewrite Hfix.
Qed.

Lemma guard_fallback_named r row : well_named r row -> well_named r (guard_fallback row).
Proof.
  unfold well_named, guard_fallback. intros [Hdt Hdn].
  destruct (fixable row); [|now split].
  rewrite !get_insert_ne by discriminate. now split.
Qed.

Lemma lookup_sanitize_at r r' w :
  lookup_doc r' (sanitize_at r w) =
  if decide (r = r') then guard_fallback <$> lookup_doc r' w else lookup_doc r' w.
Proof.
  unfold sanitize_at, guard_fallback.
  destruct (decide (r = r')) as [<-|Hne].
  - destruct (lookup_doc r w) as [row|] eqn:Hrow; simpl.
    + destruct (fixable row); [apply lookup_store_eq | exact Hrow].
    + exact Hrow.
  - destruct (lookup_doc r w) as [row|]; [|reflexivity].
    destruct (fixable row); [|reflexivity].
    unfold write_item_code. now rewrite lookup_store_ne.
Qed.

Lemma sanitize_at_twice r r' w :
  lookup_doc r' (sanitize_at r (sanitize_at r w)) = lookup_doc r' (sanitize_at r w).
Proof.
  rewrite (lookup_sanitize_at r r' (sanitize_at r w)), lookup_sanitize_at.
  destruct (decide (r = r')); [|reflexivity].
  destruct (lookup_doc r' w); simpl; [|reflexivity].
  now rewrite guard_fallback_idem.
Qed.

(** Without a row, [locals[cdt][cdn]] throws or is undefined, and a
    handler that goes on to read a field of the row throws before it
    has done anything. *)
Lemma no_row_locals_at cdt cdn w :
  lookup_doc (cdt, cdn) w = None ->
  (exists e, locals_at cdt cdn w = (Abrupt e, w)) \/
  locals_at cdt cdn w = (Normal None, w).
Proof.
  unfold lookup_doc, locals_at; simpl. intros Hnone.
  destruct (locals w !! cdt) as [docs|]; simpl in Hnone.
  - rewrite Hnone. now right.
  - left. eauto.
Qed.

Ltac no_row Hrow :=
  rewrite run_bind;
  destruct (no_row_locals_at _ _ _ Hrow) as [[? ->] | ->];
  [reflexivity | rewrite run_bind; reflexivity].

Lemma exec_public_item_code frm cdt cdn w :
  exec (PurchaseReceiptPublic.item_code frm cdt cdn) w = sanitize_at (cdt, cdn) w.
Proof.
  unfold exec, sanitize_at.
  destruct (lookup_doc (cdt, cdn) w) as [row|] eqn:Hrow.
  - now rewrite (run_public_item_code _ _ _ _ _ Hrow).
  - unfold PurchaseReceiptPublic.item_code. no_row Hrow.
Qed.

Lemma exec_guard_validate frm cdt cdn w :
  exec (PurchaseReceiptGuard.validate frm cdt cdn) w = sanitize_at (cdt, cdn) w.
Proof.
  unfold exec, sanitize_at.
  destruct (lookup_doc (cdt, cdn) w) as [row|] eqn:Hrow.
  - now rewrite (run_guard_validate _ _ _ _ _ Hrow).
  - unfold PurchaseReceiptGuard.validate. no_row Hrow.
Qed.

Lemma run_before_save_item r w row :
  lookup_doc r w = Some row -> well_named r row ->
  PurchaseReceiptGuard.before_save_item r w = (Normal tt, sanitize_at r w).
Proof.
  intros Hrow [Hdt Hdn]. unfold PurchaseReceiptGuard.before_save_item, sanitize_at.
  rewrite Hrow. unfold fixable.
  step. rewrite run_bind, run_numeric_test.
  destruct (numeric_code _); simpl; [|reflexivity].
  rewrite run_bind. step. rewrite run_ret.
  destruct (truthy (get row "code_analytique")); simpl; [|reflexivity].
  do 3 step. rewrite Hdt, Hdn; simpl.
  destruct r as [cdt cdn]; simpl in *.
  erewrite run_set_value by eassumption. reflexivity.
Qed.

(** The loop of [before_save] over rows that are all in the store. *)
Lemma run_before_save_items rows : forall w,
  (forall r, r ∈ rows -> exists row, lookup_doc r w = Some row /\ well_named r row) ->
  for_each rows PurchaseReceiptGuard.before_save_item w =
  (Normal tt, foldl (fun w r => sanitize_at r w) w rows).
Proof.
  induction rows as [|r rows IH]; intros w Hrows; [reflexivity|].
  destruct (Hrows r) as (row & Hrow & Hnamed); [apply elem_of_cons; now left|].
  cbn [for_each foldl]. rewrite run_bind, (run_before_save_item _ _ _ Hrow Hnamed).
  apply IH. intros r' Hin.
  destruct (Hrows r') as (row' & Hrow' & Hnamed'); [apply elem_of_cons; now right|].
  rewrite lookup_sanitize_at, Hrow'.
  destruct (decide (r = r')) as [<-|]; simpl; eauto using guard_fallback_named.
Qed.

Lemma lookup_sanitize_all rows : forall w r,
  lookup_doc r (foldl (fun w r => sanitize_at r w) w rows) =
  if decide (r ∈ rows) then guard_fallback <$> lookup_doc r w else lookup_doc r w.
Proof.
  induction rows as [|r0 rows IH]; intros w r.
  - cbn [foldl]. destruct (decide (r ∈ [])) as [Hin|]; [|reflexivity].
    now apply elem_of_nil in Hin.
  - cbn [foldl]. rewrite IH, lookup_sanitize_at.
    destruct (decide (r0 = r)) as [->|Hne].
    + rewrite (decide_True (P := r ∈ r :: rows)) by (apply elem_of_cons; now left).
      destruct (decide (r ∈ rows)); [|reflexivity].
      destruct (lookup_doc r w); simpl; [|reflexivity].
      now rewrite guard_fallback_idem.
    + destruct (decide (r ∈ rows)) as [Hin|Hnin].
      * now rewrite (decide_True (P := r ∈ r0 :: rows)) by (apply elem_of_cons; now right).
      * rewrite (decide_False (P := r ∈ r0 :: rows)); [reflexivity|].
        intros Hin. apply elem_of_cons in Hin as [->|Hin]; [now apply Hne | now apply Hnin].
Qed.

Lemma run_before_save frm w doc rows :
  lookup_doc (doc_ref frm) w = Some doc ->
  get doc "items" = VRows rows ->
  (forall r, r ∈ rows -> exists row, lookup_doc r w = Some row /\ well_named r row) ->
  PurchaseReceiptGuard.before_save frm w =
  (Normal tt, foldl (fun w r => sanitize_at r w) w rows).
Proof.
  intros Hdoc Hitems Hrows. unfold PurchaseReceiptGuard.before_save, doc_prop.
  step. rewrite Hitems. cbn [truthy rows_of]. rewrite run_bind, run_ret.
  now apply run_before_save_items.
Qed.

End Sanitize.

Section GuardClaims.
Context `{Host}.

Lemma lookup_alerted r message w : lookup_doc r (alerted message w) = lookup_doc r w.
Proof. reflexivity. Qed.

Lemma lookup_write_item_code r v row w :
  lookup_doc r (write_item_code r v row w) = Some (<["item_code" := v]> row).
Proof. apply lookup_store_eq. Qed.

(** C2 (as amended).  For a row whose item code is numeric (a string
    of digits, or a value that prints as one), the guard of
    public/js/purchase_receipt.js replaces the item code with
    code_analytique when that field holds something, and leaves the
    store as it is when it does not; the guard of
    sdrt/custom/purchase_receipt.js replaces the item code with the
    placeholder "BUDGET-LINE", fallback or not.  Both leave the store as
    it is when the item code is not numeric. *)
Theorem numeric_item_code_guard frm cdt cdn w row :
  lookup_doc (cdt, cdn) w = Some row ->
  let code := get row "item_code" in
  let fallback := get row "code_analytique" in
  let after_public := exec (PurchaseReceiptPublic.item_code frm cdt cdn) w in
  let after_custom := exec (PurchaseReceiptCustom.item_code frm cdt cdn) w in
  (numeric_code code = true -> truthy fallback = true ->
   lookup_doc (cdt, cdn) after_public = Some (<["item_code" := fallback]> row)) /\
  (numeric_code code = true -> truthy fallback = false -> after_public = w) /\
  (numeric_code code = false -> after_public = w) /\
  (numeric_code code = true ->
   lookup_doc (cdt, cdn) after_custom
   = Some (<["item_code" := VStr "BUDGET-LINE"]> row)) /\
  (numeric_code code = false -> after_custom = w) /\
  (forall s, numeric_code (VStr s) = test_digits s).
Proof.
  intros Hrow code fallback after_public after_custom.
  subst after_public after_custom. unfold exec.
  rewrite (run_public_item_code _ _ _ _ _ Hrow), (run_custom_item_code _ _ _ _ _ Hrow).
  unfold fixable. fold code fallback. simpl.
  repeat split.
  - intros -> ->. apply lookup_write_item_code.
  - intros -> ->. reflexivity.
  - intros ->. reflexivity.
  - intros ->. rewrite lookup_alerted. apply lookup_write_item_code.
  - intros ->. reflexivity.
  - apply numeric_code_string.
Qed.

(** C7 (what the code does).  For a row whose item code is numeric and
    whose code_analytique is missing or empty, the handler of
    public/js/purchase_receipt.js leaves the store and the trace as they
    are; the handler [item_code] of the script with the three guards
    writes nothing either, but it does show the alert "Invalid item code
    corrected". *)
Theorem numeric_code_without_fallback frm cdt cdn w row :
  lookup_doc (cdt, cdn) w = Some row ->
  numeric_code (get row "item_code") = true ->
  truthy (get row "code_analytique") = false ->
  exec (PurchaseReceiptPublic.item_code frm cdt cdn) w = w /\
  exec (PurchaseReceiptGuard.item_code frm cdt cdn) w =
    World (locals w)
          (trace w ++ [ShowAlert (translate "Invalid item code corrected" []) "orange"]).
Proof.
  intros Hrow Hnum Hca. unfold exec.
  rewrite (run_public_item_code _ _ _ _ _ Hrow), (run_guard_item_code _ _ _ _ _ Hrow).
  unfold fixable. rewrite Hnum, Hca. split; reflexivity.
Qed.

(** C9.  The fallback guard is idempotent: run twice on a row, the
    handler [item_code] of public/js/purchase_receipt.js, and likewise
    the handler [validate], leave every document as one run leaves it. *)
Theorem guard_idempotent frm cdt cdn w r :
  lookup_doc r
    (exec (PurchaseReceiptPublic.item_code frm cdt cdn)
       (exec (PurchaseReceiptPublic.item_code frm cdt cdn) w))
  = lookup_doc r (exec (PurchaseReceiptPublic.item_code frm cdt cdn) w) /\
  lookup_doc r
    (exec (PurchaseReceiptGuard.validate frm cdt cdn)
       (exec (PurchaseReceiptGuard.validate frm cdt cdn) w))
  = lookup_doc r (exec (PurchaseReceiptGuard.validate frm cdt cdn) w).
Proof.
  rewrite !exec_public_item_code, !exec_guard_validate.
  split; apply sanitize_at_twice.
Qed.

(** C5 (as amended).  In the script that guards at three points, the
    handlers [item_code] and [validate] and the loop of [before_save]
    leave the same row: the item code replaced with code_analytique
    when it is numeric and the fallback holds something, the row as it
    was otherwise.  The handlers [item_code] and [validate] of
    sdrt/custom/purchase_receipt.js agree with each other on an item
    code that is a string or empty, and leave another row: the item
    code replaced with "BUDGET-LINE" when it is numeric. *)
Theorem guard_copies_agree frm cdt cdn w row :
  lookup_doc (cdt, cdn) w = Some row ->
  well_named (cdt, cdn) row ->
  lookup_doc (cdt, cdn) (exec (PurchaseReceiptGuard.item_code frm cdt cdn) w)
  = Some (guard_fallback row) /\
  lookup_doc (cdt, cdn) (exec (PurchaseReceiptGuard.validate frm cdt cdn) w)
  = Some (guard_fallback row) /\
  (forall doc rows,
     lookup_doc (doc_ref frm) w = Some doc ->
     get doc "items" = VRows rows ->
     (forall r, r ∈ rows -> exists o, lookup_doc r w = Some o /\ well_named r o) ->
     (cdt, cdn) ∈ rows ->
     lookup_doc (cdt, cdn) (exec (PurchaseReceiptGuard.before_save frm) w)
     = Some (guard_fallback row)) /\
  ((truthy (get row "item_code") = true -> exists s, get row "item_code" = VStr s) ->
   lookup_doc (cdt, cdn) (exec (PurchaseReceiptCustom.item_code frm cdt cdn) w)
   = Some (guard_placeholder row) /\
   lookup_doc (cdt, cdn) (exec (PurchaseReceiptCustom.validate frm cdt cdn) w)
   = Some (guard_placeholder row)).
Proof.
  intros Hrow Hnamed. repeat split.
  - unfold exec. rewrite (run_guard_item_code _ _ _ _ _ Hrow).
    unfold guard_fallback, fixable; simpl.
    destruct (numeric_code _); simpl; [|exact Hrow].
    rewrite lookup_alerted.
    destruct (truthy _); [apply lookup_write_item_code | exact Hrow].
  - rewrite exec_guard_validate, lookup_sanitize_at, decide_True, Hrow; reflexivity.
  - intros doc rows Hdoc Hitems Hrows Hin. unfold exec.
    rewrite (run_before_save _ _ _ _ Hdoc Hitems Hrows); simpl.
    rewrite lookup_sanitize_all, decide_True, Hrow by assumption. reflexivity.
  - unfold exec. rewrite (run_custom_item_code _ _ _ _ _ Hrow).
    unfold guard_placeholder; simpl.
    destruct (numeric_code _); [|exact Hrow].
    rewrite lookup_alerted. apply lookup_write_item_code.
  - unfold exec. rewrite (run_custom_validate _ _ _ _ _ Hrow) by assumption.
    unfold guard_placeholder; simpl.
    destruct (numeric_code _); [apply lookup_write_item_code | exact Hrow].
Qed.

End GuardClaims.

(** ** Purchase Receipt rows to run the guards on *)

Section GuardsOnSite.
#[local] Existing Instance Site.site.

Definition receipt : form := Form "Purchase Receipt" "MAT-PRE-0001".
Definition receipt_item : string := "Purchase Receipt Item".

(** A row whose item code is "1", with and without a budget code. *)
Definition row_with_fallback : obj :=
  {[ "doctype" := VStr receipt_item; "name" := VStr "row-1";
     "item_code" := VStr "1"; "code_analytique" := VStr "SDR-2024-001" ]}.

Definition row_without_fallback : obj :=
  {[ "doctype" := VStr receipt_item; "name" := VStr "row-1";
     "item_code" := VStr "1" ]}.

(** A receipt whose table holds the one row. *)
Definition receipt_with (row : obj) : world :=
  World {[ "Purchase Receipt" :=
             {[ "MAT-PRE-0001" := {[ "items" := VRows [(receipt_item, "row-1")] ]} ]};
           receipt_item := {[ "row-1" := row ]} ]} [].

Lemma lookup_receipt_row row :
  lookup_doc (receipt_item, "row-1") (receipt_with row) = Some row.
Proof. reflexivity. Qed.

Lemma numeric_item_code_guard_witness :
  lookup_doc (receipt_item, "row-1")
    (exec (PurchaseReceiptPublic.item_code receipt receipt_item "row-1")
       (receipt_with row_with_fallback))
  = Some (<["item_code" := VStr "SDR-2024-001"]> row_with_fallback).
Proof.
  apply (numeric_item_code_guard receipt receipt_item "row-1"
           (receipt_with row_with_fallback) row_with_fallback
           (lookup_receipt_row row_with_fallback));
    reflexivity.
Defined.

(** C2 as stated fails for the guard of sdrt/custom/purchase_receipt.js:
    the item code "1" becomes "BUDGET-LINE", not the fallback
    "SDR-2024-001", and it is replaced as well when there is no
    fallback. *)
Lemma custom_guard_writes_placeholder :
  let after_with :=
    field (receipt_item, "row-1") "item_code"
      (exec (PurchaseReceiptCustom.item_code receipt receipt_item "row-1")
         (receipt_with row_with_fallback)) in
  let after_without :=
    field (receipt_item, "row-1") "item_code"
      (exec (PurchaseReceiptCustom.item_code receipt receipt_item "row-1")
         (receipt_with row_without_fallback)) in
  numeric_code (get row_with_fallback "item_code") = true /\
  truthy (get row_with_fallback "code_analytique") = true /\
  after_with = Some (VStr "BUDGET-LINE") /\
  after_with ≠ Some (get row_with_fallback "code_analytique") /\
  numeric_code (get row_without_fallback "item_code") = true /\
  truthy (get row_without_fallback "code_analytique") = false /\
  after_without = Some (VStr "BUDGET-LINE") /\
  after_without ≠ Some (get row_without_fallback "item_code").
Proof. repeat split; try reflexivity; discriminate. Qed.

Lemma numeric_code_without_fallback_witness :
  exec (PurchaseReceiptGuard.item_code receipt receipt_item "row-1")
    (receipt_with row_without_fallback)
  = World (locals (receipt_with row_without_fallback))
          [ShowAlert "Invalid item code corrected" "orange"].
Proof.
  exact (proj2 (numeric_code_without_fallback receipt receipt_item "row-1"
                  (receipt_with row_without_fallback) row_without_fallback
                  (lookup_receipt_row row_without_fallback) eq_refl eq_refl)).
Defined.

Lemma guard_copies_agree_witness :
  lookup_doc (receipt_item, "row-1")
    (exec (PurchaseReceiptGuard.before_save receipt) (receipt_with row_with_fallback))
  = Some (guard_fallback row_with_fallback).
Proof.
  assert (Hnamed : well_named (receipt_item, "row-1") row_with_fallback)
    by (split; reflexivity).
  destruct (guard_copies_agree receipt receipt_item "row-1"
              (receipt_with row_with_fallback) row_with_fallback
              (lookup_receipt_row row_with_fallback) Hnamed)
    as (_ & _ & Hsave & _).
  apply (Hsave {[ "items" := VRows [(receipt_item, "row-1")] ]}
               [(receipt_item, "row-1")]).
  - reflexivity.
  - reflexivity.
  - intros r Hin. apply list_elem_of_singleton in Hin as ->.
    exists row_with_fallback. split; [reflexivity | exact Hnamed].
  - apply list_elem_of_singleton. reflexivity.
Defined.

(** C5 as stated fails: on the row with item code "1" and budget code
    "SDR-2024-001" the field-change and validate guards of
    sdrt/custom/purchase_receipt.js end with "BUDGET-LINE", the
    [before_save] guard with "SDR-2024-001". *)
Lemma placeholder_and_fallback_guards_differ :
  let at_field_change :=
    field (receipt_item, "row-1") "item_code"
      (exec (PurchaseReceiptCustom.item_code receipt receipt_item "row-1")
         (receipt_with row_with_fallback)) in
  let at_validate :=
    field (receipt_item, "row-1") "item_code"
      (exec (PurchaseReceiptCustom.validate receipt receipt_item "row-1")
         (receipt_with row_with_fallback)) in
  let at_before_save :=
    field (receipt_item, "row-1") "item_code"
      (exec (PurchaseReceiptGuard.before_save receipt)
         (receipt_with row_with_fallback)) in
  at_field_change = Some (VStr "BUDGET-LINE") /\
  at_validate = Some (VStr "BUDGET-LINE") /\
  at_before_save = Some (VStr "SDR-2024-001") /\
  at_field_change ≠ at_before_save /\
  at_validate ≠ at_before_save.
Proof. repeat split; try reflexivity; discriminate. Qed.

End GuardsOnSite.

(** ** The budget-line import *)

Section ImportedRows.
Context `{Host}.

Lemma store_store r o o' w : store_doc r o' (store_doc r o w) = store_doc r o' w.
Proof.
  unfold store_doc; simpl. rewrite lookup_insert_eq; simpl.
  now rewrite !insert_insert_eq.
Qed.

Lemma run_get_prop_store r k o w :
  get_prop (Some r) k (store_doc r o w) = (Normal (get o k), store_doc r o w).
Proof. apply run_get_prop, lookup_store_eq. Qed.

Lemma run_set_prop_store r k v o w :
  set_prop (Some r) k v (store_doc r o w) = (Normal tt, store_doc r (<[k := v]> o) w).
Proof.
  erewrite run_set_prop by apply lookup_store_eq. now rewrite store_store.
Qed.

Lemma run_doc_prop_store frm k r o w doc :
  r ≠ doc_ref frm ->
  lookup_doc (doc_ref frm) w = Some doc ->
  doc_prop frm k (store_doc r o w) = (Normal (get doc k), store_doc r o w).
Proof.
  intros Hne Hdoc. apply run_get_prop. now rewrite lookup_store_ne.
Qed.

Lemma exec_bind {A B} (m : M A) (f : A -> M B) w :
  exec (m ≫= f) w =
  match m w with
  | (Normal a, w') => exec (f a) w'
  | (Abrupt e, w') => w'
  end.
Proof. unfold exec. rewrite run_bind. now destruct (m w) as [[a|e] w']. Qed.

(** A budget line as the server sends it: its description, when it has
    one, is a string. *)
Definition string_description (line : obj) : Prop :=
  truthy (get line "description") = true ->
  exists s, get line "description" = VStr s.

(** The schedule date the import gives the row of a line. *)
Definition line_schedule_date (doc line : obj) : value :=
  let schedule_date := js_or (get line "schedule_date") (get doc "schedule_date") in
  if negb (truthy schedule_date)
     || (get_diff schedule_date (get doc "transaction_date") <? 0)
  then add_days (get doc "transaction_date") 7
  else schedule_date.

(** What the import leaves in the row [r] it made for [line]. *)
Definition imported (doc line : obj) (r : ref) (w : world) : Prop :=
  field r "uom" w = Some (js_or (get line "uom") (VStr "Nos")) /\
  field r "stock_uom" w = Some (js_or (get line "uom") (VStr "Nos")) /\
  field r "conversion_factor" w = Some (VNum 1) /\
  field r "schedule_date" w = Some (line_schedule_date doc line).

Lemma field_store r k o w : field r k (store_doc r o w) = o !! k.
Proof. unfold field. now rewrite lookup_store_eq. Qed.

End ImportedRows.

Section ImportSteps.
Context `{Host}.

Lemma run_described line w :
  string_description line ->
  exists b : bool,
    (if truthy (get line "description")
     then s ← trim_of (get line "description"); mret (truthy (VStr s))
     else mret false : M bool) w = (Normal b, w).
Proof.
  intros Hline. destruct (truthy (get line "description")) eqn:Ht.
  - destruct (Hline Ht) as [s Hs]. rewrite Hs. eexists. reflexivity.
  - eexists. reflexivity.
Qed.

(** The statements of the loop that settle the schedule date. *)
Lemma run_schedule_date {B} frm line doc w (k : value -> M B) :
  lookup_doc (doc_ref frm) w = Some doc ->
  ((if truthy (get line "schedule_date") then mret VUndefined
    else doc_prop frm "schedule_date" : M value) ≫= fun doc_schedule_date =>
   let schedule_date := js_or (get line "schedule_date") doc_schedule_date in
   (if negb (truthy schedule_date) then mret true else
      transaction_date ← doc_prop frm "transaction_date";
      mret (get_diff schedule_date transaction_date <? 0) : M bool) ≫= fun early =>
   (if (early : bool) then
      transaction_date ← doc_prop frm "transaction_date";
      mret (add_days transaction_date 7)
    else mret schedule_date : M value) ≫= k) w
  = k (line_schedule_date doc line) w.
Proof.
  intros Hdoc. unfold line_schedule_date, doc_prop.
  rewrite run_bind.
  destruct (truthy (get line "schedule_date")) eqn:Hsd.
  - rewrite run_ret. cbv zeta. rewrite !js_or_truthy by assumption.
    rewrite Hsd. cbn [negb orb].
    rewrite run_bind, run_bind, (run_get_prop _ _ _ _ Hdoc), run_ret.
    destruct (get_diff _ _ <? 0).
    + now rewrite run_bind, run_bind, (run_get_prop _ _ _ _ Hdoc), run_ret.
    + now rewrite run_bind, run_ret.
  - rewrite (run_get_prop _ _ _ _ Hdoc). cbv zeta.
    rewrite !js_or_falsy by assumption.
    destruct (truthy (get doc "schedule_date")); cbn [negb orb].
    + rewrite run_bind, run_bind, (run_get_prop _ _ _ _ Hdoc), run_ret.
      destruct (get_diff _ _ <? 0).
      * now rewrite run_bind, run_bind, (run_get_prop _ _ _ _ Hdoc), run_ret.
      * now rewrite run_bind, run_ret.
    + rewrite run_bind, run_ret.
      now rewrite run_bind, run_bind, (run_get_prop _ _ _ _ Hdoc), run_ret.
Qed.

Lemma line_schedule_date_ext doc doc' line :
  get doc' "schedule_date" = get doc "schedule_date" ->
  get doc' "transaction_date" = get doc "transaction_date" ->
  line_schedule_date doc' line = line_schedule_date doc line.
Proof. unfold line_schedule_date. now intros -> ->. Qed.

Lemma run_add_budget_line frm line w doc :
  lookup_doc (doc_ref frm) w = Some doc ->
  string_description line ->
  exists r row,
    lookup_doc r w = None /\
    PurchaseOrder.add_budget_line frm line w =
    (Normal (VStr r.1, VStr r.2),
     store_doc r row
       (store_doc (doc_ref frm)
          (<["items" := VRows (table_rows doc "items" ++ [r])]> doc) w)) /\
    row !! "uom" = Some (js_or (get line "uom") (VStr "Nos")) /\
    row !! "stock_uom" = Some (js_or (get line "uom") (VStr "Nos")) /\
    row !! "conversion_factor" = Some (VNum 1) /\
    row !! "schedule_date" = Some (line_schedule_date doc line).
Proof.
  intros Hdoc Hline.
  pose proof (new_child_fresh (locals w) frm "items") as Hfresh.
  pose proof (new_child_named (locals w) frm "items") as [Hdt Hdn].
  unfold PurchaseOrder.add_budget_line.
  rewrite run_bind. unfold add_child. rewrite Hdoc.
  destruct (new_child (locals w) frm "items") as [r o]; simpl in Hfresh, Hdt, Hdn.
  assert (Hne : r ≠ doc_ref frm).
  { intros ->. unfold lookup_doc in Hdoc. congruence. }
  set (doc' := <["items" := _]> doc).
  set (w' := store_doc (doc_ref frm) doc' w).
  assert (Hdoc' : lookup_doc (doc_ref frm) w' = Some doc') by apply lookup_store_eq.
  exists r.
  do 2 (rewrite run_bind, run_set_prop_store).
  rewrite run_bind.
  match goal with |- context [ (if truthy _ then _ else _) ?w0 ] =>
    destruct (run_described line w0 Hline) as [described ->] end.
  do 7 (rewrite run_bind, run_set_prop_store).
  erewrite (run_schedule_date frm line doc') by (rewrite lookup_store_ne; eassumption).
  rewrite (line_schedule_date_ext doc doc') by (apply get_insert_ne; discriminate).
  rewrite run_bind, run_set_prop_store.
  do 2 (rewrite run_bind, run_get_prop_store).
  rewrite run_bind, run_set_prop_store.
  do 2 (rewrite run_bind, run_get_prop_store).
  rewrite run_ret.
  rewrite !get_insert_ne by discriminate. rewrite Hdt, Hdn.
  eexists. split; [exact Hfresh|]. split; [reflexivity|].
  repeat split; rewrite !lookup_insert_ne by discriminate; apply lookup_insert_eq.
Qed.

Lemma imported_ext doc doc' line r w :
  (forall k, k ≠ "items" -> get doc' k = get doc k) ->
  imported doc' line r w -> imported doc line r w.
Proof.
  intros Hsame (Huom & Hstock & Hcf & Hsd). repeat split; try assumption.
  rewrite Hsd, (line_schedule_date_ext doc doc'); [reflexivity | |];
    apply Hsame; discriminate.
Qed.

(** The loop of the import: every line gets a row, appended to the
    table of the form; rows that were there are not touched. *)
Lemma run_add_budget_lines frm lines : forall w doc acc,
  lookup_doc (doc_ref frm) w = Some doc ->
  Forall string_description lines ->
  exists added acc' w' doc',
    PurchaseOrder.add_budget_lines frm lines acc w = (Normal acc', w') /\
    lookup_doc (doc_ref frm) w' = Some doc' /\
    (forall k, k ≠ "items" -> get doc' k = get doc k) /\
    table_rows doc' "items" = (table_rows doc "items" ++ added)%list /\
    trace w' = trace w /\
    (forall r0, is_Some (lookup_doc r0 w) -> r0 ≠ doc_ref frm ->
                lookup_doc r0 w' = lookup_doc r0 w) /\
    Forall2 (fun line r => imported doc line r w') lines added.
Proof.
  induction lines as [|line lines IH]; intros w doc acc Hdoc Hlines.
  - exists [], acc, w, doc. rewrite app_nil_r. repeat split; auto.
  - apply Forall_cons in Hlines as [Hline Hlines].
    destruct (run_add_budget_line frm line w doc Hdoc Hline)
      as (r & row & Hfresh & Hrun & Hrow).
    set (doc1 := <["items" := VRows (table_rows doc "items" ++ [r])]> doc) in *.
    set (w1 := store_doc r row (store_doc (doc_ref frm) doc1 w)) in *.
    assert (Hne : r ≠ doc_ref frm) by (intros ->; congruence).
    assert (Hdoc1 : lookup_doc (doc_ref frm) w1 = Some doc1).
    { subst w1. rewrite lookup_store_ne by assumption. apply lookup_store_eq. }
    assert (Hsame1 : forall k, k ≠ "items" -> get doc1 k = get doc k).
    { intros k Hk. subst doc1. apply get_insert_ne. congruence. }
    destruct (IH w1 doc1 (acc ++ [(VStr r.1, VStr r.2)])%list Hdoc1 Hlines)
      as (added & acc' & w' & doc' & Hloop & Hdoc' & Hsame & Htable & Htrace & Hframe & Hall).
    exists (r :: added), acc', w', doc'.
    assert (Hr : lookup_doc r w' = Some row).
    { rewrite Hframe; subst w1; rewrite ?lookup_store_eq; eauto. }
    repeat split.
    + cbn [PurchaseOrder.add_budget_lines]. rewrite run_bind, Hrun. exact Hloop.
    + exact Hdoc'.
    + intros k Hk. rewrite Hsame, Hsame1 by assumption. reflexivity.
    + rewrite Htable. unfold table_rows at 1. subst doc1.
      rewrite get_insert_eq, <- app_assoc. reflexivity.
    + exact Htrace.
    + intros r0 Hsome Hr0.
      assert (Hr0' : r ≠ r0) by (intros ->; rewrite Hfresh in Hsome; now destruct Hsome).
      assert (Hw1 : lookup_doc r0 w1 = lookup_doc r0 w).
      { subst w1. now rewrite !lookup_store_ne by congruence. }
      rewrite Hframe, Hw1; [reflexivity | now rewrite Hw1 | assumption].
    + constructor.
      * destruct Hrow as (Huom & Hstock & Hcf & Hsd).
        unfold imported, field. rewrite Hr. simpl. now repeat split.
      * eapply Forall2_impl; [exact Hall|].
        intros l r' Himp. now apply (imported_ext doc doc1).
Qed.

End ImportSteps.

(** ** Statements that leave a field alone *)

Section Keeps.
Context `{Host}.

(** The statement leaves the field [k] of the document [r] as it is,
    however it completes. *)
Definition keeps_field (r : ref) (k : string) {A} (m : M A) : Prop :=
  forall w, field r k (exec m w) = field r k w.

Lemma keeps_bind r k {A B} (m : M A) (f : A -> M B) :
  keeps_field r k m -> (forall a, keeps_field r k (f a)) ->
  keeps_field r k (m ≫= f).
Proof.
  intros Hm Hf w. rewrite exec_bind. specialize (Hm w). unfold exec in Hm.
  destruct (m w) as [[a|e] w']; simpl in Hm; [|exact Hm].
  now rewrite Hf.
Qed.

Lemma keeps_ret r k {A} (a : A) : keeps_field r k (mret a : M A).
Proof. intros w. reflexivity. Qed.

Lemma keeps_get_prop r k d k' : keeps_field r k (get_prop d k').
Proof.
  intros w. unfold exec, get_prop. now destruct (d ≫= _).
Qed.

Lemma keeps_log r k e : keeps_field r k (log e).
Proof. intros w. reflexivity. Qed.

Lemma keeps_set_prop r k d k' v : k' ≠ k -> keeps_field r k (set_prop d k' v).
Proof.
  intros Hne w. unfold exec, set_prop.
  destruct d as [it|]; simpl; [|reflexivity].
  destruct (lookup_doc it w) as [o|] eqn:Hit; simpl; [|reflexivity].
  unfold field. rewrite lookup_store.
  destruct (decide (it = r)) as [->|]; [|reflexivity].
  rewrite Hit; simpl. now apply lookup_insert_ne.
Qed.

Lemma keeps_trim_of r k v : keeps_field r k (trim_of v).
Proof. intros w. now destruct v. Qed.

Lemma keeps_rows_of r k v : keeps_field r k (rows_of v).
Proof. intros w. now destruct v. Qed.

Lemma keeps_when r k (b : bool) (m : M unit) :
  keeps_field r k m -> keeps_field r k (when b m).
Proof. intros Hm. destruct b; [exact Hm | apply keeps_ret]. Qed.

Lemma keeps_normalize_item r k changed it :
  k ≠ "item_name" -> k ≠ "details" ->
  keeps_field r k (PurchaseOrder.normalize_item changed it).
Proof.
  intros Hname Hdetails. unfold PurchaseOrder.normalize_item.
  apply keeps_bind; [apply keeps_get_prop|]. intros item_name.
  apply keeps_bind.
  { destruct (truthy item_name); [|apply keeps_ret].
    apply keeps_bind; [apply keeps_get_prop|]. intros code_analytique.
    destruct (truthy code_analytique); [|apply keeps_ret].
    apply keeps_bind; [apply keeps_trim_of|]. intros a.
    apply keeps_bind; [apply keeps_trim_of|]. intros b. apply keeps_ret. }
  intros name_is_budget_code.
  apply keeps_bind; [apply keeps_get_prop|]. intros details.
  destruct (_ && _); [|apply keeps_ret].
  apply keeps_bind; [apply keeps_get_prop|]. intros details'.
  apply keeps_bind; [apply keeps_set_prop; congruence|]. intros _.
  apply keeps_bind; [apply keeps_set_prop; congruence|]. intros _.
  apply keeps_ret.
Qed.

Lemma keeps_normalize_item_descriptions r k frm :
  k ≠ "item_name" -> k ≠ "details" ->
  keeps_field r k (PurchaseOrder.normalize_item_descriptions frm).
Proof.
  intros Hname Hdetails. unfold PurchaseOrder.normalize_item_descriptions, doc_prop.
  apply keeps_bind; [apply keeps_get_prop|]. intros items.
  apply keeps_bind.
  { destruct (truthy items); [apply keeps_rows_of | apply keeps_ret]. }
  intros rows. apply keeps_bind.
  - generalize false. induction rows as [|it rows IH]; intros changed.
    + apply keeps_ret.
    + cbn [PurchaseOrder.normalize_items].
      apply keeps_bind; [now apply keeps_normalize_item | exact IH].
  - intros changed. apply keeps_when, keeps_log.
Qed.

(** What [add_budget_lines_to_po] does after its loop. *)
Lemma exec_add_budget_lines_to_po r k frm lines w acc' w' :
  k ≠ "item_name" -> k ≠ "details" ->
  PurchaseOrder.add_budget_lines frm lines [] w = (Normal acc', w') ->
  field r k (exec (PurchaseOrder.add_budget_lines_to_po frm lines) w) = field r k w'.
Proof.
  intros Hname Hdetails Hloop. unfold PurchaseOrder.add_budget_lines_to_po.
  rewrite exec_bind, Hloop.
  apply keeps_bind; [apply keeps_log|]. intros _.
  apply keeps_bind; [now apply keeps_normalize_item_descriptions|]. intros _.
  apply keeps_bind; [apply keeps_log|]. intros _. apply keeps_log.
Qed.

End Keeps.

(** ** Schedule dates and units of the Purchase Order *)

Section PurchaseOrderClaims.
Context `{Host}.

(** The rows of the table [frm.doc.items] in a world. *)
Definition table_at (frm : form) (w : world) : list ref :=
  match field (doc_ref frm) "items" w with
  | Some (VRows rows) => rows
  | _ => []
  end.

Lemma table_at_doc frm w doc :
  lookup_doc (doc_ref frm) w = Some doc -> table_at frm w = table_rows doc "items".
Proof.
  intros Hdoc. unfold table_at, table_rows, field, get. rewrite Hdoc; simpl.
  now destruct (doc !! "items") as [[]|].
Qed.

(** The import as a whole: the rows it appends to the table, one for
    each line, and what it leaves in them. *)
Lemma imported_rows frm lines w doc :
  lookup_doc (doc_ref frm) w = Some doc ->
  Forall string_description lines ->
  exists added,
    table_at frm (exec (PurchaseOrder.add_budget_lines_to_po frm lines) w)
    = (table_at frm w ++ added)%list /\
    Forall2 (fun line r =>
               imported doc line r
                 (exec (PurchaseOrder.add_budget_lines_to_po frm lines) w))
            lines added.
Proof.
  intros Hdoc Hlines.
  destruct (run_add_budget_lines frm lines w doc [] Hdoc Hlines)
    as (added & acc' & w' & doc' & Hloop & Hdoc' & _ & Htable & _ & _ & Hall).
  assert (Hkeep : forall r k, k ≠ "item_name" -> k ≠ "details" ->
            field r k (exec (PurchaseOrder.add_budget_lines_to_po frm lines) w)
            = field r k w').
  { intros r k Hname Hdetails. eapply exec_add_budget_lines_to_po; eassumption. }
  exists added. split.
  - unfold table_at at 1. rewrite Hkeep by discriminate. fold (table_at frm w').
    now rewrite (table_at_doc _ _ _ Hdoc'), (table_at_doc _ _ _ Hdoc).
  - eapply Forall2_impl; [exact Hall|].
    intros line r (Huom & Hstock & Hcf & Hsd). unfold imported.
    rewrite !Hkeep by discriminate. now repeat split.
Qed.

Lemma run_validate_schedule_date frm cdt cdn w row doc :
  lookup_doc (cdt, cdn) w = Some row ->
  lookup_doc (doc_ref frm) w = Some doc ->
  truthy (get row "schedule_date") = true ->
  truthy (get doc "transaction_date") = true ->
  exec (PurchaseOrder.validate_schedule_date frm cdt cdn) w =
  if get_diff (get row "schedule_date") (get doc "transaction_date") <? 0
  then store_doc (cdt, cdn)
         (<["schedule_date" := add_days (get doc "transaction_date") 7]> row)
         (World (locals w)
            (trace w ++
             [SetValue cdt cdn "schedule_date" (add_days (get doc "transaction_date") 7);
              ShowAlert
                (translate "Required By date adjusted to be after transaction date" [])
                "orange"]))
  else w.
Proof.
  intros Hrow Hdoc Hsd Htd. unfold exec, PurchaseOrder.validate_schedule_date, doc_prop.
  do 2 step. rewrite Hsd. cbn [negb]. step. rewrite Htd. cbn [negb].
  destruct (get_diff _ _ <? 0); [|reflexivity].
  step. rewrite run_bind. erewrite run_set_value by eassumption.
  unfold show_alert, log; simpl. now rewrite <- app_assoc.
Qed.

(** C3.  For a row with a schedule date and a form with a transaction
    date: [validate_schedule_date] replaces a schedule date that is
    earlier than the transaction date with the transaction date plus 7
    days and leaves everything as it is when the schedule date is on or
    after the transaction date; and the row the import makes for a
    budget line with a schedule date gets the transaction date plus 7
    days in the first case and the line's schedule date in the second. *)
Theorem schedule_date_not_before_transaction frm w doc :
  lookup_doc (doc_ref frm) w = Some doc ->
  truthy (get doc "transaction_date") = true ->
  let transaction_date := get doc "transaction_date" in
  (forall cdt cdn row,
     lookup_doc (cdt, cdn) w = Some row ->
     truthy (get row "schedule_date") = true ->
     let after := exec (PurchaseOrder.validate_schedule_date frm cdt cdn) w in
     (get_diff (get row "schedule_date") transaction_date < 0 ->
      lookup_doc (cdt, cdn) after
      = Some (<["schedule_date" := add_days transaction_date 7]> row)) /\
     (0 <= get_diff (get row "schedule_date") transaction_date -> after = w)) /\
  (forall lines,
     Forall string_description lines ->
     let after := exec (PurchaseOrder.add_budget_lines_to_po frm lines) w in
     exists added,
       table_at frm after = (table_at frm w ++ added)%list /\
       Forall2 (fun line r =>
                  truthy (get line "schedule_date") = true ->
                  (get_diff (get line "schedule_date") transaction_date < 0 ->
                   field r "schedule_date" after = Some (add_days transaction_date 7)) /\
                  (0 <= get_diff (get line "schedule_date") transaction_date ->
                   field r "schedule_date" after = Some (get line "schedule_date")))
               lines added).
Proof.
  intros Hdoc Htd transaction_date. split.
  - intros cdt cdn row Hrow Hsd after. subst after.
    rewrite (run_validate_schedule_date _ _ _ _ _ _ Hrow Hdoc Hsd Htd).
    fold transaction_date. split; intros Hdiff.
    + apply Z.ltb_lt in Hdiff. rewrite Hdiff. apply lookup_store_eq.
    + apply Z.ltb_ge in Hdiff. now rewrite Hdiff.
  - intros lines Hlines after.
    destruct (imported_rows frm lines w doc Hdoc Hlines) as (added & Htable & Hall).
    exists added. split; [exact Htable|].
    eapply Forall2_impl; [exact Hall|].
    intros line r (_ & _ & _ & Hdate) Hsd. fold after in Hdate. rewrite Hdate.
    unfold line_schedule_date. fold transaction_date.
    rewrite js_or_truthy, Hsd by assumption. cbn [negb orb].
    split; intros Hdiff.
    + apply Z.ltb_lt in Hdiff. now rewrite Hdiff.
    + apply Z.ltb_ge in Hdiff. now rewrite Hdiff.
Qed.

(** C8.  Every budget line the import is given gets a row appended to
    the table of the form; when the line carries no unit of measure,
    that row's uom and stock_uom are "Nos" and its conversion_factor is
    1. *)
Theorem imported_rows_default_uom frm lines w doc :
  lookup_doc (doc_ref frm) w = Some doc ->
  Forall string_description lines ->
  let after := exec (PurchaseOrder.add_budget_lines_to_po frm lines) w in
  exists added,
    table_at frm after = (table_at frm w ++ added)%list /\
    Forall2 (fun line r =>
               truthy (get line "uom") = false ->
               field r "uom" after = Some (VStr "Nos") /\
               field r "stock_uom" after = Some (VStr "Nos") /\
               field r "conversion_factor" after = Some (VNum 1))
            lines added.
Proof.
  intros Hdoc Hlines after.
  destruct (imported_rows frm lines w doc Hdoc Hlines) as (added & Htable & Hall).
  exists added. split; [exact Htable|].
  eapply Forall2_impl; [exact Hall|].
  intros line r (Huom & Hstock & Hcf & _) Hnone. fold after in Huom, Hstock, Hcf.
  rewrite js_or_falsy in Huom, Hstock by assumption. now repeat split.
Qed.

(** The callback of [ensure_budget_item] sets the same defaults on a
    Purchase Receipt row that has no unit yet, when the answer names
    none. *)
Lemma callback_default_uom cdt cdn w row info :
  lookup_doc (cdt, cdn) w = Some row ->
  truthy (get info "stock_uom") = false ->
  truthy (get row "uom") = false ->
  truthy (get row "stock_uom") = false ->
  truthy (get row "conversion_factor") = false ->
  let after := exec (PurchaseReceiptPublic.code_analytique_callback cdt cdn (Some info)) w in
  field (cdt, cdn) "uom" after = Some (VStr "Nos") /\
  field (cdt, cdn) "stock_uom" after = Some (VStr "Nos") /\
  field (cdt, cdn) "conversion_factor" after = Some (VNum 1).
Proof.
  intros Hrow Hinfo Huom Hstock Hcf after. subst after.
  unfold exec, PurchaseReceiptPublic.code_analytique_callback.
  rewrite run_bind. erewrite run_set_value by eassumption.
  assert (Hstep : forall k v o tr,
            set_value cdt cdn k v (store_doc (cdt, cdn) o (World (locals w) tr))
            = (Normal tt,
               store_doc (cdt, cdn) (<[k := v]> o)
                 (World (locals w) (tr ++ [SetValue cdt cdn k v])))).
  { intros k v o tr. erewrite run_set_value by apply lookup_store_eq.
    unfold store_doc; simpl. rewrite lookup_insert_eq; simpl.
    now rewrite !insert_insert_eq. }
  rewrite run_bind, run_get_prop_store, run_bind.
  assert (Hitem : forall (b : bool) o tr,
            exists o' tr',
              when b (set_value cdt cdn "item_name"
                        (js_or (get info "item_name") (get info "item_code")))
                   (store_doc (cdt, cdn) o (World (locals w) tr))
              = (Normal tt, store_doc (cdt, cdn) o' (World (locals w) tr')) /\
              forall k, k ≠ "item_name" -> get o' k = get o k).
  { intros [|] o tr; simpl.
    - rewrite Hstep. do 2 eexists. split; [reflexivity|].
      intros k Hk. apply get_insert_ne. congruence.
    - do 2 eexists. split; reflexivity. }
  destruct (Hitem (negb (truthy (get (<["item_code" := get info "item_code"]> row)
                                    "item_name")))
                  (<["item_code" := get info "item_code"]> row)
                  (trace w ++ [SetValue cdt cdn "item_code" (get info "item_code")])%list)
    as (o' & tr' & -> & Hsame).
  assert (Hget : forall k, k ≠ "item_name" -> k ≠ "item_code" -> get o' k = get row k).
  { intros k Hk1 Hk2. rewrite Hsame by assumption. apply get_insert_ne. congruence. }
  rewrite run_bind, run_get_prop_store, Hget, Huom by discriminate.
  rewrite run_bind. cbn [negb when]. rewrite Hstep.
  rewrite run_bind, run_get_prop_store, get_insert_ne, Hget, Hstock by discriminate.
  rewrite run_bind. cbn [negb when]. rewrite Hstep.
  rewrite run_bind, run_get_prop_store, !get_insert_ne, Hget, Hcf by discriminate.
  cbn [negb when]. rewrite Hstep. cbn [snd].
  rewrite !field_store, !js_or_falsy by assumption.
  repeat split; rewrite ?lookup_insert_ne by discriminate; apply lookup_insert_eq.
Qed.

End PurchaseOrderClaims.

(** ** A Purchase Order to run the date check and the import on *)

Section PurchaseOrderOnSite.
#[local] Existing Instance Site.site.

Definition order : form := Form "Purchase Order" "PUR-ORD-0001".
Definition order_item : string := "Purchase Order Item".

Definition order_doc : obj := {[ "transaction_date" := VStr "2024-01-10" ]}.

(** A row required five days before the order's date. *)
Definition early_row : obj :=
  {[ "doctype" := VStr order_item; "name" := VStr "row-1";
     "schedule_date" := VStr "2024-01-05" ]}.

Definition order_with (row : obj) : world :=
  World {[ "Purchase Order" := {[ "PUR-ORD-0001" := order_doc ]};
           order_item := {[ "row-1" := row ]} ]} [].

(** Two budget lines: one early and without a unit, one on time and in
    kilograms. *)
Definition line_early : obj :=
  {[ "code_analytique" := VStr "SDR-2024-001"; "description" := VStr "Cement";
     "schedule_date" := VStr "2024-01-01" ]}.

Definition line_on_time : obj :=
  {[ "code_analytique" := VStr "SDR-2024-002"; "uom" := VStr "Kg";
     "schedule_date" := VStr "2024-02-01" ]}.

Definition empty_order : world :=
  World {[ "Purchase Order" := {[ "PUR-ORD-0001" := order_doc ]} ]} [].

Lemma lines_have_string_descriptions :
  Forall string_description [line_early; line_on_time].
Proof.
  repeat constructor.
  - intros _. exists "Cement". reflexivity.
  - intros Ht. discriminate Ht.
Qed.

Lemma schedule_date_not_before_transaction_witness :
  lookup_doc (order_item, "row-1")
    (exec (PurchaseOrder.validate_schedule_date order order_item "row-1")
       (order_with early_row))
  = Some (<["schedule_date" := VStr "2024-01-17"]> early_row).
Proof.
  destruct (schedule_date_not_before_transaction order (order_with early_row) order_doc
              eq_refl eq_refl) as [Hvalidate _].
  destruct (Hvalidate order_item "row-1" early_row eq_refl eq_refl) as [Hearly _].
  apply Hearly. reflexivity.
Defined.

Lemma imported_rows_default_uom_witness :
  exists added,
    table_at order
      (exec (PurchaseOrder.add_budget_lines_to_po order [line_early; line_on_time])
         empty_order)
    = added /\ length added = 2%nat.
Proof.
  destruct (imported_rows_default_uom order [line_early; line_on_time] empty_order
              order_doc eq_refl lines_have_string_descriptions)
    as (added & Htable & Hall).
  exists added. split; [exact Htable|].
  apply Forall2_length in Hall. now rewrite <- Hall.
Defined.

(** The rows the import makes for the two lines. *)
Example import_two_lines :
  let after :=
    exec (PurchaseOrder.add_budget_lines_to_po order [line_early; line_on_time])
      empty_order in
  table_at order after = [(order_item, "new-row-"); (order_item, "new-row-0")] /\
  field (order_item, "new-row-") "uom" after = Some (VStr "Nos") /\
  field (order_item, "new-row-") "stock_uom" after = Some (VStr "Nos") /\
  field (order_item, "new-row-") "conversion_factor" after = Some (VNum 1) /\
  field (order_item, "new-row-") "schedule_date" after = Some (VStr "2024-01-17") /\
  field (order_item, "new-row-0") "uom" after = Some (VStr "Kg") /\
  field (order_item, "new-row-0") "schedule_date" after = Some (VStr "2024-02-01").
Proof. vm_compute. repeat split; reflexivity. Qed.

End PurchaseOrderOnSite.

(** ** The installation script outside a bench directory *)

Section Install.
Import InstallOnTarget.
Variable bench_result : list string -> machine -> Z * list string.

(** The two lines every run starts with, and the two of the error. *)
Definition banner : list action :=
  [Echo "=== SDRT App Installation Script ===";
   Echo "Installing SDRT app in Frappe environment..."].

Definition not_a_bench : list action :=
  [Echo "❌ Error: This doesn't appear to be a frappe-bench directory";
   Echo "Please run this script from your frappe-bench folder"].

Definition is_echo (a : action) : bool :=
  match a with
  | Echo _ => true
  | _ => false
  end.

Lemma run_echo line m :
  echo line m =
  (Normal tt,
   Machine (files m) (dirs m) (apps_txt m) (sites m) (pwd m) (did m ++ [Echo line])).
Proof. reflexivity. Qed.

Lemma run_test_f path m :
  test_f path m = (Normal (bool_decide (path ∈ files m)), m).
Proof. reflexivity. Qed.

Lemma run_exit {A} status m : (exit status : Sh A) m = (Abrupt status, m).
Proof. reflexivity. Qed.

(** C6.  Started in a directory without the file sites/apps.txt, the
    script prints the error that this is not a frappe-bench directory
    and exits with status 1; all it has done by then is print: no file
    is moved, no line appended, no bench command run, and the files and
    directories are as they were. *)
Theorem install_outside_bench_exits_1 script argv m :
  "sites/apps.txt" ∉ files m ->
  install_on_target bench_result script argv m =
  (Abrupt 1,
   Machine (files m) (dirs m) (apps_txt m) (sites m) (pwd m)
           (did m ++ banner ++ not_a_bench)) /\
  forallb is_echo (banner ++ not_a_bench) = true.
Proof.
  intros Hnone. unfold install_on_target.
  rewrite run_bind, run_echo, run_bind, run_echo.
  rewrite run_bind, run_test_f. cbn [files].
  rewrite bool_decide_eq_false_2 by exact Hnone. cbn [negb Stmt.when].
  rewrite run_bind, run_bind, run_echo, run_bind, run_echo, run_exit.
  cbn [files dirs apps_txt sites pwd did].
  split; [|reflexivity]. now rewrite <- !app_assoc.
Qed.

End Install.

Section InstallOnSite.
Import InstallOnTarget.

(** A home directory with the unpacked app and no bench around it. *)
Definition home : machine :=
  Machine {[ "sdrt-app.tar.gz" ]} {[ "sdrt" ]} [] [] "/home/frappe" [].

Definition no_bench (args : list string) (m : machine) : Z * list string :=
  (127, []).

Lemma install_outside_bench_exits_1_witness :
  install_on_target no_bench "install_on_target.sh" ["site1.local"] home =
  (Abrupt 1,
   Machine {[ "sdrt-app.tar.gz" ]} {[ "sdrt" ]} [] [] "/home/frappe"
           (banner ++ not_a_bench)).
Proof.
  assert (Hnone : "sites/apps.txt" ∉ files home).
  { cbn [home files]. intros Hin. apply elem_of_singleton in Hin. discriminate Hin. }
  exact (proj1 (install_outside_bench_exits_1 no_bench "install_on_target.sh"
                  ["site1.local"] home Hnone)).
Defined.

End InstallOnSite.

(** * More of the scripts *)

(** ** The form handlers of the Material Request script *)

Module MaterialRequestForm.
Section Handlers.
Context `{Host}.

Definition refresh (frm : form) : M unit :=
  (* Ensure totals on load (in case draft opened and server already
     computed) *)
  MaterialRequest.recalc_total frm.

(** When the child table changes (row added/removed/reordered)
    recompute total. *)
Definition demande_dachat_remove (frm : form) : M unit :=
  MaterialRequest.recalc_total frm.

Definition demande_dachat_add (frm : form) : M unit :=
  MaterialRequest.recalc_total frm.

End Handlers.
End MaterialRequestForm.

(** ** The Purchase Order Item handlers on codes *)

Module PurchaseOrderItem.
Section Handlers.
Context `{Host}.

Definition item_code (frm : form) (cdt cdn : string) : M unit :=
  it ← locals_at cdt cdn;
  code ← get_prop it "item_code";
  if truthy code && test_numeric code then
    (* If user typed a numeric code (like "1"), switch back to the
       budget item *)
    code_analytique ← get_prop it "code_analytique";
    let fallback := js_or code_analytique (VStr "") in
    when (truthy fallback) (set_value cdt cdn "item_code" fallback)
  else mret tt.

(** The arguments of [frappe.client.get_value]; the object [filters]
    has the one field [name]. *)
Definition get_value_args (code_analytique : value) : list (string * value) :=
  [("doctype", VStr "SDR Budget");
   ("filters.name", code_analytique);
   ("fieldname", VStr "description")].

Definition code_analytique (frm : form) (cdt cdn : string) : M unit :=
  item ← locals_at cdt cdn;
  (* Ensure we use the real Item matching the budget code *)
  code ← get_prop item "code_analytique";
  when (truthy code) (set_value cdt cdn "item_code" code);;
  (* Fetch description from budget and set as item name *)
  code ← get_prop item "code_analytique";
  when (truthy code)
       (code ← get_prop item "code_analytique";
        log (Call "frappe.client.get_value" (get_value_args code)));;
  (* Ensure schedule_date is valid *)
  PurchaseOrder.validate_schedule_date frm cdt cdn.

(** The callback of that call, run by the host with the answer
    [r.message] (an object, or nothing). *)
Definition code_analytique_callback (cdt cdn : string) (message : option obj)
  : M unit :=
  match message with
  | None => mret tt
  | Some answer =>
      when (truthy (get answer "description"))
           (set_value cdt cdn "item_name" (get answer "description"))
  end.

End Handlers.
End PurchaseOrderItem.

(** ** Requests to the form and the desk *)

Module Desk.

(** What a script asks of the form or of the desk, besides the host
    calls on documents that [world] records. *)
Inductive request :=
| Trigger (event : string)
| Msgprint (message : string)
| AddCustomButton (label group : string)
| DashboardComment (text color : string)
| MultiSelectDialog (doctype : string) (company : value)
    (filters : list (string * value))
| FrozenCall (method : string) (args : list (string * value))
    (freeze_message : string).

(** The documents with the trace of host calls, and the requests to
    the form in the order they were made. *)
Record desk := Desk {
  model : world;
  asked : list request
}.

Abbreviation D := (ST desk error).

(** A statement on the documents, run at the desk. *)
Definition on_model {A} (m : M A) : D A := fun d =>
  let '(completed, w) := m (model d) in (completed, Desk w (asked d)).

Definition ask (r : request) : D unit := fun d =>
  (Normal tt, Desk (model d) (asked d ++ [r])).

(** [frm.trigger(event)]. *)
Definition trigger (event : string) : D unit := ask (Trigger event).

(** [frappe.msgprint(message)]. *)
Definition msgprint (message : string) : D unit := ask (Msgprint message).

(** [locals[cdt][cdn].k]. *)
Definition field_of (cdt cdn k : string) : M value :=
  row ← locals_at cdt cdn; get_prop row k.

(** [v.length] of an array or of a string; another value has none. *)
Definition length_of (v : value) : M (option nat) :=
  match v with
  | VRows rows => mret (Some (length rows))
  | VStr s => mret (Some (String.length s))
  | VUndefined | VNull => abrupt (TypeError "cannot read properties of undefined")
  | _ => mret None
  end.

(** The rows of an array value, for [filter]. *)
Definition rows_to_filter (v : value) : M (list ref) :=
  match v with
  | VRows rows => mret rows
  | VUndefined | VNull => abrupt (TypeError "cannot read properties of undefined")
  | _ => abrupt (TypeError "filter is not a function")
  end.

(** [rows.filter(keep)]. *)
Fixpoint filter_rows (rows : list ref) (keep : ref -> M bool) : M (list ref) :=
  match rows with
  | [] => mret []
  | r :: rest =>
      kept ← keep r;
      others ← filter_rows rest keep;
      mret (if (kept : bool) then r :: others else others)
  end.

End Desk.

(** ** The Purchase Order script: the form, quantities and the fetch *)

Module PurchaseOrderForm.
Import Desk.
Section Handlers.
Context `{Host}.

(** [JSON.stringify] of an array of names. *)
Variable JSON_stringify : list string -> string.

Definition qty (frm : form) (cdt cdn : string) : D unit :=
  on_model
    (qty ← field_of cdt cdn "qty";
     both ← (if truthy_num (flt qty) then
               rate ← field_of cdt cdn "rate"; mret (truthy_num (flt rate))
             else mret false : M bool);
     when (both : bool)
          (qty ← field_of cdt cdn "qty";
           rate ← field_of cdt cdn "rate";
           set_value cdt cdn "amount" (VNum (flt qty * flt rate)%float)));;
  trigger "calculate_taxes_and_totals".

Definition rate (frm : form) (cdt cdn : string) : D unit :=
  on_model
    (qty ← field_of cdt cdn "qty";
     both ← (if truthy_num (flt qty) then
               rate ← field_of cdt cdn "rate"; mret (truthy_num (flt rate))
             else mret false : M bool);
     when (both : bool)
          (qty ← field_of cdt cdn "qty";
           rate ← field_of cdt cdn "rate";
           set_value cdt cdn "amount" (VNum (flt qty * flt rate)%float)));;
  trigger "calculate_taxes_and_totals".

Definition fetch_da_lines (frm : form) (material_requests : list string) : D unit :=
  supplier ← on_model (doc_prop frm "supplier");
  ask (FrozenCall "sdrt.sdrt.custom.get_multi_da_budget_lines"
         [("material_requests", VStr (JSON_stringify material_requests));
          ("supplier", supplier)]
         (translate "Fetching budget lines..." [])).

(** The callback of that call, run by the host with the answer
    [r.message] (an array of lines, or nothing). *)
Definition fetch_da_lines_callback (frm : form) (message : option (list obj))
  : D unit :=
  match message with
  | Some (line :: rest) =>
      on_model (PurchaseOrder.add_budget_lines_to_po frm (line :: rest))
  | _ => msgprint (translate "No budget lines found." [])
  end.

Definition fetch_demande_materiel (frm : form) : D unit :=
  supplier ← on_model (doc_prop frm "supplier");
  if negb (truthy supplier) then
    msgprint (translate "Please select a Supplier first." [])
  else
    (* Use standard Material Request selector *)
    company ← on_model (doc_prop frm "company");
    ask (MultiSelectDialog "Material Request" (js_or company VNull)
           [("docstatus", VNum 1); ("material_request_type", VStr "Purchase")]).

(** The [action] of the dialog, run by the host with the names the
    user selected. *)
Definition action (frm : form) (selections : list string) : D unit :=
  when (0 <? length selections)%nat (fetch_da_lines frm selections).

Definition refresh (frm : form) : D unit :=
  (* Only show custom button in draft mode *)
  docstatus ← on_model (doc_prop frm "docstatus");
  button ← on_model (if strict_eq_num docstatus 0 then
                       supplier ← doc_prop frm "supplier"; mret (truthy supplier)
                     else mret false : M bool);
  when (button : bool)
       (ask (AddCustomButton (translate "Fetch Demande de Matériel" [])
                             (translate "Get Items From" [])));;
  (* Normalize any duplicated description from previous imports *)
  docstatus ← on_model (doc_prop frm "docstatus");
  when (strict_eq_num docstatus 0)
       (on_model (PurchaseOrder.normalize_item_descriptions frm)).

(** Override the standard "Get Items from Material Requests" button. *)
Definition get_items_from_open_material_requests (frm : form) : D unit :=
  fetch_demande_materiel frm.

End Handlers.
End PurchaseOrderForm.

(** ** The Purchase Receipt scripts: the note on refresh *)

Module PurchaseReceiptForm.
Import Desk.
Section Handlers.
Context `{Host}.

(** [item.item_code && /^\d+$/.test(item.item_code.toString())]. *)
Definition invalid_item (item : ref) : M bool :=
  code ← get_prop (Some item) "item_code";
  if truthy code then s ← toString code; mret (test_digits s) else mret false.

(** The handler [refresh] of sdrt/sdrt/custom/purchase_receipt.js; the
    script with the three guards has the same handler. *)
Definition refresh (frm : form) : D unit :=
  (* Add helpful note about item validation *)
  docstatus ← on_model (doc_prop frm "docstatus");
  some_items ← on_model
    (if strict_eq_num docstatus 0 then
       items ← doc_prop frm "items";
       if truthy items then
         n ← length_of items;
         mret (match n with Some n => (0 <? n)%nat | None => false end)
       else mret false
     else mret false : M bool);
  if (some_items : bool) then
    invalid_items ← on_model (items ← doc_prop frm "items";
                              rows ← rows_to_filter items;
                              filter_rows rows invalid_item);
    when (0 <? length invalid_items)%nat
         (ask (DashboardComment
                 (translate "Some item codes appear invalid and may cause errors. They will be automatically corrected on save." [])
                 "orange"))
  else mret tt.

End Handlers.
End PurchaseReceiptForm.

(** * Properties of the rest of the scripts *)

(** ** Observations a statement leaves as they are *)

Section Leaves.
Context `{Host}.

(** The statement leaves what [obs] sees of the world as it is, however
    it completes. *)
Definition leaves {A B} (obs : world -> B) (m : M A) : Prop :=
  forall w, obs (exec m w) = obs w.

(** [obs] sees documents only, not the trace. *)
Definition of_documents {B} (obs : world -> B) : Prop :=
  forall w tr, obs (World (locals w) tr) = obs w.

Lemma leaves_bind {A B C} (obs : world -> C) (m : M A) (f : A -> M B) :
  leaves obs m -> (forall a, leaves obs (f a)) -> leaves obs (m ≫= f).
Proof.
  intros Hm Hf w. rewrite exec_bind. specialize (Hm w). unfold exec in Hm.
  destruct (m w) as [[a|e] w']; simpl in Hm; [|exact Hm].
  now rewrite Hf.
Qed.

(** A statement that only reads. *)
Definition reads {A} (m : M A) : Prop := forall w, exec m w = w.

Lemma leaves_reads {A C} (obs : world -> C) (m : M A) : reads m -> leaves obs m.
Proof. intros Hm w. now rewrite Hm. Qed.

Lemma reads_ret {A} (a : A) : reads (mret a : M A).
Proof. intros w. reflexivity. Qed.

Lemma reads_throw {A} e : reads (throw e : M A).
Proof. intros w. reflexivity. Qed.

Lemma reads_bind {A B} (m : M A) (f : A -> M B) :
  reads m -> (forall a, reads (f a)) -> reads (m ≫= f).
Proof.
  intros Hm Hf w. rewrite exec_bind. specialize (Hm w). unfold exec in Hm.
  destruct (m w) as [[a|e] w']; simpl in Hm; subst w'; [apply Hf | reflexivity].
Qed.

Lemma reads_locals_at cdt cdn : reads (locals_at cdt cdn).
Proof.
  intros w. unfold exec, locals_at.
  destruct (locals w !! cdt) as [docs|]; [|reflexivity].
  now destruct (docs !! cdn).
Qed.

Lemma reads_get_doc cdt cdn : reads (get_doc cdt cdn).
Proof. intros w. unfold exec, get_doc. now destruct (lookup_doc _ w). Qed.

Lemma reads_get_prop d k : reads (get_prop d k).
Proof. intros w. unfold exec, get_prop. now destruct (d ≫= _). Qed.

Lemma reads_toString v : reads (toString v).
Proof. intros w. now destruct v. Qed.

Lemma reads_startsWith v p : reads (startsWith v p).
Proof. intros w. now destruct v. Qed.

Lemma reads_trim_of v : reads (trim_of v).
Proof. intros w. now destruct v. Qed.

Lemma reads_rows_of v : reads (rows_of v).
Proof. intros w. now destruct v. Qed.

Lemma reads_numeric_test v :
  reads (if truthy v then s ← toString v; mret (test_digits s) else mret false : M bool).
Proof. intros w. unfold exec. now rewrite run_numeric_test. Qed.

Lemma leaves_log {C} (obs : world -> C) e : of_documents obs -> leaves obs (log e).
Proof. intros Hobs w. apply Hobs. Qed.

Lemma leaves_when {C} (obs : world -> C) (b : bool) (m : M unit) :
  leaves obs m -> leaves obs (when b m).
Proof. intros Hm. destruct b; [exact Hm | apply leaves_reads, reads_ret]. Qed.

Lemma of_documents_lookup r : of_documents (lookup_doc r).
Proof. intros w tr. reflexivity. Qed.

Lemma of_documents_field r k : of_documents (field r k).
Proof. intros w tr. reflexivity. Qed.

(** [set_value] and an assignment leave the other documents, and the
    other fields of the document they write. *)
Lemma set_value_leaves_doc r cdt cdn k v :
  r ≠ (cdt, cdn) -> leaves (lookup_doc r) (set_value cdt cdn k v).
Proof.
  intros Hne w. unfold exec, set_value; simpl.
  destruct (lookup_doc (cdt, cdn) _) as [o|]; simpl; [|reflexivity].
  now rewrite lookup_store_ne by congruence.
Qed.

Lemma set_value_leaves_field r k' cdt cdn k v :
  k ≠ k' -> leaves (field r k') (set_value cdt cdn k v).
Proof.
  intros Hne w. unfold exec, set_value; simpl.
  destruct (lookup_doc (cdt, cdn) _) as [o|] eqn:Hrow; simpl; [|reflexivity].
  unfold field. destruct (decide ((cdt, cdn) = r)) as [<-|Hr].
  - rewrite lookup_store_eq. change (lookup_doc (cdt, cdn) w = Some o) in Hrow.
    rewrite Hrow; simpl. now apply lookup_insert_ne.
  - now rewrite lookup_store_ne.
Qed.


End Leaves.

(** ** The recompute, run again and run without a row *)

Section RecomputeAgain.
Context `{Host}.

Lemma SFcompare_refl_finite s m e :
  SFcompare (S754_finite s m e) (S754_finite s m e) = Some Eq.
Proof.
  simpl. destruct s; rewrite Z.compare_refl; now rewrite Pos.compare_cont_refl.
Qed.

(** A number that is at least 0 is not NaN: it is [===] to itself. *)
Lemma leb_zero_eqb_refl x : (0 <=? x)%float = true -> (x =? x)%float = true.
Proof.
  rewrite FloatAxioms.leb_spec, FloatAxioms.eqb_spec. unfold SFleb, SFeqb.
  destruct (Prim2SF x) as [s|s| |s m e].
  - destruct s; reflexivity.
  - destruct s; reflexivity.
  - change (Prim2SF 0) with (S754_zero false). simpl. discriminate.
  - now rewrite SFcompare_refl_finite.
Qed.

Lemma product_of_estimation row v :
  product_of (<["estimation" := v]> row) = product_of row.
Proof. unfold product_of. now rewrite !get_insert_ne by discriminate. Qed.

(** X1.  No handler of the Material Request script completes normally:
    the form handlers stop at the unbound [recalc_total] before doing
    anything, and [recalc_row_and_total] stops there after its write, or
    earlier with a TypeError when the row is not in [locals]. *)
Theorem material_request_handlers_never_complete frm cdt cdn w :
  MaterialRequestForm.refresh frm w = (Abrupt (ReferenceError "recalc_total"), w) /\
  MaterialRequestForm.demande_dachat_remove frm w
  = (Abrupt (ReferenceError "recalc_total"), w) /\
  MaterialRequestForm.demande_dachat_add frm w
  = (Abrupt (ReferenceError "recalc_total"), w) /\
  fst (MaterialRequest.recalc_row_and_total cdt cdn frm w) =
  Abrupt (match lookup_doc (cdt, cdn) w with
          | Some _ => ReferenceError "recalc_total"
          | None => TypeError "cannot read properties of undefined"
          end).
Proof.
  repeat split. unfold MaterialRequest.recalc_row_and_total.
  destruct (lookup_doc (cdt, cdn) w) as [row|] eqn:Hrow.
  - do 4 step. rewrite run_bind.
    destruct (strict_eq_num _ _); simpl; [reflexivity|].
    erewrite run_set_value by eassumption. reflexivity.
  - rewrite run_bind. unfold get_doc. rewrite Hrow.
    rewrite run_bind. unfold get_prop; simpl. reflexivity.
Qed.

(** X2.  [compute] makes no redundant write: run again right after
    itself it changes neither the documents nor the trace. *)
Theorem compute_again_changes_nothing cdt cdn w :
  exec (TableDemandeDachat.compute cdt cdn)
       (exec (TableDemandeDachat.compute cdt cdn) w)
  = exec (TableDemandeDachat.compute cdt cdn) w.
Proof.
  destruct (lookup_doc (cdt, cdn) w) as [row|] eqn:Hrow.
  - rewrite (run_compute _ _ _ _ Hrow).
    destruct ((0 <=? product_of row)%float && differs row) eqn:Hwrite.
    + apply andb_true_iff in Hwrite as [Hpos _].
      erewrite run_compute by apply lookup_store_eq.
      unfold differs. rewrite product_of_estimation, get_insert_eq, Hpos. simpl.
      now rewrite (leb_zero_eqb_refl _ Hpos).
    + now rewrite (run_compute _ _ _ _ Hrow), Hwrite.
  - now rewrite !(run_compute_no_row _ _ _ Hrow).
Qed.

(** X3.  Called for a row that is not in [locals], [compute] changes
    nothing; it returns normally when [locals] knows the doctype and
    throws a TypeError when it does not. *)
Theorem compute_without_row cdt cdn w :
  lookup_doc (cdt, cdn) w = None ->
  TableDemandeDachat.compute cdt cdn w =
  (match locals w !! cdt with
   | Some _ => Normal tt
   | None => Abrupt (TypeError "locals[cdt] is undefined")
   end, w).
Proof.
  unfold lookup_doc; simpl. intros Hnone.
  unfold TableDemandeDachat.compute. rewrite run_bind. unfold locals_at.
  destruct (locals w !! cdt) as [docs|]; simpl in Hnone; [|reflexivity].
  now rewrite Hnone.
Qed.

End RecomputeAgain.

Section RecomputeAgainOnSite.
#[local] Existing Instance Site.site.

Lemma compute_without_row_witness :
  TableDemandeDachat.compute child_table "row-2" (one_row row_3_10)
  = (Normal tt, one_row row_3_10).
Proof.
  exact (compute_without_row child_table "row-2" (one_row row_3_10) eq_refl).
Defined.

End RecomputeAgainOnSite.

(** ** More on the guards *)

Ltac reading :=
  repeat first
    [ apply reads_ret | apply reads_throw | apply reads_locals_at
    | apply reads_get_doc | apply reads_get_prop | apply reads_toString
    | apply reads_startsWith | apply reads_trim_of | apply reads_rows_of
    | apply reads_numeric_test
    | apply reads_bind; [|intros ?]
    | match goal with |- reads (if ?b then _ else _) => destruct b end ].

Ltac framing :=
  repeat first
    [ apply set_value_leaves_doc; assumption
    | apply set_value_leaves_field; assumption
    | apply leaves_log; first [apply of_documents_lookup | apply of_documents_field]
    | apply leaves_when
    | apply leaves_bind; [|intros ?]
    | match goal with |- leaves _ (if ?b then _ else _) => destruct b end
    | apply leaves_reads; solve [reading] ].

Section GuardFrames.
Context `{Host}.

(** Every handler that guards the item code of a row. *)
Definition guards (frm : form) (cdt cdn : string) : list (M unit) :=
  [PurchaseReceiptPublic.item_code frm cdt cdn;
   PurchaseReceiptCustom.item_code frm cdt cdn;
   PurchaseReceiptCustom.validate frm cdt cdn;
   PurchaseReceiptGuard.item_code frm cdt cdn;
   PurchaseReceiptGuard.validate frm cdt cdn;
   PurchaseOrderItem.item_code frm cdt cdn].

Lemma guards_leave_docs frm cdt cdn r :
  r ≠ (cdt, cdn) -> Forall (leaves (lookup_doc r)) (guards frm cdt cdn).
Proof.
  intros Hne. unfold guards.
  repeat constructor;
    [ unfold PurchaseReceiptPublic.item_code
    | unfold PurchaseReceiptCustom.item_code
    | unfold PurchaseReceiptCustom.validate
    | unfold PurchaseReceiptGuard.item_code
    | unfold PurchaseReceiptGuard.validate
    | unfold PurchaseOrderItem.item_code ];
    unfold show_alert; framing.
Qed.

Lemma guards_leave_fields frm cdt cdn r k :
  "item_code" ≠ k -> Forall (leaves (field r k)) (guards frm cdt cdn).
Proof.
  intros Hne. unfold guards.
  repeat constructor;
    [ unfold PurchaseReceiptPublic.item_code
    | unfold PurchaseReceiptCustom.item_code
    | unfold PurchaseReceiptCustom.validate
    | unfold PurchaseReceiptGuard.item_code
    | unfold PurchaseReceiptGuard.validate
    | unfold PurchaseOrderItem.item_code ];
    unfold show_alert; framing.
Qed.

Lemma before_save_leaves_fields frm r k :
  "item_code" ≠ k -> leaves (field r k) (PurchaseReceiptGuard.before_save frm).
Proof.
  intros Hne. unfold PurchaseReceiptGuard.before_save, doc_prop.
  apply leaves_bind; [apply leaves_reads, reads_get_prop|]. intros items.
  destruct (truthy items); [|apply leaves_reads, reads_ret].
  apply leaves_bind; [apply leaves_reads, reads_rows_of|]. intros rows.
  induction rows as [|it rows IH]; [apply leaves_reads, reads_ret|].
  cbn [for_each]. apply leaves_bind; [|intros _; exact IH].
  unfold PurchaseReceiptGuard.before_save_item. framing.
Qed.

(** X4.  The guards write item codes and nothing else: each of the six
    handlers on the item code of a row leaves every other document and
    every other field of the row as it is, and [before_save] leaves
    every field but the item codes of every document as it is. *)
Theorem guards_change_only_item_code frm cdt cdn w :
  Forall (fun guard => only_field_changed (cdt, cdn) "item_code" w (exec guard w))
         (guards frm cdt cdn) /\
  (forall r k, k ≠ "item_code" ->
     field r k (exec (PurchaseReceiptGuard.before_save frm) w) = field r k w).
Proof.
  split.
  - apply Forall_forall. intros guard Hin. split.
    + intros r Hr.
      pose proof (guards_leave_docs frm cdt cdn r Hr) as Hall.
      rewrite Forall_forall in Hall. now apply Hall.
    + intros k Hk.
      assert (Hk' : "item_code" ≠ k) by congruence.
      pose proof (guards_leave_fields frm cdt cdn (cdt, cdn) k Hk') as Hall.
      rewrite Forall_forall in Hall. now apply Hall.
  - intros r k Hk. apply before_save_leaves_fields. congruence.
Qed.

End GuardFrames.

Section GuardResults.
Context `{Host}.

Lemma placeholder_not_numeric : numeric_code (VStr "BUDGET-LINE") = false.
Proof. rewrite numeric_code_string. reflexivity. Qed.

(** X5.  The placeholder guard leaves no numeric item code: after the
    handler [item_code] of sdrt/sdrt/custom/purchase_receipt.js the item
    code of the row is not numeric, whatever it was; so a second run
    finds nothing to replace. *)
Theorem placeholder_guard_leaves_no_numeric_code frm cdt cdn w row :
  lookup_doc (cdt, cdn) w = Some row ->
  let after := exec (PurchaseReceiptCustom.item_code frm cdt cdn) w in
  (exists row', lookup_doc (cdt, cdn) after = Some row' /\
                numeric_code (get row' "item_code") = false) /\
  exec (PurchaseReceiptCustom.item_code frm cdt cdn) after = after.
Proof.
  intros Hrow after. subst after.
  assert (Hafter : exec (PurchaseReceiptCustom.item_code frm cdt cdn) w = _)
    by (unfold exec; now rewrite (run_custom_item_code _ _ _ _ _ Hrow)).
  rewrite Hafter. clear Hafter.
  destruct (numeric_code (get row "item_code")) eqn:Hnum.
  - assert (Hrow' : lookup_doc (cdt, cdn)
                      (alerted (translate "Invalid item code replaced with placeholder" [])
                         (write_item_code (cdt, cdn) (VStr "BUDGET-LINE") row w))
                    = Some (<["item_code" := VStr "BUDGET-LINE"]> row)).
    { rewrite lookup_alerted. apply lookup_write_item_code. }
    split.
    + eexists. split; [exact Hrow'|]. rewrite get_insert_eq. apply placeholder_not_numeric.
    + unfold exec. rewrite (run_custom_item_code _ _ _ _ _ Hrow').
      now rewrite get_insert_eq, placeholder_not_numeric.
  - split.
    + exists row. now split.
    + unfold exec. now rewrite (run_custom_item_code _ _ _ _ _ Hrow), Hnum.
Qed.

(** X6.  The handler [validate] of sdrt/sdrt/custom/purchase_receipt.js
    throws on an item code that is truthy and not a string (the number
    1, say): [startsWith] is a method of strings.  Nothing is written. *)
Theorem custom_validate_throws_on_non_string frm cdt cdn w row :
  lookup_doc (cdt, cdn) w = Some row ->
  truthy (get row "item_code") = true ->
  (forall s, get row "item_code" ≠ VStr s) ->
  PurchaseReceiptCustom.validate frm cdt cdn w
  = (Abrupt (TypeError "startsWith is not a function"), w).
Proof.
  intros Hrow Ht Hstr. unfold PurchaseReceiptCustom.validate.
  do 2 step. rewrite run_bind, Ht.
  destruct (get row "item_code") as [| | | |s|]; try discriminate Ht; try reflexivity.
  now destruct (Hstr s).
Qed.

Lemma guard_fallback_clean row :
  truthy (get row "code_analytique") = true ->
  numeric_code (get row "code_analytique") = false ->
  numeric_code (get (guard_fallback row) "item_code") = false.
Proof.
  intros Hca Hclean. unfold guard_fallback, fixable. rewrite Hca, andb_true_r.
  destruct (numeric_code (get row "item_code")) eqn:Hnum; [|exact Hnum].
  now rewrite get_insert_eq.
Qed.

Lemma guard_fallback_without row :
  truthy (get row "code_analytique") = false -> guard_fallback row = row.
Proof. intros Hca. unfold guard_fallback, fixable. now rewrite Hca, andb_false_r. Qed.

(** X7.  What [before_save] achieves on the table of a form: a row
    whose budget code is there and is not numeric ends with an item
    code that is not numeric; a row without a budget code is left as it
    is, numeric item code included. *)
Theorem before_save_cleans_rows_with_budget_code frm w doc rows :
  lookup_doc (doc_ref frm) w = Some doc ->
  get doc "items" = VRows rows ->
  (forall r, r ∈ rows -> exists row, lookup_doc r w = Some row /\ well_named r row) ->
  forall r row, r ∈ rows -> lookup_doc r w = Some row ->
    let after := exec (PurchaseReceiptGuard.before_save frm) w in
    (truthy (get row "code_analytique") = true ->
     numeric_code (get row "code_analytique") = false ->
     exists row', lookup_doc r after = Some row' /\
                  numeric_code (get row' "item_code") = false) /\
    (truthy (get row "code_analytique") = false -> lookup_doc r after = Some row).
Proof.
  intros Hdoc Hitems Hrows r row Hin Hrow after. subst after. unfold exec.
  rewrite (run_before_save _ _ _ _ Hdoc Hitems Hrows); simpl.
  rewrite lookup_sanitize_all, decide_True, Hrow by assumption. simpl.
  split.
  - intros Hca Hclean. eexists. split; [reflexivity|].
    now apply guard_fallback_clean.
  - intros Hca. now rewrite guard_fallback_without.
Qed.

End GuardResults.

Section GuardResultsOnSite.
#[local] Existing Instance Site.site.

Definition row_with_number : obj :=
  {[ "doctype" := VStr receipt_item; "name" := VStr "row-1";
     "item_code" := VNum 1; "code_analytique" := VStr "SDR-2024-001" ]}.

Lemma placeholder_guard_leaves_no_numeric_code_witness :
  exec (PurchaseReceiptCustom.item_code receipt receipt_item "row-1")
    (exec (PurchaseReceiptCustom.item_code receipt receipt_item "row-1")
       (receipt_with row_with_fallback))
  = exec (PurchaseReceiptCustom.item_code receipt receipt_item "row-1")
      (receipt_with row_with_fallback).
Proof.
  exact (proj2 (placeholder_guard_leaves_no_numeric_code receipt receipt_item "row-1"
                  (receipt_with row_with_fallback) row_with_fallback
                  (lookup_receipt_row row_with_fallback))).
Defined.

Lemma custom_validate_throws_on_non_string_witness :
  PurchaseReceiptCustom.validate receipt receipt_item "row-1"
    (receipt_with row_with_number)
  = (Abrupt (TypeError "startsWith is not a function"), receipt_with row_with_number).
Proof.
  apply (custom_validate_throws_on_non_string receipt receipt_item "row-1"
           (receipt_with row_with_number) row_with_number
           (lookup_receipt_row row_with_number)).
  - reflexivity.
  - intros s Hs. discriminate Hs.
Defined.

Lemma before_save_cleans_rows_with_budget_code_witness :
  exists row',
    lookup_doc (receipt_item, "row-1")
      (exec (PurchaseReceiptGuard.before_save receipt) (receipt_with row_with_fallback))
    = Some row' /\
    numeric_code (get row' "item_code") = false.
Proof.
  assert (Hrows : forall r, r ∈ [(receipt_item, "row-1")] ->
            exists row, lookup_doc r (receipt_with row_with_fallback) = Some row /\
                        well_named r row).
  { intros r Hin. apply list_elem_of_singleton in Hin as ->.
    exists row_with_fallback. repeat split. }
  apply (before_save_cleans_rows_with_budget_code receipt
           (receipt_with row_with_fallback)
           {[ "items" := VRows [(receipt_item, "row-1")] ]} [(receipt_item, "row-1")]
           eq_refl eq_refl Hrows (receipt_item, "row-1") row_with_fallback).
  - apply list_elem_of_singleton. reflexivity.
  - reflexivity.
  - reflexivity.
  - reflexivity.
Defined.

End GuardResultsOnSite.

(** ** The budget code of a Purchase Order row *)

Section BudgetCode.
Context `{Host}.

Lemma validate_schedule_date_leaves_field frm cdt cdn r k :
  "schedule_date" ≠ k ->
  leaves (field r k) (PurchaseOrder.validate_schedule_date frm cdt cdn).
Proof.
  intros Hne. unfold PurchaseOrder.validate_schedule_date, doc_prop, show_alert.
  framing.
Qed.

Lemma validate_schedule_date_leaves_doc frm cdt cdn r :
  r ≠ (cdt, cdn) ->
  leaves (lookup_doc r) (PurchaseOrder.validate_schedule_date frm cdt cdn).
Proof.
  intros Hne. unfold PurchaseOrder.validate_schedule_date, doc_prop, show_alert.
  framing.
Qed.

Lemma exec_order_item_code frm cdt cdn w :
  exec (PurchaseOrderItem.item_code frm cdt cdn) w = sanitize_at (cdt, cdn) w.
Proof.
  rewrite <- (exec_public_item_code frm). reflexivity.
Qed.

(** The handler after its first statement, for a row that is there. *)
Lemma exec_order_code_analytique frm cdt cdn w row :
  lookup_doc (cdt, cdn) w = Some row ->
  exists rest : M unit,
    (forall r k, "schedule_date" ≠ k -> leaves (field r k) rest) /\
    exec (PurchaseOrderItem.code_analytique frm cdt cdn) w =
    exec rest
      (if truthy (get row "code_analytique")
       then store_doc (cdt, cdn) (<["item_code" := get row "code_analytique"]> row)
              (World (locals w)
                 (trace w ++ [SetValue cdt cdn "item_code" (get row "code_analytique")]))
       else w).
Proof.
  intros Hrow. unfold PurchaseOrderItem.code_analytique.
  eexists. split; cycle 1.
  - rewrite exec_bind, (run_locals_at _ _ _ _ Hrow).
    rewrite exec_bind, (run_get_prop _ _ _ _ Hrow).
    rewrite exec_bind.
    destruct (truthy (get row "code_analytique")); simpl.
    + erewrite run_set_value by eassumption. reflexivity.
    + reflexivity.
  - intros r k Hk. simpl.
    apply leaves_bind; [apply leaves_reads, reads_get_prop|]. intros code.
    apply leaves_bind.
    + apply leaves_when. framing.
    + intros _. now apply validate_schedule_date_leaves_field.
Qed.

Lemma exec_order_code_analytique_no_row frm cdt cdn w :
  lookup_doc (cdt, cdn) w = None ->
  exec (PurchaseOrderItem.code_analytique frm cdt cdn) w = w.
Proof.
  intros Hrow. unfold exec, PurchaseOrderItem.code_analytique. rewrite run_bind.
  destruct (no_row_locals_at _ _ _ Hrow) as [[e ->] | ->];
    [reflexivity | rewrite run_bind; reflexivity].
Qed.

(** X8.  Choosing a budget code on a Purchase Order row makes it the
    item code, and the guard on item codes that this write sets off
    finds the row settled: run after the handler [code_analytique], the
    handler [item_code] changes no document, even when the budget code
    is itself numeric. *)
Theorem budget_code_settles_item_code frm cdt cdn w :
  (forall row,
     lookup_doc (cdt, cdn) w = Some row ->
     truthy (get row "code_analytique") = true ->
     field (cdt, cdn) "item_code" (exec (PurchaseOrderItem.code_analytique frm cdt cdn) w)
     = Some (get row "code_analytique")) /\
  (forall r,
     lookup_doc r
       (exec (PurchaseOrderItem.item_code frm cdt cdn)
          (exec (PurchaseOrderItem.code_analytique frm cdt cdn) w))
     = lookup_doc r (exec (PurchaseOrderItem.code_analytique frm cdt cdn) w)).
Proof.
  assert (Hafter : forall row,
            lookup_doc (cdt, cdn) w = Some row ->
            let after := exec (PurchaseOrderItem.code_analytique frm cdt cdn) w in
            (truthy (get row "code_analytique") = true ->
             field (cdt, cdn) "item_code" after = Some (get row "code_analytique")) /\
            field (cdt, cdn) "code_analytique" after = row !! "code_analytique").
  { intros row Hrow after. subst after.
    destruct (exec_order_code_analytique frm cdt cdn w row Hrow) as (rest & Hrest & ->).
    rewrite !Hrest by discriminate.
    destruct (truthy (get row "code_analytique")).
    - rewrite !field_store, lookup_insert_eq, lookup_insert_ne by discriminate.
      now split.
    - unfold field. rewrite Hrow. split; [discriminate | reflexivity]. }
  split.
  - intros row Hrow Hca. now apply (Hafter row Hrow).
  - intros r. rewrite exec_order_item_code, lookup_sanitize_at.
    destruct (decide ((cdt, cdn) = r)) as [<-|Hne];
      [rewrite decide_True by reflexivity | now rewrite decide_False].
    destruct (lookup_doc (cdt, cdn)
                (exec (PurchaseOrderItem.code_analytique frm cdt cdn) w))
      as [row2|] eqn:Hrow2; [|reflexivity].
    simpl. f_equal.
    destruct (lookup_doc (cdt, cdn) w) as [row|] eqn:Hrow.
    + destruct (Hafter row eq_refl) as [Hcode Hbudget].
      unfold field in Hcode, Hbudget. rewrite Hrow2 in Hcode, Hbudget. simpl in *.
      assert (Hget : get row2 "code_analytique" = get row "code_analytique")
        by (unfold get; now rewrite Hbudget).
      unfold guard_fallback, fixable. rewrite Hget.
      destruct (truthy (get row "code_analytique")) eqn:Hca;
        [|now rewrite andb_false_r].
      destruct (numeric_code _); [|reflexivity].
      apply insert_id. now apply Hcode.
    + rewrite (exec_order_code_analytique_no_row _ _ _ _ Hrow) in Hrow2. congruence.
Qed.

End BudgetCode.

(** ** The budget code of a Purchase Receipt row *)

Section ReceiptBudgetCode.
Context `{Host}.

(** The description sent to [ensure_budget_item]. *)
Definition budget_description (row : obj) : value :=
  js_or (js_or (get row "item_name") (get row "description"))
        (get row "code_analytique").

Lemma budget_description_truthy row :
  truthy (get row "code_analytique") = true -> truthy (budget_description row) = true.
Proof.
  intros Hca. unfold budget_description, js_or.
  destruct (truthy (get row "item_name")) eqn:Hname.
  - now rewrite Hname.
  - destruct (truthy (get row "description")) eqn:Hdesc; now rewrite ?Hdesc.
Qed.

(** X9.  The handler [code_analytique] of public/js/purchase_receipt.js
    writes no document.  For a row without a budget code it asks
    nothing of the host; for a row with one it makes the one call to
    [ensure_budget_item], with the code and a description that is never
    empty: the item name, else the description, else the code. *)
Theorem ensure_budget_item_called_with_description frm cdt cdn w row :
  lookup_doc (cdt, cdn) w = Some row ->
  PurchaseReceiptPublic.code_analytique frm cdt cdn w =
  (Normal tt,
   World (locals w)
     (trace w ++
      if truthy (get row "code_analytique")
      then [Call "sdrt.sdrt.custom.ensure_budget_item"
              [("code", get row "code_analytique");
               ("description", budget_description row)]]
      else [])) /\
  (truthy (get row "code_analytique") = true ->
   truthy (budget_description row) = true).
Proof.
  intros Hrow. split; [|apply budget_description_truthy].
  unfold PurchaseReceiptPublic.code_analytique.
  do 2 step. destruct (truthy (get row "code_analytique")); simpl.
  - do 2 step. reflexivity.
  - rewrite app_nil_r. now destruct w.
Qed.

(** The row the callback of [ensure_budget_item] leaves: the item code
    of the answer, and a default for each of four fields that is empty. *)
Definition fill (k : string) (v : value) (row : obj) : obj :=
  if truthy (get row k) then row else <[k := v]> row.






Lemma get_fill_eq k v row :
  truthy (get row k) = true -> get (fill k v row) k = get row k.
Proof. intros Ht. unfold fill. now rewrite Ht. Qed.





End ReceiptBudgetCode.

(** ** More on the schedule date check *)

Section ScheduleDate.
Context `{Host}.

(** The world after the check has moved the schedule date of a row. *)
Definition rescheduled (cdt cdn : string) (row doc : obj) (w : world) : world :=
  store_doc (cdt, cdn)
    (<["schedule_date" := add_days (get doc "transaction_date") 7]> row)
    (World (locals w)
       (trace w ++
        [SetValue cdt cdn "schedule_date" (add_days (get doc "transaction_date") 7);
         ShowAlert
           (translate "Required By date adjusted to be after transaction date" [])
           "orange"])).

Lemma run_validate_schedule_date_cases frm cdt cdn w row doc :
  lookup_doc (cdt, cdn) w = Some row ->
  lookup_doc (doc_ref frm) w = Some doc ->
  PurchaseOrder.validate_schedule_date frm cdt cdn w =
  (Normal tt,
   if truthy (get row "schedule_date") && truthy (get doc "transaction_date")
      && (get_diff (get row "schedule_date") (get doc "transaction_date") <? 0)
   then rescheduled cdt cdn row doc w else w).
Proof.
  intros Hrow Hdoc. unfold PurchaseOrder.validate_schedule_date, doc_prop.
  do 2 step. destruct (truthy (get row "schedule_date")); [|reflexivity].
  cbn [negb andb]. step. destruct (truthy (get doc "transaction_date")); [|reflexivity].
  cbn [negb andb]. destruct (get_diff _ _ <? 0); [|reflexivity].
  step. rewrite run_bind. erewrite run_set_value by eassumption.
  unfold show_alert, log, rescheduled; simpl. now rewrite <- app_assoc.
Qed.

(** X11.  The schedule date check touches nothing but the schedule
    date of its row, and it does nothing at all, alert included, when
    the row has no schedule date or the form has no transaction date. *)
Theorem schedule_date_check_is_local frm cdt cdn w :
  only_field_changed (cdt, cdn) "schedule_date" w
    (exec (PurchaseOrder.validate_schedule_date frm cdt cdn) w) /\
  (forall row doc,
     lookup_doc (cdt, cdn) w = Some row ->
     lookup_doc (doc_ref frm) w = Some doc ->
     truthy (get row "schedule_date") = false \/
     truthy (get doc "transaction_date") = false ->
     PurchaseOrder.validate_schedule_date frm cdt cdn w = (Normal tt, w)).
Proof.
  split.
  - split.
    + intros r Hr. now apply validate_schedule_date_leaves_doc.
    + intros k Hk. apply validate_schedule_date_leaves_field. congruence.
  - intros row doc Hrow Hdoc Hunset.
    rewrite (run_validate_schedule_date_cases _ _ _ _ _ _ Hrow Hdoc).
    destruct Hunset as [-> | ->]; [reflexivity | now rewrite andb_false_r].
Qed.

(** X12.  On a host where the date seven days after the transaction
    date is not before it, the check settles in one run: run again on
    the row it has just rescheduled, or left alone, it changes neither
    the documents nor the trace. *)
Theorem schedule_date_check_settles frm cdt cdn w row doc :
  lookup_doc (cdt, cdn) w = Some row ->
  lookup_doc (doc_ref frm) w = Some doc ->
  0 <= get_diff (add_days (get doc "transaction_date") 7) (get doc "transaction_date") ->
  exec (PurchaseOrder.validate_schedule_date frm cdt cdn)
       (exec (PurchaseOrder.validate_schedule_date frm cdt cdn) w)
  = exec (PurchaseOrder.validate_schedule_date frm cdt cdn) w.
Proof.
  intros Hrow Hdoc Hlater.
  assert (Hfirst : exec (PurchaseOrder.validate_schedule_date frm cdt cdn) w = _)
    by (unfold exec; now rewrite (run_validate_schedule_date_cases _ _ _ _ _ _ Hrow Hdoc)).
  rewrite Hfirst. cbn [snd].
  destruct (_ && _ && _) eqn:Hmoved; [|exact Hfirst].
  set (row' := <["schedule_date" := add_days (get doc "transaction_date") 7]> row).
  assert (Hrow' : lookup_doc (cdt, cdn) (rescheduled cdt cdn row doc w) = Some row')
    by apply lookup_store_eq.
  assert (Hdoc' : exists doc',
            lookup_doc (doc_ref frm) (rescheduled cdt cdn row doc w) = Some doc' /\
            get doc' "transaction_date" = get doc "transaction_date").
  { destruct (decide ((cdt, cdn) = doc_ref frm)) as [Heq|Hne].
    - exists row'. rewrite <- Heq. split; [exact Hrow'|].
      subst row'. rewrite get_insert_ne by discriminate.
      rewrite Heq in Hrow. congruence.
    - exists doc. split; [|reflexivity].
      unfold rescheduled. now rewrite lookup_store_ne. }
  destruct Hdoc' as (doc' & Hdoc' & Htd).
  unfold exec. rewrite (run_validate_schedule_date_cases _ _ _ _ _ _ Hrow' Hdoc').
  subst row'. rewrite get_insert_eq, Htd.
  apply Z.ltb_ge in Hlater. rewrite Hlater. now rewrite andb_false_r.
Qed.

End ScheduleDate.

Section ScheduleDateOnSite.
#[local] Existing Instance Site.site.

Definition undated_row : obj :=
  {[ "doctype" := VStr order_item; "name" := VStr "row-1" ]}.

Lemma schedule_date_check_is_local_witness :
  PurchaseOrder.validate_schedule_date order order_item "row-1" (order_with undated_row)
  = (Normal tt, order_with undated_row).
Proof.
  apply (proj2 (schedule_date_check_is_local order order_item "row-1"
                  (order_with undated_row))
           undated_row order_doc eq_refl eq_refl).
  left. reflexivity.
Defined.

Lemma schedule_date_check_settles_witness :
  exec (PurchaseOrder.validate_schedule_date order order_item "row-1")
       (exec (PurchaseOrder.validate_schedule_date order order_item "row-1")
          (order_with early_row))
  = exec (PurchaseOrder.validate_schedule_date order order_item "row-1")
      (order_with early_row).
Proof.
  apply (schedule_date_check_settles order order_item "row-1" (order_with early_row)
           early_row order_doc eq_refl eq_refl).
  vm_compute. discriminate.
Defined.

End ScheduleDateOnSite.

(** ** What normalizing the descriptions does *)

Section Normalize.
Context `{Host}.


(** The row is named by its budget code and has details to show
    instead. *)
Definition name_is_budget_code (row : obj) : bool :=
  match get row "item_name", get row "code_analytique" with
  | VStr a, VStr b =>
      truthy (VStr a) && truthy (VStr b) && strict_eq_str (trim a) (trim b)
  | _, _ => false
  end.

Definition has_details_desc (row : obj) : bool :=
  truthy (get row "details")
  && (0 <? Z.of_nat (String.length (trim (to_string (get row "details"))))).

Definition needs_normalizing (row : obj) : bool :=
  name_is_budget_code row && has_details_desc row.

Definition normalized (row : obj) : obj :=
  if needs_normalizing row
  then <["details" := VStr ""]>
         (<["item_name" := VStr (trim (to_string (get row "details")))]> row)
  else row.

(** One row of the loop, as a function of the store. *)
Definition normalize_at (r : ref) (w : world) : world :=
  match lookup_doc r w with
  | Some row => if needs_normalizing row then store_doc r (normalized row) w else w
  | None => w
  end.








Lemma trace_normalize_at r w : trace (normalize_at r w) = trace w.
Proof.
  unfold normalize_at. destruct (lookup_doc r w) as [row|]; [|reflexivity].
  now destruct (needs_normalizing row).
Qed.



Lemma trace_normalize_all rows : forall w,
  trace (foldl (fun w r => normalize_at r w) w rows) = trace w.
Proof.
  induction rows as [|r rows IH]; intros w; [reflexivity|].
  cbn [foldl]. now rewrite IH, trace_normalize_at.
Qed.


End Normalize.

Section NormalizeResults.
Context `{Host}.




End NormalizeResults.

Section NormalizeOnSite.
#[local] Existing Instance Site.site.

(** A row imported under its budget code, with the description in the
    details. *)
Definition coded_row : obj :=
  {[ "doctype" := VStr order_item; "name" := VStr "row-1";
     "item_name" := VStr "SDR-2024-001"; "code_analytique" := VStr " SDR-2024-001";
     "details" := VStr "  Cement, 50 kg bags " ]}.

Definition order_of (row : obj) : world :=
  World {[ "Purchase Order" :=
             {[ "PUR-ORD-0001" :=
                  {[ "transaction_date" := VStr "2024-01-10";
                     "items" := VRows [(order_item, "row-1")] ]} ]};
           order_item := {[ "row-1" := row ]} ]} [].




End NormalizeOnSite.

(** ** The rows the import makes *)

Section ImportedRow.
Context `{Host}.

(** The line has a description that is not blank. *)
Definition described (line : obj) : bool :=
  match get line "description" with
  | VStr s => truthy (VStr s) && truthy (VStr (trim s))
  | _ => false
  end.

Definition line_item_name (line : obj) : value :=
  if described line then get line "description"
  else js_or (get line "code_analytique") (VStr (translate "Budget Line" [])).

(** The row of a budget line: the row the host made, with the fields
    the loop assigns, in the order it assigns them. *)
Definition imported_row (doc base line : obj) : obj :=
  let qty := js_or (get line "qty") (VNum 1) in
  let rate := js_or (get line "rate") (VNum 0) in
  <["amount" := VNum (num_or (flt qty) 0 * num_or (flt rate) 0)%float]>
    (<["schedule_date" := line_schedule_date doc line]>
       (<["conversion_factor" := VNum 1]>
          (<["stock_uom" := js_or (get line "uom") (VStr "Nos")]>
             (<["uom" := js_or (get line "uom") (VStr "Nos")]>
                (<["rate" := rate]>
                   (<["qty" := qty]>
                      (<["details" := VStr ""]>
                         (<["item_name" := line_item_name line]>
                            (<["code_analytique" := get line "code_analytique"]>
                               (<["item_code" :=
                                    js_or (get line "code_analytique") (VStr "")]>
                                  base)))))))))).

(** The name the loop pushes on [added_rows] for a row. *)
Definition row_name (r : ref) : value * value := (VStr r.1, VStr r.2).

Lemma run_described_eq line w :
  string_description line ->
  (if truthy (get line "description")
   then s ← trim_of (get line "description"); mret (truthy (VStr s))
   else mret false : M bool) w = (Normal (described line), w).
Proof.
  intros Hline. unfold described.
  destruct (truthy (get line "description")) eqn:Ht.
  - destruct (Hline Ht) as [s Hs]. rewrite Hs in *.
    change (truthy (VStr s)) with (negb (s =? "")%string) in *. rewrite Ht.
    reflexivity.
  - destruct (get line "description"); try reflexivity.
    change (truthy (VStr s)) with (negb (s =? "")%string) in *. now rewrite Ht.
Qed.

Lemma run_add_budget_line_row frm line w doc :
  lookup_doc (doc_ref frm) w = Some doc ->
  string_description line ->
  exists r base,
    lookup_doc r w = None /\ well_named r base /\
    PurchaseOrder.add_budget_line frm line w =
    (Normal (row_name r),
     store_doc r (imported_row doc base line)
       (store_doc (doc_ref frm)
          (<["items" := VRows (table_rows doc "items" ++ [r])]> doc) w)).
Proof.
  intros Hdoc Hline.
  pose proof (new_child_fresh (locals w) frm "items") as Hfresh.
  pose proof (new_child_named (locals w) frm "items") as [Hdt Hdn].
  unfold PurchaseOrder.add_budget_line.
  rewrite run_bind. unfold add_child. rewrite Hdoc.
  destruct (new_child (locals w) frm "items") as [r o]; simpl in Hfresh, Hdt, Hdn.
  assert (Hne : r ≠ doc_ref frm).
  { intros ->. unfold lookup_doc in Hdoc. congruence. }
  set (doc' := <["items" := _]> doc).
  set (w' := store_doc (doc_ref frm) doc' w).
  assert (Hdoc' : lookup_doc (doc_ref frm) w' = Some doc') by apply lookup_store_eq.
  exists r, o. split; [exact Hfresh|]. split; [now split|].
  do 2 (rewrite run_bind, run_set_prop_store).
  rewrite run_bind, (run_described_eq _ _ Hline).
  do 7 (rewrite run_bind, run_set_prop_store).
  erewrite (run_schedule_date frm line doc') by (rewrite lookup_store_ne; eassumption).
  rewrite (line_schedule_date_ext doc doc') by (apply get_insert_ne; discriminate).
  rewrite run_bind, run_set_prop_store.
  do 2 (rewrite run_bind, run_get_prop_store).
  rewrite run_bind, run_set_prop_store.
  do 2 (rewrite run_bind, run_get_prop_store).
  rewrite run_ret.
  rewrite !(get_insert_ne _ _ "doctype"), !(get_insert_ne _ _ "name") by discriminate.
  rewrite Hdt, Hdn.
  rewrite !(get_insert_ne _ _ "rate") by discriminate. rewrite get_insert_eq.
  rewrite !(get_insert_ne _ _ "qty") by discriminate. rewrite get_insert_eq.
  reflexivity.
Qed.

End ImportedRow.

Section ImportedRows2.
Context `{Host}.

Lemma run_add_budget_lines_rows frm lines : forall w doc acc,
  lookup_doc (doc_ref frm) w = Some doc ->
  Forall string_description lines ->
  exists added w' doc',
    PurchaseOrder.add_budget_lines frm lines acc w
    = (Normal (acc ++ map row_name added)%list, w') /\
    lookup_doc (doc_ref frm) w' = Some doc' /\
    (forall k, k ≠ "items" -> doc' !! k = doc !! k) /\
    table_rows doc' "items" = (table_rows doc "items" ++ added)%list /\
    (lines ≠ [] -> get doc' "items" = VRows (table_rows doc "items" ++ added)) /\
    trace w' = trace w /\
    (forall r0, is_Some (lookup_doc r0 w) -> r0 ≠ doc_ref frm ->
                lookup_doc r0 w' = lookup_doc r0 w) /\
    Forall2 (fun line r =>
               lookup_doc r w = None /\
               exists base, well_named r base /\
                            lookup_doc r w' = Some (imported_row doc base line))
            lines added.
Proof.
  induction lines as [|line lines IH]; intros w doc acc Hdoc Hlines.
  - exists [], w, doc. rewrite !app_nil_r. repeat split; auto. now intros [].
  - apply Forall_cons in Hlines as [Hline Hlines].
    destruct (run_add_budget_line_row frm line w doc Hdoc Hline)
      as (r & base & Hfresh & Hnamed & Hrun).
    set (doc1 := <["items" := VRows (table_rows doc "items" ++ [r])]> doc) in *.
    set (w1 := store_doc r (imported_row doc base line)
                 (store_doc (doc_ref frm) doc1 w)) in *.
    assert (Hne : r ≠ doc_ref frm) by (intros ->; congruence).
    assert (Hdoc1 : lookup_doc (doc_ref frm) w1 = Some doc1).
    { subst w1. rewrite lookup_store_ne by assumption. apply lookup_store_eq. }
    assert (Hsame1 : forall k, k ≠ "items" -> doc1 !! k = doc !! k).
    { intros k Hk. subst doc1. apply lookup_insert_ne. congruence. }
    assert (Htable1 : table_rows doc1 "items" = (table_rows doc "items" ++ [r])%list).
    { unfold table_rows at 1. subst doc1. now rewrite get_insert_eq. }
    destruct (IH w1 doc1 (acc ++ [row_name r])%list Hdoc1 Hlines)
      as (added & w' & doc' & Hloop & Hdoc' & Hsame & Htable & Hitems & Htrace
          & Hframe & Hall).
    exists (r :: added), w', doc'.
    assert (Hr : lookup_doc r w' = Some (imported_row doc base line)).
    { rewrite Hframe; subst w1; rewrite ?lookup_store_eq; eauto. }
    repeat split.
    + cbn [PurchaseOrder.add_budget_lines]. rewrite run_bind, Hrun, Hloop.
      cbn [map]. now rewrite <- app_assoc.
    + exact Hdoc'.
    + intros k Hk. rewrite Hsame, Hsame1 by assumption. reflexivity.
    + rewrite Htable, Htable1, <- app_assoc. reflexivity.
    + intros _. destruct lines as [|line' lines'].
      * inversion Hall; subst. simpl in Hloop. injection Hloop as _ <-.
        rewrite Hdoc1 in Hdoc'. injection Hdoc' as <-.
        subst doc1. now rewrite get_insert_eq.
      * rewrite Hitems by discriminate. rewrite Htable1, <- app_assoc. reflexivity.
    + exact Htrace.
    + intros r0 Hsome Hr0.
      assert (Hr0' : r ≠ r0) by (intros ->; rewrite Hfresh in Hsome; now destruct Hsome).
      assert (Hw1 : lookup_doc r0 w1 = lookup_doc r0 w).
      { subst w1. now rewrite !lookup_store_ne by congruence. }
      rewrite Hframe, Hw1; [reflexivity | now rewrite Hw1 | assumption].
    + constructor.
      * split; [exact Hfresh|]. exists base. now split.
      * eapply Forall2_impl; [exact Hall|].
        intros l r' (Hfresh' & base' & Hnamed' & Hrow'). split.
        { subst w1. rewrite !lookup_store in Hfresh'.
          destruct (decide (r = r')); [discriminate Hfresh'|].
          now destruct (decide (doc_ref frm = r')). }
        exists base'. split; [assumption|].
        rewrite Hrow'. f_equal. unfold imported_row.
        now rewrite (line_schedule_date_ext doc doc1)
          by (unfold get; rewrite Hsame1 by discriminate; reflexivity).
Qed.






End ImportedRows2.

Section ImportResults.
Context `{Host}.





(** X16.  The import spares what was there: of a document that was in
    the store before, it changes no field but item_name and details
    (which normalizing may move) and, on the form's document, the table
    it appends to. *)
Theorem import_spares_existing_documents frm lines w doc :
  lookup_doc (doc_ref frm) w = Some doc ->
  Forall string_description lines ->
  forall r k,
    is_Some (lookup_doc r w) ->
    k ≠ "item_name" -> k ≠ "details" ->
    r ≠ doc_ref frm \/ k ≠ "items" ->
    field r k (exec (PurchaseOrder.add_budget_lines_to_po frm lines) w) = field r k w.
Proof.
  intros Hdoc Hlines r k Hsome Hname Hdetails Hwhere.
  destruct (run_add_budget_lines_rows frm lines w doc [] Hdoc Hlines)
    as (added & w' & doc' & Hloop & Hdoc' & Hsame & _ & _ & _ & Hframe & _).
  erewrite exec_add_budget_lines_to_po by eassumption.
  destruct (decide (r = doc_ref frm)) as [->|Hne].
  - destruct Hwhere as [Hwhere|Hk]; [now destruct Hwhere|].
    unfold field. rewrite Hdoc', Hdoc. simpl. now apply Hsame.
  - unfold field. now rewrite Hframe.
Qed.

End ImportResults.

Section ImportResultsOnSite.
#[local] Existing Instance Site.site.

(** A line with neither code nor quantity, and one with a quantity of
    0 at the rate 12.5. *)
Definition bare_line : obj := {[ "description" := VStr "  " ]}.
Definition zero_line : obj :=
  {[ "code_analytique" := VStr "SDR-2024-003"; "qty" := VNum 0; "rate" := VNum 12.5 ]}.

Lemma more_lines_have_string_descriptions :
  Forall string_description [bare_line; zero_line].
Proof.
  repeat constructor.
  - intros _. eexists. reflexivity.
  - intros Ht. discriminate Ht.
Qed.


Lemma import_spares_existing_documents_witness :
  field (order_item, "row-1") "schedule_date"
    (exec (PurchaseOrder.add_budget_lines_to_po order [bare_line; zero_line])
       (order_of early_row))
  = Some (VStr "2024-01-05").
Proof.
  rewrite (import_spares_existing_documents order [bare_line; zero_line]
             (order_of early_row)
             {[ "transaction_date" := VStr "2024-01-10";
                "items" := VRows [(order_item, "row-1")] ]}
             eq_refl more_lines_have_string_descriptions
             (order_item, "row-1") "schedule_date").
  - reflexivity.
  - eexists. reflexivity.
  - discriminate.
  - discriminate.
  - left. discriminate.
Defined.

(** The rows of the two lines: a blank description gives the name
    "Budget Line", and the quantity 0 is imported as 1. *)
Example import_bare_and_zero_lines :
  let after :=
    exec (PurchaseOrder.add_budget_lines_to_po order [bare_line; zero_line])
      (order_of early_row) in
  field (order_item, "new-row-") "item_code" after = Some (VStr "") /\
  field (order_item, "new-row-") "item_name" after = Some (VStr "Budget Line") /\
  field (order_item, "new-row-") "qty" after = Some (VNum 1) /\
  field (order_item, "new-row-") "amount" after = Some (VNum 0) /\
  field (order_item, "new-row-0") "qty" after = Some (VNum 1) /\
  field (order_item, "new-row-0") "amount" after = Some (VNum 12.5).
Proof. vm_compute. repeat split; reflexivity. Qed.

End ImportResultsOnSite.

(** ** Quantities, the form and the fetch of the Purchase Order *)

Section AtTheDesk.
Import Desk.
Context `{Host}.

Lemma run_on_model {A} (m : M A) d :
  on_model m d = (fst (m (model d)), Desk (snd (m (model d))) (asked d)).
Proof. unfold on_model. now destruct (m (model d)). Qed.

Lemma run_field_of cdt cdn k w row :
  lookup_doc (cdt, cdn) w = Some row -> field_of cdt cdn k w = (Normal (get row k), w).
Proof. intros Hrow. unfold field_of. do 1 step. now erewrite run_get_prop. Qed.

(** The amount the handlers [qty] and [rate] write for a row. *)
Definition amount_of (row : obj) : float :=
  (flt (get row "qty") * flt (get row "rate"))%float.

Definition priced (row : obj) : bool :=
  truthy_num (flt (get row "qty")) && truthy_num (flt (get row "rate")).

Lemma run_qty frm cdt cdn d row :
  lookup_doc (cdt, cdn) (model d) = Some row ->
  PurchaseOrderForm.qty frm cdt cdn d =
  (Normal tt,
   Desk (if priced row
         then store_doc (cdt, cdn) (<["amount" := VNum (amount_of row)]> row)
                (World (locals (model d))
                   (trace (model d) ++
                    [SetValue cdt cdn "amount" (VNum (amount_of row))]))
         else model d)
        (asked d ++ [Trigger "calculate_taxes_and_totals"])).
Proof.
  intros Hrow. unfold PurchaseOrderForm.qty. rewrite run_bind, run_on_model.
  rewrite run_bind, (run_field_of _ _ _ _ _ Hrow). rewrite run_bind.
  unfold priced, amount_of.
  destruct (truthy_num (flt (get row "qty"))); cbn [andb].
  - rewrite run_bind, (run_field_of _ _ _ _ _ Hrow), run_ret.
    destruct (truthy_num (flt (get row "rate"))); cbn [Stmt.when fst snd].
    + rewrite run_bind, (run_field_of _ _ _ _ _ Hrow).
      rewrite run_bind, (run_field_of _ _ _ _ _ Hrow).
      erewrite run_set_value by eassumption. reflexivity.
    + reflexivity.
  - reflexivity.
Qed.

(** X17.  The handlers [qty] and [rate] of a Purchase Order row do the
    same.  They write the amount, the product of quantity and rate,
    only when both are numbers other than 0; when one of them is 0 or
    missing the documents stay as they are, an amount written earlier
    included.  Either way they ask the form to recalculate taxes and
    totals, once. *)
Theorem amount_follows_nonzero_quantity_and_rate frm cdt cdn d row :
  lookup_doc (cdt, cdn) (model d) = Some row ->
  let after := exec (PurchaseOrderForm.qty frm cdt cdn) d in
  PurchaseOrderForm.rate frm cdt cdn d = PurchaseOrderForm.qty frm cdt cdn d /\
  fst (PurchaseOrderForm.qty frm cdt cdn d) = Normal tt /\
  (priced row = true ->
   lookup_doc (cdt, cdn) (model after)
   = Some (<["amount" := VNum (amount_of row)]> row)) /\
  (priced row = false -> model after = model d) /\
  asked after = (asked d ++ [Trigger "calculate_taxes_and_totals"])%list.
Proof.
  intros Hrow after. subst after. unfold exec.
  change (PurchaseOrderForm.rate frm cdt cdn d) with (PurchaseOrderForm.qty frm cdt cdn d).
  rewrite (run_qty _ _ _ _ _ Hrow). cbn [fst snd model asked].
  repeat split.
  - intros ->. apply lookup_store_eq.
  - now intros ->.
Qed.

End AtTheDesk.

Section FormAndFetch.
Import Desk.
Context `{Host}.
Variable JSON_stringify : list string -> string.

Definition fetch_button : request :=
  AddCustomButton (translate "Fetch Demande de Matériel" [])
                  (translate "Get Items From" []).

Lemma desk_eta d : Desk (model d) (asked d) = d.
Proof. now destruct d. Qed.

Lemma run_refresh frm d doc :
  lookup_doc (doc_ref frm) (model d) = Some doc ->
  PurchaseOrderForm.refresh frm d =
  if strict_eq_num (get doc "docstatus") 0
  then (fst (PurchaseOrder.normalize_item_descriptions frm (model d)),
        Desk (exec (PurchaseOrder.normalize_item_descriptions frm) (model d))
          (asked d ++ if truthy (get doc "supplier") then [fetch_button] else []))
  else (Normal tt, d).
Proof.
  intros Hdoc. unfold PurchaseOrderForm.refresh, doc_prop.
  rewrite run_bind, run_on_model, (run_get_prop _ _ _ _ Hdoc). cbn [fst snd].
  destruct (strict_eq_num (get doc "docstatus") 0) eqn:Hdraft.
  - rewrite run_bind, run_on_model.
    rewrite run_bind, (run_get_prop _ _ _ _ Hdoc), run_ret. cbn [fst snd].
    rewrite run_bind.
    destruct (truthy (get doc "supplier")); cbn [Stmt.when].
    + unfold ask at 1. cbn [model asked].
      rewrite run_bind, run_on_model. cbn [model asked].
      rewrite (run_get_prop _ _ _ _ Hdoc). cbn [fst snd]. rewrite Hdraft.
      cbn [Stmt.when]. now rewrite run_on_model.
    + rewrite run_ret.
      rewrite run_bind, run_on_model. cbn [model asked].
      rewrite (run_get_prop _ _ _ _ Hdoc). cbn [fst snd]. rewrite Hdraft.
      cbn [Stmt.when]. rewrite run_on_model. cbn [snd model asked].
      now rewrite app_nil_r.
  - rewrite run_bind, run_on_model, run_ret. cbn [fst snd].
    rewrite run_bind. cbn [Stmt.when]. rewrite run_ret.
    rewrite run_bind, run_on_model. cbn [model asked].
    rewrite (run_get_prop _ _ _ _ Hdoc). cbn [fst snd]. rewrite Hdraft.
    cbn [Stmt.when]. rewrite run_ret. now rewrite desk_eta.
Qed.

(** X18.  Refreshing a Purchase Order that is not a draft does nothing.
    Refreshing a draft normalizes the descriptions of its rows, and
    offers the button that fetches the material requests exactly when
    the order has a supplier. *)
Theorem refresh_acts_on_drafts_only frm d doc :
  lookup_doc (doc_ref frm) (model d) = Some doc ->
  (strict_eq_num (get doc "docstatus") 0 = false ->
   PurchaseOrderForm.refresh frm d = (Normal tt, d)) /\
  (strict_eq_num (get doc "docstatus") 0 = true ->
   model (exec (PurchaseOrderForm.refresh frm) d)
   = exec (PurchaseOrder.normalize_item_descriptions frm) (model d) /\
   asked (exec (PurchaseOrderForm.refresh frm) d)
   = (asked d ++ if truthy (get doc "supplier") then [fetch_button] else [])%list).
Proof.
  intros Hdoc. unfold exec at 1 3. rewrite (run_refresh _ _ _ Hdoc).
  split; intros ->; [reflexivity | now split].
Qed.

(** X19.  Nothing is fetched without a supplier or without a
    selection.  Without a supplier the fetch only tells the user to
    select one; with a supplier it opens the selector of submitted
    purchase requests.  The dialog's action does nothing for an empty
    selection, and for a selection it makes the one call for budget
    lines, with the selected names and the supplier.  None of this
    changes a document. *)
Theorem fetch_needs_supplier_and_selection frm d doc selections :
  lookup_doc (doc_ref frm) (model d) = Some doc ->
  PurchaseOrderForm.get_items_from_open_material_requests frm d =
  (Normal tt,
   Desk (model d)
     (asked d ++
      [if truthy (get doc "supplier")
       then MultiSelectDialog "Material Request" (js_or (get doc "company") VNull)
              [("docstatus", VNum 1); ("material_request_type", VStr "Purchase")]
       else Msgprint (translate "Please select a Supplier first." [])])) /\
  PurchaseOrderForm.action JSON_stringify frm selections d =
  (Normal tt,
   Desk (model d)
     (asked d ++
      match selections with
      | [] => []
      | _ => [FrozenCall "sdrt.sdrt.custom.get_multi_da_budget_lines"
                [("material_requests", VStr (JSON_stringify selections));
                 ("supplier", get doc "supplier")]
                (translate "Fetching budget lines..." [])]
      end)).
Proof.
  intros Hdoc. split.
  - unfold PurchaseOrderForm.get_items_from_open_material_requests,
      PurchaseOrderForm.fetch_demande_materiel, doc_prop.
    rewrite run_bind, run_on_model, (run_get_prop _ _ _ _ Hdoc). cbn [fst snd].
    rewrite desk_eta.
    destruct (truthy (get doc "supplier")); cbn [negb].
    + rewrite run_bind, run_on_model, (run_get_prop _ _ _ _ Hdoc). cbn [fst snd].
      now rewrite desk_eta.
    + reflexivity.
  - unfold PurchaseOrderForm.action, PurchaseOrderForm.fetch_da_lines, doc_prop.
    destruct selections as [|name names]; cbn [length Nat.ltb Nat.leb Stmt.when].
    + rewrite run_ret, app_nil_r. now rewrite desk_eta.
    + rewrite run_bind, run_on_model, (run_get_prop _ _ _ _ Hdoc). cbn [fst snd].
      now rewrite desk_eta.
Qed.

End FormAndFetch.

(** ** The note on the Purchase Receipt *)

Section ReceiptNote.
Import Desk.
Context `{Host}.

Definition note : request :=
  DashboardComment
    (translate "Some item codes appear invalid and may cause errors. They will be automatically corrected on save." [])
    "orange".

(** The item code of the row [r] of the store is numeric. *)
Definition numeric_at (w : world) (r : ref) : bool :=
  match lookup_doc r w with
  | Some row => numeric_code (get row "item_code")
  | None => false
  end.

Lemma run_invalid_item r w row :
  lookup_doc r w = Some row ->
  PurchaseReceiptForm.invalid_item r w = (Normal (numeric_at w r), w).
Proof.
  intros Hrow. unfold PurchaseReceiptForm.invalid_item, numeric_at.
  rewrite run_bind, (run_get_prop _ _ _ _ Hrow), Hrow.
  apply run_numeric_test.
Qed.

Lemma run_filter_invalid rows : forall w,
  (forall r, r ∈ rows -> is_Some (lookup_doc r w)) ->
  filter_rows rows PurchaseReceiptForm.invalid_item w
  = (Normal (List.filter (numeric_at w) rows), w).
Proof.
  induction rows as [|r rows IH]; intros w Hrows; [reflexivity|].
  destruct (Hrows r) as [row Hrow]; [apply elem_of_cons; now left|].
  cbn [filter_rows List.filter].
  rewrite run_bind, (run_invalid_item _ _ _ Hrow).
  rewrite run_bind, IH by (intros r' Hin; apply Hrows, elem_of_cons; now right).
  rewrite run_ret. now destruct (numeric_at w r).
Qed.

Lemma some_kept {A} (f : A -> bool) l :
  (0 <? length (List.filter f l))%nat = existsb f l.
Proof.
  induction l as [|a l IH]; [reflexivity|]. cbn [List.filter existsb].
  destruct (f a); [reflexivity | exact IH].
Qed.

Lemma run_receipt_refresh frm d doc rows :
  lookup_doc (doc_ref frm) (model d) = Some doc ->
  get doc "items" = VRows rows ->
  (forall r, r ∈ rows -> is_Some (lookup_doc r (model d))) ->
  PurchaseReceiptForm.refresh frm d =
  (Normal tt,
   Desk (model d)
     (asked d ++
      if strict_eq_num (get doc "docstatus") 0 && existsb (numeric_at (model d)) rows
      then [note] else [])).
Proof.
  intros Hdoc Hitems Hrows. unfold PurchaseReceiptForm.refresh, doc_prop.
  rewrite run_bind, run_on_model, (run_get_prop _ _ _ _ Hdoc). cbn [fst snd].
  rewrite desk_eta, run_bind, run_on_model.
  destruct (strict_eq_num (get doc "docstatus") 0); cbn [andb].
  - rewrite run_bind, (run_get_prop _ _ _ _ Hdoc), Hitems. cbn [fst snd truthy].
    cbn [length_of]. rewrite run_bind, !run_ret. cbn [fst snd]. rewrite desk_eta.
    destruct rows as [|r rows]; cbn [length existsb].
    + change (0 <? 0)%nat with false. cbn iota.
      rewrite run_ret, app_nil_r. now rewrite desk_eta.
    + change (0 <? S (length rows))%nat with true. cbn iota.
      rewrite run_bind, run_on_model.
      rewrite run_bind, (run_get_prop _ _ _ _ Hdoc), Hitems. cbn [rows_to_filter].
      rewrite run_bind, run_ret, (run_filter_invalid _ _ Hrows). cbn [fst snd].
      rewrite desk_eta, some_kept. cbn [existsb].
      destruct (numeric_at (model d) r || existsb (numeric_at (model d)) rows);
        cbn [Stmt.when]; [reflexivity|].
      rewrite run_ret, app_nil_r. now rewrite desk_eta.
  - rewrite run_ret. cbn [fst snd]. rewrite desk_eta, run_ret, app_nil_r.
    now rewrite desk_eta.
Qed.

(** X20.  Refreshing a Purchase Receipt never changes a document.  It
    does nothing when the receipt is not a draft or has no table of
    items, and on a draft it posts its orange note exactly when some
    row of the table has a numeric item code. *)
Theorem receipt_note_iff_numeric_code frm d doc :
  lookup_doc (doc_ref frm) (model d) = Some doc ->
  (strict_eq_num (get doc "docstatus") 0 = false ->
   PurchaseReceiptForm.refresh frm d = (Normal tt, d)) /\
  (truthy (get doc "items") = false ->
   PurchaseReceiptForm.refresh frm d = (Normal tt, d)) /\
  (forall rows,
     strict_eq_num (get doc "docstatus") 0 = true ->
     get doc "items" = VRows rows ->
     (forall r, r ∈ rows -> is_Some (lookup_doc r (model d))) ->
     PurchaseReceiptForm.refresh frm d =
     (Normal tt,
      Desk (model d)
        (asked d ++ if existsb (numeric_at (model d)) rows then [note] else []))).
Proof.
  intros Hdoc. split; [|split].
  - intros Hdraft. unfold PurchaseReceiptForm.refresh, doc_prop.
    rewrite run_bind, run_on_model, (run_get_prop _ _ _ _ Hdoc). cbn [fst snd].
    rewrite desk_eta, run_bind, run_on_model, Hdraft, run_ret. cbn [fst snd].
    now rewrite desk_eta.
  - intros Hitems. unfold PurchaseReceiptForm.refresh, doc_prop.
    rewrite run_bind, run_on_model, (run_get_prop _ _ _ _ Hdoc). cbn [fst snd].
    rewrite desk_eta, run_bind, run_on_model.
    destruct (strict_eq_num (get doc "docstatus") 0).
    + rewrite run_bind, (run_get_prop _ _ _ _ Hdoc), Hitems, run_ret. cbn [fst snd].
      now rewrite desk_eta.
    + rewrite run_ret. cbn [fst snd]. now rewrite desk_eta.
  - intros rows Hdraft Hitems Hrows.
    rewrite (run_receipt_refresh _ _ _ _ Hdoc Hitems Hrows), Hdraft. reflexivity.
Qed.

Lemma get_guard_fallback row k :
  k ≠ "item_code" -> get (guard_fallback row) k = get row k.
Proof.
  intros Hne. unfold guard_fallback. destruct (fixable row); [|reflexivity].
  apply get_insert_ne. congruence.
Qed.

(** X21.  The note promises that the codes are corrected on save.
    On a draft receipt [before_save] keeps that promise for the rows
    with a budget code that is not numeric: when every row has one, a
    refresh after the save posts no note.  It does not keep it for a
    row without a budget code: when some row has a numeric item code
    and no budget code, the refresh after the save posts the note
    again. *)
Theorem note_after_save frm d doc rows :
  lookup_doc (doc_ref frm) (model d) = Some doc ->
  strict_eq_num (get doc "docstatus") 0 = true ->
  get doc "items" = VRows rows ->
  (forall r, r ∈ rows ->
     exists row, lookup_doc r (model d) = Some row /\ well_named r row) ->
  let saved := exec (on_model (PurchaseReceiptGuard.before_save frm)) d in
  ((forall r row, r ∈ rows -> lookup_doc r (model d) = Some row ->
      truthy (get row "code_analytique") = true /\
      numeric_code (get row "code_analytique") = false) ->
   asked (exec (PurchaseReceiptForm.refresh frm) saved) = asked d) /\
  ((exists r row, r ∈ rows /\ lookup_doc r (model d) = Some row /\
      numeric_code (get row "item_code") = true /\
      truthy (get row "code_analytique") = false) ->
   asked (exec (PurchaseReceiptForm.refresh frm) saved) = (asked d ++ [note])%list).
Proof.
  intros Hdoc Hdraft Hitems Hrows saved.
  assert (Hsaved : saved = Desk (foldl (fun w r => sanitize_at r w) (model d) rows)
                             (asked d)).
  { subst saved. unfold exec. rewrite run_on_model.
    now rewrite (run_before_save _ _ _ _ Hdoc Hitems Hrows). }
  set (w' := foldl (fun w r => sanitize_at r w) (model d) rows) in Hsaved.
  clearbody saved. subst saved.
  assert (Hdoc' : exists doc', lookup_doc (doc_ref frm) w' = Some doc' /\
                    get doc' "docstatus" = get doc "docstatus" /\
                    get doc' "items" = VRows rows).
  { subst w'. rewrite lookup_sanitize_all, Hdoc.
    destruct (decide (doc_ref frm ∈ rows)); cbn [fmap option_fmap option_map].
    - eexists. split; [reflexivity|].
      rewrite !get_guard_fallback by discriminate. now split.
    - eexists. split; [reflexivity|]. now split. }
  destruct Hdoc' as (doc' & Hdoc' & Hstatus & Hitems').
  assert (Hrows' : forall r, r ∈ rows -> is_Some (lookup_doc r w')).
  { intros r Hin. subst w'.
    rewrite lookup_sanitize_all, decide_True by assumption.
    destruct (Hrows r Hin) as (row & -> & _). now eexists. }
  assert (Hrun := run_receipt_refresh frm (Desk w' (asked d)) doc' rows
                    Hdoc' Hitems' Hrows').
  rewrite Hstatus, Hdraft in Hrun. cbn [andb model asked] in Hrun.
  unfold exec. rewrite Hrun. cbn [snd asked].
  assert (Hat : forall r, r ∈ rows ->
            numeric_at w' r
            = match lookup_doc r (model d) with
              | Some row => numeric_code (get (guard_fallback row) "item_code")
              | None => false
              end).
  { intros r Hin. unfold numeric_at. subst w'.
    rewrite lookup_sanitize_all, decide_True by assumption.
    now destruct (lookup_doc r (model d)). }
  split.
  - intros Hcodes.
    assert (Hnone : existsb (numeric_at w') rows = false).
    { apply not_true_is_false. intros Hsome.
      apply existsb_exists in Hsome as (r & Hin & Hnum).
      apply list_elem_of_In in Hin. rewrite (Hat r Hin) in Hnum.
      destruct (Hrows r Hin) as (row & Hrow & _). rewrite Hrow in Hnum.
      destruct (Hcodes r row Hin Hrow) as [Hca Hclean].
      now rewrite (guard_fallback_clean row Hca Hclean) in Hnum. }
    rewrite Hnone. apply app_nil_r.
  - intros (r & row & Hin & Hrow & Hnum & Hca).
    assert (Hsome : existsb (numeric_at w') rows = true).
    { apply existsb_exists. exists r. split; [now apply list_elem_of_In|].
      rewrite (Hat r Hin), Hrow, guard_fallback_without by assumption. exact Hnum. }
    now rewrite Hsome.
Qed.

End ReceiptNote.

(** ** The installation script in a bench directory *)

Section InstallRuns.
Import InstallOnTarget.
Variable bench_result : list string -> machine -> Z * list string.

(** What the script tests before it changes anything: the file
    sites/apps.txt, the directory sdrt, a site name, and the directory
    of that site. *)
Definition ready (argv : list string) (m : machine) : bool :=
  bool_decide ("sites/apps.txt" ∈ files m) &&
  bool_decide ("sdrt" ∈ dirs m) &&
  negb (String.eqb (nth 0 argv "") "") &&
  bool_decide ("sites/" +:+ nth 0 argv "" ∈ dirs m).

(** Printing, as opposed to moving, appending and running bench. *)
Definition is_report (a : action) : bool :=
  match a with
  | Echo _ | Ls _ => true
  | _ => false
  end.

Lemma run_test_d path m :
  test_d path m = (Normal (bool_decide (path ∈ dirs m)), m).
Proof. reflexivity. Qed.

Lemma run_list_sites m :
  exists shown c,
    list_sites m =
    (c, Machine (files m) (dirs m) (apps_txt m) (sites m) (pwd m) (did m ++ [Ls shown]))
    /\ (c = Normal tt \/ c = Abrupt 1).
Proof.
  unfold list_sites.
  destruct (filter _ (sites m)); do 2 eexists; (split; [reflexivity|]); auto.
Qed.

Ltac sh :=
  repeat (rewrite ?run_bind, ?run_echo, ?run_test_f, ?run_test_d, ?run_exit, ?run_ret;
          cbn [files dirs apps_txt sites pwd did negb Stmt.when]).

(** X22.  Each of the four checks the script starts with ends the run
    with status 1 when it fails, and by then the script has only
    printed: the files, the directories and sites/apps.txt are as they
    were, nothing was moved or appended, and no bench command was
    run. *)
Theorem failed_check_exits_1 script argv m :
  ready argv m = false ->
  exists said,
    install_on_target bench_result script argv m =
    (Abrupt 1,
     Machine (files m) (dirs m) (apps_txt m) (sites m) (pwd m) (did m ++ said)) /\
    forallb is_report said = true.
Proof.
  unfold ready, install_on_target. intros Hready. sh.
  destruct (bool_decide ("sites/apps.txt" ∈ files m)); sh.
  2:{ eexists. rewrite <- !app_assoc. split; reflexivity. }
  destruct (bool_decide ("sdrt" ∈ dirs m)); sh.
  2:{ eexists. rewrite <- !app_assoc. split; reflexivity. }
  destruct (String.eqb (nth 0 argv "") ""); sh.
  { eexists. rewrite <- !app_assoc. split; reflexivity. }
  destruct (bool_decide ("sites/" +:+ nth 0 argv "" ∈ dirs m)); [discriminate Hready|].
  sh.
  match goal with
  | |- context [list_sites ?mm] =>
      destruct (run_list_sites mm) as (shown & c & -> & [-> | ->])
  end; sh; eexists; rewrite <- !app_assoc; split; reflexivity.
Qed.

(** The app is in [apps] already, or there is an [apps] directory to
    move it to. *)
Definition placed (m : machine) : bool :=
  bool_decide ("apps/sdrt" ∈ dirs m) || bool_decide ("apps" ∈ dirs m).

Definition listed (m : machine) : bool := existsb (String.eqb "sdrt") (apps_txt m).

(** The bench commands among the actions, in order. *)
Definition bench_log (acts : list action) : list (list string) :=
  omap (fun a => match a with Bench args => Some args | _ => None end) acts.


Definition on_site (SITE_NAME : string) (command : list string) : list string :=
  ["--site"] ++ words SITE_NAME ++ command.

(** The commands whose failure ends the run, in the order of the
    script. *)
Definition strict_commands (SITE_NAME : string) : list (list string) :=
  [on_site SITE_NAME ["install-app"; "sdrt"];
   on_site SITE_NAME ["clear-cache"];
   ["build"; "--app"; "sdrt"];
   on_site SITE_NAME ["migrate"];
   ["restart"]].

Definition get_app (m : machine) : list string := ["get-app"; pwd m +:+ "/apps/sdrt"].

Lemma run_bench args m :
  bench bench_result args m =
  (if fst (bench_result args m) =? 0 then Normal tt
   else Abrupt (fst (bench_result args m)),
   Machine (files m) (dirs m) (apps_txt m) (sites m) (pwd m) (did m ++ [Bench args])).
Proof. unfold bench. now destruct (_ =? 0). Qed.

Lemma run_bench_status args m :
  bench_status bench_result args m =
  (Normal (fst (bench_result args m)),
   Machine (files m) (dirs m) (apps_txt m) (sites m) (pwd m) (did m ++ [Bench args])).
Proof. reflexivity. Qed.

Lemma run_bench_output args m :
  bench_output bench_result args m =
  (Normal (snd (bench_result args m)),
   Machine (files m) (dirs m) (apps_txt m) (sites m) (pwd m) (did m ++ [Bench args])).
Proof. reflexivity. Qed.

Lemma run_mv_sdrt_to_apps m :
  mv_sdrt_to_apps m =
  if bool_decide ("apps" ∈ dirs m)
  then (Normal tt,
        Machine (files m) ({["apps/sdrt"]} ∪ dirs m ∖ {["sdrt"]})
                (apps_txt m) (sites m) (pwd m) (did m ++ [Mv "sdrt" "apps/"]))
  else (Abrupt 1,
        Machine (files m) (dirs m) (apps_txt m) (sites m) (pwd m)
                (did m ++ [Mv "sdrt" "apps/"])).
Proof. reflexivity. Qed.

Lemma run_append_sdrt m :
  append_sdrt m =
  (Normal tt,
   Machine (files m) (dirs m) (apps_txt m ++ ["sdrt"]) (sites m) (pwd m)
           (did m ++ [Append "sdrt" "sites/apps.txt"])).
Proof. reflexivity. Qed.










Ltac sh1 :=
  lazymatch goal with
  | |- context [(bench_status _ _ ≫= _) _] => fail
  | _ =>
      first [ progress cbn beta iota delta [files dirs apps_txt sites pwd did negb Stmt.when]
            | rewrite run_echo | rewrite run_test_f | rewrite run_test_d
            | rewrite run_ret | rewrite run_mv_sdrt_to_apps
            | rewrite run_append_sdrt | rewrite run_bind ]
  end.

Lemma ready_true argv m :
  ready argv m = true ->
  bool_decide ("sites/apps.txt" ∈ files m) = true /\
  bool_decide ("sdrt" ∈ dirs m) = true /\
  String.eqb (nth 0 argv "") "" = false /\
  bool_decide ("sites/" +:+ nth 0 argv "" ∈ dirs m) = true.
Proof.
  unfold ready. intros Hready.
  apply andb_prop in Hready as [Hready Hsite].
  apply andb_prop in Hready as [Hready Harg].
  apply andb_prop in Hready as [Hfile Hdir].
  apply negb_true_iff in Harg. auto.
Qed.




(** A statement that completes after running the bench commands
    [commands], in this order, and otherwise only prints. *)
Definition runs {A} (s : Sh A) (commands : list (list string)) : Prop :=
  forall m, exists a acts,
    s m = (Normal a,
           Machine (files m) (dirs m) (apps_txt m) (sites m) (pwd m) (did m ++ acts)) /\
    bench_log acts = commands.

(** A statement that ends the run with [status] after running the
    bench commands [commands], and otherwise only prints. *)
Definition stops {A} (s : Sh A) (status : Z) (commands : list (list string)) : Prop :=
  forall m, exists acts,
    s m = (Abrupt status,
           Machine (files m) (dirs m) (apps_txt m) (sites m) (pwd m) (did m ++ acts)) /\
    bench_log acts = commands.

Lemma bench_log_app acts acts' :
  bench_log (acts ++ acts') = (bench_log acts ++ bench_log acts')%list.
Proof. apply omap_app. Qed.

Lemma runs_ret {A} (a : A) : runs (mret a) [].
Proof. intros m. exists a, []. rewrite app_nil_r. now destruct m. Qed.

Lemma runs_echo line : runs (echo line) [].
Proof. intros m. now exists tt, [Echo line]. Qed.

Lemma runs_bench args :
  (forall m0, fst (bench_result args m0) = 0) -> runs (bench bench_result args) [args].
Proof. intros Hok m. exists tt, [Bench args]. now rewrite run_bench, Hok. Qed.

Lemma runs_bench_status args : runs (bench_status bench_result args) [args].
Proof. intros m. now exists (fst (bench_result args m)), [Bench args]. Qed.

Lemma runs_bench_output args : runs (bench_output bench_result args) [args].
Proof. intros m. now exists (snd (bench_result args m)), [Bench args]. Qed.

Lemma runs_bind {A B} (s : Sh A) (k : A -> Sh B) commands commands' :
  runs s commands -> (forall a, runs (k a) commands') ->
  runs (s ≫= k) (commands ++ commands').
Proof.
  intros Hs Hk m. rewrite run_bind.
  destruct (Hs m) as (a & acts & -> & Hlog).
  destruct (Hk a (Machine (files m) (dirs m) (apps_txt m) (sites m) (pwd m)
                    (did m ++ acts))) as (b & acts' & -> & Hlog').
  cbn [files dirs apps_txt sites pwd did].
  exists b, (acts ++ acts')%list. rewrite app_assoc. split; [reflexivity|].
  now rewrite bench_log_app, Hlog, Hlog'.
Qed.

Lemma runs_quietly {A B} (s : Sh A) (k : A -> Sh B) :
  runs s [] -> (forall a, runs (k a) []) -> runs (s ≫= k) [].
Proof. intros Hs Hk. now apply (runs_bind s k [] []). Qed.

Lemma runs_when b (s : Sh unit) : runs s [] -> runs (when b s) [].
Proof. destruct b; [trivial | intros _; apply runs_ret]. Qed.

Lemma stops_bench args status :
  (forall m0, fst (bench_result args m0) = status) -> status ≠ 0 ->
  stops (bench bench_result args) status [args].
Proof.
  intros Hfails Hstatus m. exists [Bench args]. rewrite run_bench, Hfails.
  apply Z.eqb_neq in Hstatus. now rewrite Hstatus.
Qed.

Lemma stops_now {A B} (s : Sh A) (k : A -> Sh B) status commands :
  stops s status commands -> stops (s ≫= k) status commands.
Proof.
  intros Hs m. rewrite run_bind. destruct (Hs m) as (acts & -> & Hlog).
  now exists acts.
Qed.

Lemma stops_later {A B} (s : Sh A) (k : A -> Sh B) status commands commands' :
  runs s commands -> (forall a, stops (k a) status commands') ->
  stops (s ≫= k) status (commands ++ commands').
Proof.
  intros Hs Hk m. rewrite run_bind.
  destruct (Hs m) as (a & acts & -> & Hlog).
  destruct (Hk a (Machine (files m) (dirs m) (apps_txt m) (sites m) (pwd m)
                    (did m ++ acts))) as (acts' & -> & Hlog').
  cbn [files dirs apps_txt sites pwd did].
  exists (acts ++ acts')%list. rewrite app_assoc. split; [reflexivity|].
  now rewrite bench_log_app, Hlog, Hlog'.
Qed.

Lemma runs_after (s : Sh unit) commands F D T S P d pre log :
  runs s commands ->
  (bench_log pre ++ commands)%list = log ->
  exists acts,
    s (Machine F D T S P (d ++ pre)) = (Normal tt, Machine F D T S P (d ++ acts)) /\
    bench_log acts = log.
Proof.
  intros Hs <-. destruct (Hs (Machine F D T S P (d ++ pre))) as ([] & acts & -> & <-).
  cbn [files dirs apps_txt sites pwd did].
  exists (pre ++ acts)%list. now rewrite app_assoc, bench_log_app.
Qed.

Lemma stops_after {A} (s : Sh A) status commands F D T S P d pre log :
  stops s status commands ->
  (bench_log pre ++ commands)%list = log ->
  exists acts,
    s (Machine F D T S P (d ++ pre)) = (Abrupt status, Machine F D T S P (d ++ acts)) /\
    bench_log acts = log.
Proof.
  intros Hs <-. destruct (Hs (Machine F D T S P (d ++ pre))) as (acts & -> & <-).
  cbn [files dirs apps_txt sites pwd did].
  exists (pre ++ acts)%list. now rewrite app_assoc, bench_log_app.
Qed.

Ltac running :=
  repeat lazymatch goal with
    | |- runs (_ ≫= _) [] => apply runs_quietly; [|intros ?]
    | |- runs (_ ≫= _) _ => eapply runs_bind; [|intros ?]
    | |- runs (echo _) _ => apply runs_echo
    | |- runs (bench _ _) _ => apply runs_bench; assumption
    | |- runs (bench_status _ _) _ => apply runs_bench_status
    | |- runs (bench_output _ _) _ => apply runs_bench_output
    | |- runs (when _ _) _ => apply runs_when
    | |- runs (if ?b then _ else _) ?c =>
        unify c (@nil (list string)); destruct b
    | |- runs (mret _) _ => apply runs_ret
    end.

(** The run up to [bench get-app], for every way steps 1 and 2 can go. *)
Ltac to_the_bench Hfile Hdir Harg Hsite Hplaced m :=
  repeat first [sh1 | rewrite Hfile | rewrite Hdir | rewrite Harg | rewrite Hsite];
  destruct (bool_decide ("apps/sdrt" ∈ dirs m)); cbn [orb negb] in *;
  repeat first [sh1 | rewrite Hplaced];
  destruct (existsb (String.eqb "sdrt") (apps_txt m)); repeat sh1;
  rewrite <- !app_assoc, ?app_nil_r.

Lemma run_install_completes script argv m :
  ready argv m = true -> placed m = true ->
  Forall (fun command => forall m0, fst (bench_result command m0) = 0)
         (strict_commands (nth 0 argv "")) ->
  exists acts,
    install_on_target bench_result script argv m =
    (Normal tt,
     Machine (files m)
       (if bool_decide ("apps/sdrt" ∈ dirs m) then dirs m
        else {["apps/sdrt"]} ∪ dirs m ∖ {["sdrt"]})
       (apps_txt m ++ if listed m then [] else ["sdrt"])
       (sites m) (pwd m) (did m ++ acts)) /\
    bench_log acts =
    (get_app m :: strict_commands (nth 0 argv "")
     ++ [on_site (nth 0 argv "") ["list-apps"]])%list.
Proof.
  intros Hready Hplaced Hstrict.
  destruct (ready_true _ _ Hready) as (Hfile & Hdir & Harg & Hsite).
  unfold strict_commands in Hstrict.
  apply Forall_cons in Hstrict as [H1 Hstrict].
  apply Forall_cons in Hstrict as [H2 Hstrict].
  apply Forall_cons in Hstrict as [H3 Hstrict].
  apply Forall_cons in Hstrict as [H4 Hstrict].
  apply Forall_cons in Hstrict as [H5 _].
  unfold on_site in *.
  unfold placed in Hplaced. unfold install_on_target, get_app, listed.
  to_the_bench Hfile Hdir Harg Hsite Hplaced m;
    (eapply runs_after; [running | reflexivity]).
Qed.

(** X25.  Only the five strict commands decide whether a run
    completes.  Past the checks, when install-app, clear-cache, build,
    migrate and restart succeed, the run completes, whatever
    [bench get-app] returns and whether or not the list of apps shows
    sdrt; it has then run the seven bench commands of the script in
    order. *)
Theorem run_completes_when_strict_commands_succeed script argv m :
  ready argv m = true -> placed m = true ->
  Forall (fun command => forall m0, fst (bench_result command m0) = 0)
         (strict_commands (nth 0 argv "")) ->
  fst (install_on_target bench_result script argv m) = Normal tt /\
  exists acts,
    did (exec (install_on_target bench_result script argv) m) = (did m ++ acts)%list /\
    bench_log acts =
    (get_app m :: strict_commands (nth 0 argv "")
     ++ [on_site (nth 0 argv "") ["list-apps"]])%list.
Proof.
  intros Hready Hplaced Hstrict. unfold exec.
  destruct (run_install_completes script argv m Hready Hplaced Hstrict)
    as (acts & -> & Hlog).
  split; [reflexivity|]. now exists acts.
Qed.

Ltac stopping Hfails Hstatus :=
  repeat lazymatch goal with
    | |- stops (bench _ _ ≫= _) _ _ =>
        first [ apply stops_now, (stops_bench _ _ Hfails Hstatus)
              | eapply stops_later; [apply runs_bench; assumption | intros ?] ]
    | |- stops (_ ≫= _) _ _ => eapply stops_later; [running | intros ?]
    end.

Lemma run_install_stops script argv m i command status :
  ready argv m = true -> placed m = true ->
  strict_commands (nth 0 argv "") !! i = Some command ->
  Forall (fun command => forall m0, fst (bench_result command m0) = 0)
         (take i (strict_commands (nth 0 argv ""))) ->
  (forall m0, fst (bench_result command m0) = status) -> status ≠ 0 ->
  exists acts,
    install_on_target bench_result script argv m =
    (Abrupt status,
     Machine (files m)
       (if bool_decide ("apps/sdrt" ∈ dirs m) then dirs m
        else {["apps/sdrt"]} ∪ dirs m ∖ {["sdrt"]})
       (apps_txt m ++ if listed m then [] else ["sdrt"])
       (sites m) (pwd m) (did m ++ acts)) /\
    bench_log acts = get_app m :: take (S i) (strict_commands (nth 0 argv "")).
Proof.
  intros Hready Hplaced Hcommand Hbefore Hfails Hstatus.
  destruct (ready_true _ _ Hready) as (Hfile & Hdir & Harg & Hsite).
  unfold placed in Hplaced. unfold install_on_target, get_app, listed.
  to_the_bench Hfile Hdir Harg Hsite Hplaced m;
    unfold strict_commands, on_site in *;
    (destruct i as [|[|[|[|[|i]]]]]; [..|discriminate Hcommand]);
    cbn [lookup list_lookup] in Hcommand;
    apply (inj Some) in Hcommand; subst command;
    cbn [take] in Hbefore;
    repeat match type of Hbefore with
      | Forall _ (_ :: _) =>
          let H := fresh "Hok" in apply Forall_cons in Hbefore as [H Hbefore]
      end;
    (eapply stops_after; [stopping Hfails Hstatus | reflexivity]).
Qed.

(** X26.  Under [set -e] the first strict command that fails ends the
    run with its status.  Past the checks, when one of install-app,
    clear-cache, build, migrate and restart fails and those before it
    succeed, the run ends with the status of that command, and the
    bench commands that were run are get-app and the strict commands up
    to the one that failed: none after it. *)
Theorem failed_command_ends_the_run script argv m i command status :
  ready argv m = true -> placed m = true ->
  strict_commands (nth 0 argv "") !! i = Some command ->
  Forall (fun command => forall m0, fst (bench_result command m0) = 0)
         (take i (strict_commands (nth 0 argv ""))) ->
  (forall m0, fst (bench_result command m0) = status) -> status ≠ 0 ->
  fst (install_on_target bench_result script argv m) = Abrupt status /\
  exists acts,
    did (exec (install_on_target bench_result script argv) m) = (did m ++ acts)%list /\
    bench_log acts = get_app m :: take (S i) (strict_commands (nth 0 argv "")).
Proof.
  intros Hready Hplaced Hcommand Hbefore Hfails Hstatus. unfold exec.
  destruct (run_install_stops script argv m i command status
              Hready Hplaced Hcommand Hbefore Hfails Hstatus) as (acts & -> & Hlog).
  split; [reflexivity|]. now exists acts.
Qed.

End InstallRuns.

(** ** The handlers on a site *)

Section HandlersOnSite.
Import Desk.
#[local] Existing Instance Site.site.

(** A row of an order with a budget code and no item code yet. *)
Definition budget_row : obj :=
  {[ "doctype" := VStr order_item; "name" := VStr "row-1";
     "code_analytique" := VStr "SDR-2024-001" ]}.

Lemma guards_change_only_item_code_witness :
  field (receipt_item, "row-1") "code_analytique"
    (exec (PurchaseReceiptGuard.before_save receipt) (receipt_with row_with_fallback))
  = Some (VStr "SDR-2024-001").
Proof.
  rewrite (proj2 (guards_change_only_item_code receipt receipt_item "row-1"
                    (receipt_with row_with_fallback)))
    by discriminate.
  reflexivity.
Defined.

Lemma budget_code_settles_item_code_witness :
  field (order_item, "row-1") "item_code"
    (exec (PurchaseOrderItem.code_analytique order order_item "row-1")
       (order_with budget_row))
  = Some (VStr "SDR-2024-001").
Proof.
  apply (proj1 (budget_code_settles_item_code order order_item "row-1"
                  (order_with budget_row)) budget_row); reflexivity.
Defined.

Lemma ensure_budget_item_called_with_description_witness :
  PurchaseReceiptPublic.code_analytique receipt receipt_item "row-1"
    (receipt_with row_with_fallback)
  = (Normal tt,
     World (locals (receipt_with row_with_fallback))
       [Call "sdrt.sdrt.custom.ensure_budget_item"
          [("code", VStr "SDR-2024-001"); ("description", VStr "SDR-2024-001")]]).
Proof.
  exact (proj1 (ensure_budget_item_called_with_description receipt receipt_item "row-1"
                  (receipt_with row_with_fallback) row_with_fallback
                  (lookup_receipt_row row_with_fallback))).
Defined.



(** Three units at ten each. *)
Definition priced_row : obj :=
  {[ "doctype" := VStr order_item; "name" := VStr "row-1";
     "qty" := VNum 3; "rate" := VNum 10 ]}.

Lemma amount_follows_nonzero_quantity_and_rate_witness :
  lookup_doc (order_item, "row-1")
    (model (exec (PurchaseOrderForm.qty order order_item "row-1")
              (Desk (order_with priced_row) [])))
  = Some (<["amount" := VNum 30]> priced_row).
Proof.
  destruct (amount_follows_nonzero_quantity_and_rate order order_item "row-1"
              (Desk (order_with priced_row) []) priced_row eq_refl)
    as (_ & _ & Hamount & _).
  exact (Hamount eq_refl).
Defined.

(** [JSON.stringify] of an array of names. *)
Definition json_char (c : ascii) : string :=
  let quote := String "034" "" in
  let backslash := String "092" "" in
  let hex (n : nat) : string :=
    String (nth n (list_ascii_of_string "0123456789abcdef") "0"%char) "" in
  if Ascii.eqb c "034" then backslash +:+ quote
  else if Ascii.eqb c "092" then backslash +:+ backslash
  else if Ascii.eqb c "008" then backslash +:+ "b"
  else if Ascii.eqb c "012" then backslash +:+ "f"
  else if Ascii.eqb c "010" then backslash +:+ "n"
  else if Ascii.eqb c "013" then backslash +:+ "r"
  else if Ascii.eqb c "009" then backslash +:+ "t"
  else if (nat_of_ascii c <? 32)%nat
       then backslash +:+ "u00" +:+ hex (nat_of_ascii c / 16)%nat
                      +:+ hex (nat_of_ascii c mod 16)%nat
  else String c "".

Definition json_string (s : string) : string :=
  String "034" "" +:+ String.concat "" (map json_char (list_ascii_of_string s))
  +:+ String "034" "".

Definition JSON_stringify (names : list string) : string :=
  "[" +:+ String.concat "," (map json_string names) +:+ "]".

(** A draft order to a supplier. *)
Definition draft_order : world :=
  World {[ "Purchase Order" :=
             {[ "PUR-ORD-0001" :=
                  {[ "docstatus" := VNum 0; "supplier" := VStr "SUP-0001";
                     "company" := VStr "SDRT";
                     "items" := VRows [(order_item, "row-1")] ]} ]};
           order_item := {[ "row-1" := coded_row ]} ]} [].

Lemma refresh_acts_on_drafts_only_witness :
  asked (exec (PurchaseOrderForm.refresh order) (Desk draft_order []))
  = [AddCustomButton "Fetch Demande de Matériel" "Get Items From"].
Proof.
  exact (proj2 (proj2 (refresh_acts_on_drafts_only order (Desk draft_order []) _ eq_refl)
                  eq_refl)).
Defined.

Lemma fetch_needs_supplier_and_selection_witness :
  PurchaseOrderForm.action JSON_stringify order ["MAT-MR-0001"; "MAT-MR-0002"]
    (Desk draft_order [])
  = (Normal tt,
     Desk draft_order
       [FrozenCall "sdrt.sdrt.custom.get_multi_da_budget_lines"
          [("material_requests",
            VStr (JSON_stringify ["MAT-MR-0001"; "MAT-MR-0002"]));
           ("supplier", VStr "SUP-0001")]
          "Fetching budget lines..."]).
Proof.
  exact (proj2 (fetch_needs_supplier_and_selection JSON_stringify order
                  (Desk draft_order []) _ ["MAT-MR-0001"; "MAT-MR-0002"] eq_refl)).
Defined.

(** A draft receipt whose table holds the one row. *)
Definition draft_receipt_with (row : obj) : world :=
  World {[ "Purchase Receipt" :=
             {[ "MAT-PRE-0001" :=
                  {[ "docstatus" := VNum 0;
                     "items" := VRows [(receipt_item, "row-1")] ]} ]};
           receipt_item := {[ "row-1" := row ]} ]} [].

Lemma receipt_row_there row r :
  r ∈ [(receipt_item, "row-1")] ->
  is_Some (lookup_doc r (draft_receipt_with row)).
Proof. intros Hin. apply list_elem_of_singleton in Hin as ->. now exists row. Qed.

Lemma receipt_note_iff_numeric_code_witness :
  PurchaseReceiptForm.refresh receipt (Desk (draft_receipt_with row_without_fallback) [])
  = (Normal tt, Desk (draft_receipt_with row_without_fallback) [note]).
Proof.
  exact (proj2 (proj2 (receipt_note_iff_numeric_code receipt
                         (Desk (draft_receipt_with row_without_fallback) []) _ eq_refl))
           [(receipt_item, "row-1")] eq_refl eq_refl
           (receipt_row_there row_without_fallback)).
Defined.

Lemma receipt_row_named row r :
  well_named (receipt_item, "row-1") row ->
  r ∈ [(receipt_item, "row-1")] ->
  exists row', lookup_doc r (draft_receipt_with row) = Some row' /\ well_named r row'.
Proof. intros Hnamed Hin. apply list_elem_of_singleton in Hin as ->. now exists row. Qed.

Lemma note_after_save_witness :
  asked (exec (PurchaseReceiptForm.refresh receipt)
           (exec (on_model (PurchaseReceiptGuard.before_save receipt))
              (Desk (draft_receipt_with row_with_fallback) [])))
  = [] /\
  asked (exec (PurchaseReceiptForm.refresh receipt)
           (exec (on_model (PurchaseReceiptGuard.before_save receipt))
              (Desk (draft_receipt_with row_without_fallback) [])))
  = [note].
Proof.
  split.
  - apply (proj1 (note_after_save receipt (Desk (draft_receipt_with row_with_fallback) [])
                    _ [(receipt_item, "row-1")] eq_refl eq_refl eq_refl
                    (fun r => receipt_row_named row_with_fallback r (conj eq_refl eq_refl)))).
    intros r row Hin Hrow. apply list_elem_of_singleton in Hin as ->.
    apply (inj Some) in Hrow as <-. split; reflexivity.
  - apply (proj2 (note_after_save receipt (Desk (draft_receipt_with row_without_fallback) [])
                    _ [(receipt_item, "row-1")] eq_refl eq_refl eq_refl
                    (fun r => receipt_row_named row_without_fallback r
                                (conj eq_refl eq_refl)))).
    exists (receipt_item, "row-1"), row_without_fallback.
    split; [apply list_elem_of_singleton; reflexivity|].
    repeat split; reflexivity.
Defined.

End HandlersOnSite.

(** ** The installation script on a bench *)

Section BenchOnSite.
Import InstallOnTarget.

(** A bench directory with one site and the unpacked app. *)
Definition bench_dir : machine :=
  Machine {[ "sites/apps.txt"; "sites/common_site_config.json" ]}
          {[ "apps"; "sites"; "sites/assets"; "sites/site1.local"; "sdrt" ]}
          ["frappe"; "erpnext"]
          ["apps.txt"; "assets"; "common_site_config.json"; "site1.local"]
          "/home/frappe/frappe-bench" [].


(** A bench where [get-app] fails and [list-apps] shows nothing, and
    one where the migration fails with status 2. *)
Definition registered_bench (args : list string) (m : machine) : Z * list string :=
  if bool_decide (nth 0 args "" = "get-app") then (1, []) else (0, []).

Definition failing_migration (args : list string) (m : machine) : Z * list string :=
  if bool_decide (args = ["--site"; "site1.local"; "migrate"]) then (2, []) else (0, []).

Lemma failed_check_exits_1_witness :
  exists said,
    install_on_target registered_bench "install_on_target.sh" [] bench_dir =
    (Abrupt 1,
     Machine (files bench_dir) (dirs bench_dir) (apps_txt bench_dir) (sites bench_dir)
             (pwd bench_dir) (did bench_dir ++ said)) /\
    forallb is_report said = true.
Proof.
  apply (failed_check_exits_1 registered_bench "install_on_target.sh" [] bench_dir).
  vm_compute. reflexivity.
Defined.



Lemma run_completes_when_strict_commands_succeed_witness :
  fst (install_on_target registered_bench "install_on_target.sh" ["site1.local"]
         bench_dir)
  = Normal tt.
Proof.
  apply (run_completes_when_strict_commands_succeed registered_bench
           "install_on_target.sh" ["site1.local"] bench_dir).
  - vm_compute. reflexivity.
  - vm_compute. reflexivity.
  - repeat constructor.
Defined.

Lemma failed_command_ends_the_run_witness :
  fst (install_on_target failing_migration "install_on_target.sh" ["site1.local"]
         bench_dir)
  = Abrupt 2.
Proof.
  apply (failed_command_ends_the_run failing_migration "install_on_target.sh"
           ["site1.local"] bench_dir 3 ["--site"; "site1.local"; "migrate"] 2).
  - vm_compute. reflexivity.
  - vm_compute. reflexivity.
  - reflexivity.
  - repeat constructor.
  - reflexivity.
  - discriminate.
Defined.

End BenchOnSite.
